(** * 3DRack: module/project validation and panel-to-3D projection

    A shallow embedding of the validation, normalisation and projection code
    of [ModuleDesignService.js], [ProjectManagementService.js] and of the
    [EuroRackApp] class, with the properties of the specification stated
    against it.  The second half of the properties covers the rest of these
    files (the project store, rack utilisation and power consumption, the
    generation service) and the checks of [FileUploadService.js],
    [ErrorService.js] and [AppController.js] that the services rely on.

    Conventions of the embedding.
    - A JavaScript number is an exact rational ([Q]).  Rounding error,
      overflow, infinities, [-0] and [NaN] are outside the model; a run whose
      next step would need one of them ends in [Unsupported].
    - A string is a [string] of bytes; the model is exact on ASCII text,
      where bytes and UTF-16 code units coincide.
    - A plain object is a finite map from property names to values; an array
      is a list.  The property names read by the services are fixed
      identifiers, none of them an array index or a prototype member.
    - An exception is a [Throw] outcome; [try]/[catch] is a match on it.
    - The state that outlives a call (the error log, the project cache, the
      stored projects) is passed in and out explicitly.  The fields set once
      in the constructors ([_standards], the schemas) are never assigned
      again and are constants.
    - The text under the projects key of [localStorage] is identified with
      the value it parses to. *)

From Stdlib Require Import String Ascii List ZArith QArith Qround Lqa Lia Bool.
From Stdlib Require Import Sorting.Sorted Sorting.Permutation Qabs.
From stdpp Require Import base option list gmap strings pretty.
From Corelib Require Import PrimFloat.
Import ListNotations.

Set Warnings "-register-all".
Local Open Scope string_scope.
Local Open Scope Q_scope.

(** ** A fragment of JavaScript *)

Module Js.

Inductive value : Type :=
| VUndefined
| VNull
| VBool (b : bool)
| VNum (q : Q)
| VStr (s : string)
| VArr (items : list value)
| VObj (props : gmap string value).

Inductive exn : Type :=
| TypeError (msg : string)
| SyntaxError (msg : string)
| Error (msg : string).

(** The result of running a piece of code: a value, an exception, or a step
    that the fragment does not cover. *)
Inductive outcome (A : Type) : Type :=
| Ok (a : A)
| Throw (e : exn)
| Unsupported.

Arguments Ok {A} a.
Arguments Throw {A} e.
Arguments Unsupported {A}.

Definition bind {A B : Type} (c : outcome A) (k : A -> outcome B) : outcome B :=
  match c with
  | Ok a => k a
  | Throw e => Throw e
  | Unsupported => Unsupported
  end.

Declare Scope js_scope.
Delimit Scope js_scope with js.
Notation "'let*' x := c 'in' k" := (bind c (fun x => k))
  (at level 10, x name, c at level 100, k at level 200) : js_scope.
Local Open Scope js_scope.

(** [typeof v] *)
Definition typeof (v : value) : string :=
  match v with
  | VUndefined => "undefined"
  | VNull => "object"
  | VBool _ => "boolean"
  | VNum _ => "number"
  | VStr _ => "string"
  | VArr _ => "object"
  | VObj _ => "object"
  end.

(** ToBoolean *)
Definition truthy (v : value) : bool :=
  match v with
  | VUndefined => false
  | VNull => false
  | VBool b => b
  | VNum q => negb (Qeq_bool q 0)
  | VStr s => negb (String.eqb s "")
  | VArr _ => true
  | VObj _ => true
  end.

(** [a || b] *)
Definition or_else (a b : value) : value := if truthy a then a else b.

(** [v === undefined || v === null] *)
Definition nullish (v : value) : bool :=
  match v with
  | VUndefined | VNull => true
  | _ => false
  end.

Definition is_undefined (v : value) : bool :=
  match v with VUndefined => true | _ => false end.

(** [o[k]] for a receiver that is neither [undefined] nor [null] and a
    property name [k] that is no array index: an own property of an object,
    the [length] of a string or an array, [undefined] otherwise. *)
Definition field_of (o : value) (k : string) : value :=
  match o with
  | VObj props => default VUndefined (props !! k)
  | VStr s =>
      if String.eqb k "length"
      then VNum (inject_Z (Z.of_nat (String.length s))) else VUndefined
  | VArr items =>
      if String.eqb k "length"
      then VNum (inject_Z (Z.of_nat (List.length items))) else VUndefined
  | _ => VUndefined
  end.

(** [o[k]] and [o.k] *)
Definition get (o : value) (k : string) : outcome value :=
  match o with
  | VUndefined =>
      Throw (TypeError ("Cannot read properties of undefined (reading '" ++ k ++ "')"))
  | VNull =>
      Throw (TypeError ("Cannot read properties of null (reading '" ++ k ++ "')"))
  | _ => Ok (field_of o k)
  end.

(** [o.k = v] in strict code. *)
Definition set (o : value) (k : string) (v : value) : outcome value :=
  match o with
  | VObj props => Ok (VObj (<[k := v]> props))
  | VUndefined =>
      Throw (TypeError ("Cannot set properties of undefined (setting '" ++ k ++ "')"))
  | VNull =>
      Throw (TypeError ("Cannot set properties of null (setting '" ++ k ++ "')"))
  | VBool _ | VNum _ | VStr _ =>
      Throw (TypeError ("Cannot create property '" ++ k ++ "'"))
  | VArr _ => Unsupported
  end.

(** [v.length] *)
Definition length_of (v : value) : outcome value := get v "length".

(** ToNumber, where the result is a finite number that needs no parsing. *)
Definition to_number (v : value) : outcome Q :=
  match v with
  | VNum q => Ok q
  | VNull => Ok 0
  | VBool b => Ok (if b then 1 else 0)
  | VUndefined => Unsupported
  | VStr _ => Unsupported
  | VArr _ => Unsupported
  | VObj _ => Unsupported
  end.

Definition Qltb (a b : Q) : bool := negb (Qle_bool b a).

(** [v < m] and [v > m] against a numeric constant [m]; [undefined] converts
    to NaN, which compares false. *)
Definition lt_num (v : value) (m : Q) : outcome bool :=
  match v with
  | VUndefined => Ok false
  | _ => let* n := to_number v in Ok (Qltb n m)
  end.

Definition gt_num (v : value) (m : Q) : outcome bool :=
  match v with
  | VUndefined => Ok false
  | _ => let* n := to_number v in Ok (Qltb m n)
  end.

(** [Math.round]: the nearest integer, halves towards plus infinity. *)
Definition round (q : Q) : Q := inject_Z (Qfloor (q + (1 # 2))).

Definition Math_round (v : value) : outcome value :=
  let* n := to_number v in Ok (VNum (round n)).

(** White space removed by [String.prototype.trim], ASCII part. *)
Definition is_space (c : ascii) : bool :=
  match nat_of_ascii c with
  | 9%nat | 10%nat | 11%nat | 12%nat | 13%nat | 32%nat => true
  | _ => false
  end.

Fixpoint trim_start (s : string) : string :=
  match s with
  | EmptyString => EmptyString
  | String c rest => if is_space c then trim_start rest else s
  end.

Fixpoint trim_end (s : string) : string :=
  match s with
  | EmptyString => EmptyString
  | String c rest =>
      match trim_end rest with
      | EmptyString => if is_space c then EmptyString else String c EmptyString
      | rest' => String c rest'
      end
  end.

Definition trim (s : string) : string := trim_end (trim_start s).

(** [v.trim()] *)
Definition trim_of (v : value) : outcome value :=
  match v with
  | VStr s => Ok (VStr (trim s))
  | VUndefined | VNull => let* x := get v "trim" in Ok x
  | _ => Throw (TypeError "trim is not a function")
  end.

(** Decimal text of an integer constant in a template string. *)
Definition show (z : Z) : string := pretty z.

(** [if (b) errors.push(m)] *)
Definition when (b : bool) (m : string) : list string := if b then [m] else [].

(** [xs.forEach(f)] where each call contributes messages to one shared
    array: the calls run in order and the first exception ends the loop. *)
Fixpoint collect {A : Type} (f : A -> outcome (list string)) (xs : list A)
  : outcome (list string) :=
  match xs with
  | [] => Ok []
  | x :: rest =>
      let* here := f x in
      let* later := collect f rest in
      Ok (List.app here later)
  end.

(** The receiver of an array method ([forEach], [map], [sort], [find],
    [findIndex]): its elements, or the exception the call raises. *)
Definition as_array (v : value) (method : string) : outcome (list value) :=
  match v with
  | VArr items => Ok items
  | VUndefined | VNull => let* x := get v method in Ok []
  | _ => Throw (TypeError (method ++ " is not a function"))
  end.

(** [a === b]; two objects or arrays met here never share a reference
    (each comes from its own [JSON.parse] or object literal). *)
Definition strict_eq (a b : value) : bool :=
  match a, b with
  | VUndefined, VUndefined => true
  | VNull, VNull => true
  | VBool x, VBool y => Bool.eqb x y
  | VNum x, VNum y => Qeq_bool x y
  | VStr x, VStr y => String.eqb x y
  | _, _ => false
  end.

(** The own properties copied by [{ ...v }]. *)
Definition own_props (v : value) : outcome (gmap string value) :=
  match v with
  | VObj props => Ok props
  | VUndefined | VNull | VBool _ | VNum _ => Ok ∅
  | VStr s => if String.eqb s "" then Ok ∅ else Unsupported
  | VArr items => match items with [] => Ok ∅ | _ => Unsupported end
  end.

(** [v + 1] *)
Definition plus_one (v : value) : outcome value :=
  match v with
  | VStr s => Ok (VStr (s ++ "1"))
  | VArr _ | VObj _ => Unsupported
  | _ => let* n := to_number v in Ok (VNum (n + 1))
  end.

(** [items.sort(cmp)]: [undefined] elements go last and are not compared;
    the others are put in the order of [cmp], equal ones in their original
    order. *)
Fixpoint insert_by (cmp : value -> value -> outcome Q) (x : value)
  (sorted : list value) : outcome (list value) :=
  match sorted with
  | [] => Ok [x]
  | y :: rest =>
      let* c := cmp x y in
      if Qle_bool c 0 then Ok (x :: sorted)
      else let* rest' := insert_by cmp x rest in Ok (y :: rest')
  end.

Fixpoint sort_by (cmp : value -> value -> outcome Q) (items : list value)
  : outcome (list value) :=
  match items with
  | [] => Ok []
  | x :: rest => let* sorted := sort_by cmp rest in insert_by cmp x sorted
  end.

Definition Array_sort (cmp : value -> value -> outcome Q) (items : list value)
  : outcome (list value) :=
  let* sorted := sort_by cmp (List.filter (fun v => negb (is_undefined v)) items) in
  Ok (List.app sorted (List.filter is_undefined items)).

(** [xs.forEach(f)] where each call updates one accumulated object. *)
Fixpoint fold_each {A S : Type} (f : S -> A -> outcome S) (xs : list A) (acc : S)
  : outcome S :=
  match xs with
  | [] => Ok acc
  | x :: rest => let* acc' := f acc x in fold_each f rest acc'
  end.

End Js.

Import Js.
Local Open Scope js_scope.

(** ** Validation schemas and results *)

Module Schema.

(** [{ isValid, errors }] *)
Record ValidationResult : Type := {
  isValid : bool;
  errors : list string
}.

(** [{ isValid: errors.length === 0, errors: errors }] *)
Definition result_of (errs : list string) : ValidationResult :=
  {| isValid := Nat.eqb (List.length errs) 0; errors := errs |}.

(** The rules a schema entry may declare; an absent rule is [None]
    ([false] for [required]). *)
Record FieldSchema : Type := {
  required : bool;
  type : option string;
  minLength : option Z;
  maxLength : option Z;
  min : option Z;
  max : option Z;
  validator : option (value -> outcome ValidationResult)
}.

(** An entry that declares no rule at all: what the validators read from a
    schema entry that only groups sub-entries ([rack], [metadata]). *)
Definition no_rules : FieldSchema :=
  {| required := false; type := None; minLength := None; maxLength := None;
     min := None; max := None; validator := None |}.

(** [typeof value !== fieldSchema.type], when a type is declared: the
    declared type on a mismatch. *)
Definition type_mismatch (fieldSchema : FieldSchema) (v : value) : option string :=
  match type fieldSchema with
  | Some t => if String.eqb (typeof v) t then None else Some t
  | None => None
  end.

End Schema.

Import Schema.

(** ** The state the services share *)

Module World.

(** What [ErrorService.handleError] is handed: the error and the [context]
    label of the call site (the echo of the caller's arguments is left
    out). *)
Record ErrorReport : Type := {
  report_error : exn;
  report_context : string
}.

(** The text stored under the projects key of [localStorage], identified
    with the value [JSON.parse] makes of it. *)
Inductive stored : Type :=
| Absent
| Garbled
| Parsed (v : value).

Record world : Type := {
  console : list ErrorReport;
  projectCache : gmap string value;
  localStorage : stored
}.

(** A method that may read and change the shared state. *)
Definition action (A : Type) : Type := world -> outcome A * world.

Definition lift {A : Type} (c : outcome A) : action A := fun w => (c, w).

Definition and_then {A B : Type} (c : action A) (k : A -> action B) : action B :=
  fun w =>
    match c w with
    | (Ok a, w') => k a w'
    | (Throw e, w') => (Throw e, w')
    | (Unsupported, w') => (Unsupported, w')
    end.

(** [try { body } catch (error) { handler }] *)
Definition try_catch {A : Type} (body : action A) (handler : exn -> action A)
  : action A :=
  fun w =>
    match body w with
    | (Throw e, w') => handler e w'
    | r => r
    end.

Notation "'run' x := c 'in' k" := (and_then c (fun x => k))
  (at level 10, x name, c at level 100, k at level 200) : js_scope.

(** [forEach] with a callback that pushes messages and may change the
    state. *)
Fixpoint collect_each {A : Type} (f : A -> action (list string)) (xs : list A)
  : action (list string) :=
  match xs with
  | [] => lift (Ok [])
  | x :: rest =>
      run here := f x in
      run later := collect_each f rest in
      lift (Ok (List.app here later))
  end.

(** [xs.map(f)] *)
Fixpoint map_each {A B : Type} (f : A -> action B) (xs : list A) : action (list B) :=
  match xs with
  | [] => lift (Ok [])
  | x :: rest =>
      run y := f x in
      run ys := map_each f rest in
      lift (Ok (y :: ys))
  end.

Definition cache_get (k : string) : action (option value) :=
  fun w => (Ok (projectCache w !! k), w).

Definition cache_set (k : string) (v : value) : action unit :=
  fun w =>
    (Ok tt,
     {| console := console w;
        projectCache := <[k := v]> (projectCache w);
        localStorage := localStorage w |}).

Definition storage_get : action stored :=
  fun w => (Ok (localStorage w), w).

Definition storage_set (s : stored) : action unit :=
  fun w =>
    (Ok tt,
     {| console := console w; projectCache := projectCache w; localStorage := s |}).

(** [ErrorService.handleError(error, { context, ... })]: the error is logged
    and shown; the call returns. *)
Definition handleError (error : exn) (context : string) : action unit :=
  fun w =>
    (Ok tt,
     {| console := console w ++ [{| report_error := error; report_context := context |}];
        projectCache := projectCache w;
        localStorage := localStorage w |}).

End World.

Import World.

(** ** three.js objects, as far as the services build them *)

Module THREE.

Inductive Geometry : Type :=
| BoxGeometry (width height depth : Q)
| CylinderGeometry (radiusTop radiusBottom height : Q) (radialSegments : Z).

(** [MeshLambertMaterial] *)
Record Material : Type := {
  color : Z;
  transparent : bool;
  opacity : Q
}.

Definition MeshLambertMaterial (c : Z) : Material :=
  {| color := c; transparent := false; opacity := 1 |}.

Record Vector3 : Type := { x : Q; y : Q; z : Q }.

Record Mesh : Type := {
  geometry : Geometry;
  material : Material;
  position : Vector3
}.

(** [new THREE.Mesh(geometry, material)]: placed at the origin. *)
Definition new_Mesh (g : Geometry) (m : Material) : Mesh :=
  {| geometry := g; material := m; position := {| x := 0; y := 0; z := 0 |} |}.

Definition set_position (m : Mesh) (px py pz : Q) : Mesh :=
  {| geometry := geometry m; material := material m;
     position := {| x := px; y := py; z := pz |} |}.

(** A [THREE.Group]: its children, in the order they were added. *)
Definition Group : Type := list Mesh.

End THREE.

(** ** ModuleDesignService.js *)

Module ModuleDesignService.

(** [this._standards] *)
Definition hpUnit : Q := 5.08.
Definition standardHeight : Q := 128.5.
Definition powerConnectors : list string := ["+12V"; "-12V"; "+5V"].

Definition maxPowerPerRail : Z := 500.

(** The callback of [powerConnectors.forEach] in [_validatePowerDraw]. *)
Definition check_rail (powerDraw : value) (rail : string) : outcome (list string) :=
  let* raw := get powerDraw rail in
  let draw := or_else raw (VNum 0) in
  if negb (String.eqb (typeof draw) "number")
  then Ok ["Power draw for " ++ rail ++ " must be a number"]
  else
    let* negative := lt_num draw 0 in
    let* excessive := gt_num draw (inject_Z maxPowerPerRail) in
    let tooLow := when negative ("Power draw for " ++ rail ++ " cannot be negative") in
    let tooHigh :=
      when excessive
        ("Power draw for " ++ rail ++ " cannot exceed " ++ show maxPowerPerRail ++ "mA") in
    Ok (List.app tooLow tooHigh).

Definition _validatePowerDraw (powerDraw : value) : outcome ValidationResult :=
  let* errs := collect (check_rail powerDraw) powerConnectors in
  Ok (result_of errs).

(** [this._moduleSchema], in key order. *)
Definition _moduleSchema : list (string * FieldSchema) :=
  [ ("name",
     {| required := true; type := Some "string";
        minLength := Some 1%Z; maxLength := Some 50%Z;
        min := None; max := None; validator := None |});
    ("width",
     {| required := true; type := Some "number";
        minLength := None; maxLength := None;
        min := Some 2%Z; max := Some 42%Z; validator := None |});
    ("height",
     {| required := true; type := Some "number";
        minLength := None; maxLength := None;
        min := Some 100%Z; max := Some 150%Z; validator := None |});
    ("depth",
     {| required := true; type := Some "number";
        minLength := None; maxLength := None;
        min := Some 20%Z; max := Some 45%Z; validator := None |});
    ("powerDraw",
     {| required := false; type := None;
        minLength := None; maxLength := None;
        min := None; max := None; validator := Some _validatePowerDraw |}) ].

(** The callback of [Object.keys(this._moduleSchema).forEach] in
    [_validateModuleSpec]: the messages pushed for one key. *)
Definition check_field (moduleSpec : value) (entry : string * FieldSchema)
  : outcome (list string) :=
  let key := fst entry in
  let fieldSchema := snd entry in
  let* v := get moduleSpec key in
  if required fieldSchema && nullish v
  then Ok [key ++ " is required"]
  else
    match type_mismatch fieldSchema v with
    | Some t => Ok [key ++ " must be of type " ++ t]
    | None =>
        let* below :=
          match min fieldSchema with
          | Some m =>
              let* b := lt_num v (inject_Z m) in
              Ok (when b (key ++ " must be at least " ++ show m))
          | None => Ok []
          end in
        let* above :=
          match max fieldSchema with
          | Some m =>
              let* b := gt_num v (inject_Z m) in
              Ok (when b (key ++ " must be at most " ++ show m))
          | None => Ok []
          end in
        let* custom :=
          match validator fieldSchema with
          | Some f =>
              let* customValidation := f v in
              Ok (if isValid customValidation then [] else errors customValidation)
          | None => Ok []
          end in
        Ok (List.app below (List.app above custom))
    end.

Definition _validateModuleSpec (moduleSpec : value) : outcome ValidationResult :=
  let* errs := collect (check_field moduleSpec) _moduleSchema in
  Ok (result_of errs).

(** [moduleSpec.powerDraw[rail] || 0] *)
Definition rail_or_zero (powerDraw : value) (rail : string) : outcome value :=
  let* raw := get powerDraw rail in Ok (or_else raw (VNum 0)).

Definition _normalizeModuleSpec (moduleSpec : value) : outcome value :=
  let* name0 := get moduleSpec "name" in
  let* name := trim_of name0 in
  let* width0 := get moduleSpec "width" in
  let* width := Math_round width0 in
  let* height0 := get moduleSpec "height" in
  let* height := Math_round height0 in
  let* depth0 := get moduleSpec "depth" in
  let* depth := Math_round depth0 in
  let* powerDraw0 := get moduleSpec "powerDraw" in
  let* powerDraw :=
    if truthy powerDraw0
    then
      let* p12 := rail_or_zero powerDraw0 "+12V" in
      let* m12 := rail_or_zero powerDraw0 "-12V" in
      let* p5 := rail_or_zero powerDraw0 "+5V" in
      Ok (VObj (list_to_map [("+12V", p12); ("-12V", m12); ("+5V", p5)]))
    else
      Ok (VObj (list_to_map [("+12V", VNum 0); ("-12V", VNum 0); ("+5V", VNum 0)])) in
  let* controls0 := get moduleSpec "controls" in
  let* images0 := get moduleSpec "images" in
  Ok (VObj (list_to_map
        [("name", name); ("width", width); ("height", height); ("depth", depth);
         ("powerDraw", powerDraw);
         ("controls", or_else controls0 (VArr []));
         ("images", or_else images0 (VArr []))])).

(** [module.width * hpUnit * module.height / 10 * module.depth / 10] *)
Definition _calculateVolume (module : value) : outcome value :=
  let* w0 := get module "width" in
  let* w := to_number w0 in
  let* h0 := get module "height" in
  let* h := to_number h0 in
  let* d0 := get module "depth" in
  let* d := to_number d0 in
  Ok (VNum (w * hpUnit * h / 10 * d / 10)).

(** The [try] block of [createModule]. *)
Definition createModule_body (moduleSpec : value) : outcome value :=
  let* validationResult := _validateModuleSpec moduleSpec in
  if negb (isValid validationResult)
  then Throw (Error ("Invalid module specification: "
                     ++ String.concat ", " (errors validationResult)))
  else
    let* normalizedModule := _normalizeModuleSpec moduleSpec in
    let* w0 := get normalizedModule "width" in
    let* w := to_number w0 in
    let* withHp := set normalizedModule "hpWidth" (VNum (w * hpUnit)) in
    let* volume := _calculateVolume withHp in
    set withHp "volumeCm3" volume.

Definition createModule (moduleSpec : value) : action value :=
  try_catch
    (lift (createModule_body moduleSpec))
    (fun error =>
       run _ := handleError error "Module Design Creation" in
       lift (Ok VNull)).

(** The [switch (control.type)] of [_addControlTo3DModel]: geometry and
    material of a recognised control, [None] for the [default] branch. *)
Definition control_shape (ctype : value) : option (THREE.Geometry * THREE.Material) :=
  match ctype with
  | VStr "knob" =>
      Some (THREE.CylinderGeometry 4 4 6 16, THREE.MeshLambertMaterial 0x666666)
  | VStr "jack" =>
      Some (THREE.CylinderGeometry 3 3 8 16, THREE.MeshLambertMaterial 0x000000)
  | VStr "switch" =>
      Some (THREE.BoxGeometry 6 12 4, THREE.MeshLambertMaterial 0x444444)
  | _ => None
  end.

(** [_addControlTo3DModel(moduleGroup, control, module)]; the group after
    the call is returned.  The arithmetic on [control.x] and [control.y]
    cannot throw, so the coordinates are converted to numbers where they are
    used, in the branches that place a mesh. *)
Definition _addControlTo3DModel (moduleGroup : THREE.Group) (control module : value)
  : outcome THREE.Group :=
  let* mw0 := get module "width" in
  let* mw := to_number mw0 in
  let width := mw * hpUnit in
  let* mh0 := get module "height" in
  let* height := to_number mh0 in
  let* cx0 := get control "x" in
  let* cy0 := get control "y" in
  let* md0 := get module "depth" in
  let* depth := to_number md0 in
  let* ctype := get control "type" in
  match control_shape ctype with
  | None => Ok moduleGroup
  | Some (geometry, material) =>
      let* cx := to_number cx0 in
      let* cy := to_number cy0 in
      let x := (cx / 100 * width) - (width / 2) in
      let y := (height / 2) - (cy / 100 * height) in
      let z := depth / 2 + 1 in
      Ok (List.app moduleGroup
            [THREE.set_position (THREE.new_Mesh geometry material) x y z])
  end.

(** The part of [create3DModel] after the module has been created. *)
Definition build3DModel (module : value) : outcome (option THREE.Group) :=
  if negb (truthy module)
  then Throw (Error "Invalid module specification")
  else
    let* mw0 := get module "width" in
    let* mw := to_number mw0 in
    let* mh0 := get module "height" in
    let* mh := to_number mh0 in
    let panel :=
      THREE.new_Mesh (THREE.BoxGeometry (mw * hpUnit) mh 2)
                     (THREE.MeshLambertMaterial 0x333333) in
    let* controls := get module "controls" in
    match controls with
    | VArr items =>
        let* moduleGroup :=
          fold_each (fun g control => _addControlTo3DModel g control module)
                    items [panel] in
        Ok (Some moduleGroup)
    | _ => Throw (TypeError "module.controls.forEach is not a function")
    end.

(** [create3DModel(moduleSpec)]: the group, or [None] for [null]. *)
Definition create3DModel (moduleSpec : value) : action (option THREE.Group) :=
  try_catch
    (run module := createModule moduleSpec in
     lift (build3DModel module))
    (fun error =>
       run _ := handleError error "3D Module Model Generation" in
       lift (Ok None)).

End ModuleDesignService.

(** ** The EuroRackApp class *)

Module EuroRackApp.

(** [this.eurorackData.hpUnit] *)
Definition hpUnit : Q := 5.08.

(** [getDefaultModule()] *)
Definition getDefaultModule : value :=
  VObj (list_to_map
    [("name", VStr "Untitled Module"); ("width", VNum 4); ("height", VNum 128.5);
     ("depth", VNum 25);
     ("powerDraw",
      VObj (list_to_map [("+12V", VNum 0); ("-12V", VNum 0); ("+5V", VNum 0)]));
     ("controls", VArr []); ("mountingHoles", VArr []); ("images", VArr [])]).

(** The [switch (control.type)] of [addControlToModel]; no [case] matching
    leaves [mesh] undefined. *)
Definition control_shape (ctype : value) : option (THREE.Geometry * THREE.Material) :=
  match ctype with
  | VStr "knob" =>
      Some (THREE.CylinderGeometry 4 4 6 16, THREE.MeshLambertMaterial 0x666666)
  | VStr "jack" =>
      Some (THREE.CylinderGeometry 3 3 8 16, THREE.MeshLambertMaterial 0x000000)
  | VStr "switch" =>
      Some (THREE.BoxGeometry 6 12 4, THREE.MeshLambertMaterial 0x444444)
  | _ => None
  end.

(** [addControlToModel(control, widthMm, heightMm)], with [this.currentModel]
    passed in and returned and [this.currentModule] passed in.  As in
    [ModuleDesignService], the coordinates are converted where a mesh uses
    them. *)
Definition addControlToModel (currentModel : THREE.Group) (currentModule : value)
  (control : value) (widthMm heightMm : Q) : outcome THREE.Group :=
  let* cx0 := get control "x" in
  let* cy0 := get control "y" in
  let* d0 := get currentModule "depth" in
  let* ctype := get control "type" in
  match control_shape ctype with
  | None => Ok currentModel
  | Some (geometry, material) =>
      let* cx := to_number cx0 in
      let* cy := to_number cy0 in
      let* depth := to_number d0 in
      let x := (cx / 100) * widthMm - widthMm / 2 in
      let y := heightMm / 2 - (cy / 100) * heightMm in
      let z := depth / 2 + 1 in
      Ok (List.app currentModel
            [THREE.set_position (THREE.new_Mesh geometry material) x y z])
  end.

(** [createModuleModel()] with a scene present: the new [this.currentModel],
    from [this.currentModule] and [this.controls]. *)
Definition createModuleModel (currentModule : value) (controls : list value)
  : outcome THREE.Group :=
  let* w0 := get currentModule "width" in
  let* w := to_number w0 in
  let widthMm := w * hpUnit in
  let* h0 := get currentModule "height" in
  let* heightMm := to_number h0 in
  let* d0 := get currentModule "depth" in
  let* depthMm := to_number d0 in
  let panel :=
    THREE.set_position
      (THREE.new_Mesh (THREE.BoxGeometry widthMm heightMm 2)
                      (THREE.MeshLambertMaterial 0x333333))
      0 0 (depthMm / 2 - 1) in
  let pcb :=
    THREE.set_position
      (THREE.new_Mesh (THREE.BoxGeometry (widthMm - 4) (heightMm - 10) 1.6)
                      (THREE.MeshLambertMaterial 0x0a5d0a))
      0 0 (depthMm / 2 - 10) in
  let housing :=
    THREE.new_Mesh (THREE.BoxGeometry widthMm heightMm depthMm)
                   {| THREE.color := 0x222222; THREE.transparent := true;
                      THREE.opacity := 0.3 |} in
  fold_each
    (fun model control => addControlToModel model currentModule control widthMm heightMm)
    controls [panel; pcb; housing].

End EuroRackApp.

(** ** ProjectManagementService.js *)

Module ProjectManagementService.

(** An entry of [this._projectSchema]: the rules of a field, or an object
    that groups the entries of sub-fields. *)
Inductive SchemaEntry : Type :=
| Field (rules : FieldSchema)
| Group (children : list (string * FieldSchema)).

(** What [fieldSchema.required], [fieldSchema.type], ... read from an entry:
    a group has none of these properties. *)
Definition rules_of (e : SchemaEntry) : FieldSchema :=
  match e with
  | Field rules => rules
  | Group _ => no_rules
  end.

Definition requiredRails : list string := ["+12V"; "-12V"; "+5V"].
Definition maxCurrentPerRail : Z := 2000.

(** The callback of [requiredRails.forEach] in [_validatePowerSupply]. *)
Definition check_rail (powerSupply : value) (rail : string) : outcome (list string) :=
  let* present := get powerSupply rail in
  if negb (truthy present)
  then Ok ["Missing power supply specification for " ++ rail]
  else
    let* current := get powerSupply rail in
    if negb (String.eqb (typeof current) "number")
    then Ok ["Power supply current for " ++ rail ++ " must be a number"]
    else
      let* negative := lt_num current 0 in
      let* excessive := gt_num current (inject_Z maxCurrentPerRail) in
      let tooLow :=
        when negative ("Power supply current for " ++ rail ++ " cannot be negative") in
      let tooHigh :=
        when excessive
          ("Power supply current for " ++ rail ++ " cannot exceed "
           ++ show maxCurrentPerRail ++ "mA") in
      Ok (List.app tooLow tooHigh).

Definition _validatePowerSupply (powerSupply : value) : outcome ValidationResult :=
  let* errs := collect (check_rail powerSupply) requiredRails in
  Ok (result_of errs).

Definition number_rule : FieldSchema :=
  {| required := false; type := Some "number"; minLength := None; maxLength := None;
     min := None; max := None; validator := None |}.

(** [this._projectSchema], in key order ([default: 1] of
    [metadata.version] is read nowhere and left out). *)
Definition _projectSchema : list (string * SchemaEntry) :=
  [ ("name",
     Field {| required := true; type := Some "string";
              minLength := Some 1%Z; maxLength := Some 100%Z;
              min := None; max := None; validator := None |});
    ("description",
     Field {| required := false; type := Some "string";
              minLength := None; maxLength := Some 500%Z;
              min := None; max := None; validator := None |});
    ("modules",
     Field {| required := true; type := Some "array";
              minLength := Some 1%Z; maxLength := None;
              min := None; max := None; validator := None |});
    ("rack",
     Group [ ("width",
              {| required := true; type := Some "number";
                 minLength := None; maxLength := None;
                 min := Some 84%Z; max := Some 168%Z; validator := None |});
             ("powerSupply",
              {| required := true; type := None;
                 minLength := None; maxLength := None;
                 min := None; max := None;
                 validator := Some _validatePowerSupply |}) ]);
    ("metadata",
     Group [ ("createdAt", number_rule); ("updatedAt", number_rule);
             ("version", number_rule) ]) ].

(** The [value.forEach((module, index) => ...)] over the modules. *)
Fixpoint check_modules (modules : list value) (index : Z) : action (list string) :=
  match modules with
  | [] => lift (Ok [])
  | module :: rest =>
      run moduleValidation := ModuleDesignService.createModule module in
      run later := check_modules rest (index + 1)%Z in
      lift (Ok (List.app
                  (when (negb (truthy moduleValidation))
                        ("Invalid module at index " ++ show index))
                  later))
  end.

(** [fieldSchema.minLength && value.length < fieldSchema.minLength] and its
    [maxLength] twin. *)
Definition too_short (fieldSchema : FieldSchema) (v : value) : outcome bool :=
  match minLength fieldSchema with
  | Some m =>
      if (m =? 0)%Z then Ok false
      else let* len := length_of v in lt_num len (inject_Z m)
  | None => Ok false
  end.

Definition too_long (fieldSchema : FieldSchema) (v : value) : outcome bool :=
  match maxLength fieldSchema with
  | Some m =>
      if (m =? 0)%Z then Ok false
      else let* len := length_of v in gt_num len (inject_Z m)
  | None => Ok false
  end.

(** The rules of one key that need no state: lengths, range and custom
    validator, for a value that passed the type check. *)
Definition check_rules (key : string) (fieldSchema : FieldSchema) (v : value)
  : outcome (list string) :=
  let* short := too_short fieldSchema v in
  let* long := too_long fieldSchema v in
  let* below :=
    match min fieldSchema with
    | Some m => lt_num v (inject_Z m)
    | None => Ok false
    end in
  let* above :=
    match max fieldSchema with
    | Some m => gt_num v (inject_Z m)
    | None => Ok false
    end in
  let* custom :=
    match validator fieldSchema with
    | Some f =>
        let* customValidation := f v in
        Ok (if isValid customValidation then [] else errors customValidation)
    | None => Ok []
    end in
  let m_short := default 0%Z (minLength fieldSchema) in
  let m_long := default 0%Z (maxLength fieldSchema) in
  let m_min := default 0%Z (min fieldSchema) in
  let m_max := default 0%Z (max fieldSchema) in
  Ok (List.app (when short (key ++ " must be at least " ++ show m_short ++ " characters"))
     (List.app (when long (key ++ " must be at most " ++ show m_long ++ " characters"))
     (List.app (when below (key ++ " must be at least " ++ show m_min))
     (List.app (when above (key ++ " must be at most " ++ show m_max))
               custom)))).

(** The callback of [Object.keys(this._projectSchema).forEach] in
    [_validateProjectSpec]. *)
Definition check_field (projectSpec : value) (entry : string * SchemaEntry)
  : action (list string) :=
  let key := fst entry in
  let fieldSchema := rules_of (snd entry) in
  run v := lift (get projectSpec key) in
  if required fieldSchema && nullish v
  then lift (Ok [key ++ " is required"])
  else if is_undefined v
  then lift (Ok [])
  else
    match type_mismatch fieldSchema v with
    | Some t => lift (Ok [key ++ " must be of type " ++ t])
    | None =>
        run plain := lift (check_rules key fieldSchema v) in
        run nested :=
          (if String.eqb key "modules"
           then
             run modules := lift (as_array v "forEach") in
             check_modules modules 0
           else lift (Ok [])) in
        lift (Ok (List.app plain nested))
    end.

Definition _validateProjectSpec (projectSpec : value) : action ValidationResult :=
  run errs := collect_each (check_field projectSpec) _projectSchema in
  lift (Ok (result_of errs)).

(** [_normalizeProjectSpec(projectSpec)], with [now] the reading of
    [Date.now()]. *)
Definition _normalizeProjectSpec (projectSpec : value) (now : Z) : action value :=
  run name0 := lift (get projectSpec "name") in
  run name := lift (trim_of name0) in
  run description0 := lift (get projectSpec "description") in
  run description :=
    lift (if truthy description0 then trim_of description0 else Ok (VStr "")) in
  run modules0 := lift (get projectSpec "modules") in
  run items := lift (as_array modules0 "map") in
  run modules := map_each ModuleDesignService.createModule items in
  lift (
    let* rack := get projectSpec "rack" in
    let* width0 := get rack "width" in
    let* width := Math_round width0 in
    let* supply := get rack "powerSupply" in
    let* p12 := get supply "+12V" in
    let* m12 := get supply "-12V" in
    let* p5 := get supply "+5V" in
    Ok (VObj (list_to_map
          [("name", name); ("description", description); ("modules", VArr modules);
           ("rack",
            VObj (list_to_map
              [("width", width);
               ("powerSupply",
                VObj (list_to_map [("+12V", p12); ("-12V", m12); ("+5V", p5)]))]));
           ("metadata",
            VObj (list_to_map
              [("createdAt", VNum (inject_Z now));
               ("updatedAt", VNum (inject_Z now));
               ("version", VNum 1)]))]))).

(** [_getProjects()] *)
Definition _getProjects : action value :=
  try_catch
    (run storedProjects := storage_get in
     match storedProjects with
     | Absent => lift (Ok (VArr []))
     | Garbled => lift (Throw (SyntaxError "Unexpected token in JSON"))
     | Parsed v => lift (Ok v)
     end)
    (fun error =>
       run _ := handleError error "Storage Retrieval" in
       lift (Ok (VArr []))).

(** [(a, b) => b.metadata.updatedAt - a.metadata.updatedAt] *)
Definition by_updatedAt (a b : value) : outcome Q :=
  let* bm := get b "metadata" in
  let* bu := get bm "updatedAt" in
  let* am := get a "metadata" in
  let* au := get am "updatedAt" in
  let* bn := to_number bu in
  let* an := to_number au in
  Ok (bn - an).

(** [getProjects()] *)
Definition getProjects : action value :=
  try_catch
    (run projects := _getProjects in
     lift (
       let* items := as_array projects "sort" in
       let* sorted := Array_sort by_updatedAt items in
       Ok (VArr sorted)))
    (fun error =>
       run _ := handleError error "Project Retrieval" in
       lift (Ok (VArr []))).

(** [projects.find(p => p.id === projectId)] *)
Fixpoint find_by_id (projectId : string) (projects : list value) : outcome value :=
  match projects with
  | [] => Ok VUndefined
  | p :: rest =>
      let* pid := get p "id" in
      if strict_eq pid (VStr projectId) then Ok p else find_by_id projectId rest
  end.

(** [getProjectById(projectId)] *)
Definition getProjectById (projectId : string) : action value :=
  try_catch
    (run cached := cache_get projectId in
     match cached with
     | Some project => lift (Ok project)
     | None =>
         run projects := _getProjects in
         run items := lift (as_array projects "find") in
         run project := lift (find_by_id projectId items) in
         if truthy project
         then
           run _ := cache_set projectId project in
           lift (Ok project)
         else lift (Ok VNull)
     end)
    (fun error =>
       run _ := handleError error "Project Retrieval" in
       lift (Ok VNull)).

(** [projects.findIndex(p => p.id === project.id)] followed by the
    replacement at the index found or the [push]. *)
Fixpoint replace_or_push (project : value) (projects : list value)
  : outcome (list value) :=
  match projects with
  | [] => Ok [project]
  | p :: rest =>
      let* pid := get p "id" in
      let* id := get project "id" in
      if strict_eq pid id then Ok (project :: rest)
      else let* rest' := replace_or_push project rest in Ok (p :: rest')
  end.

(** [_saveProject(project)]; the text written by [JSON.stringify] is
    identified with the array it is made from. *)
Definition _saveProject (project : value) : action unit :=
  try_catch
    (run projects := _getProjects in
     run items := lift (as_array projects "findIndex") in
     run items' := lift (replace_or_push project items) in
     run _ := storage_set (Parsed (VArr items')) in
     run id := lift (get project "id") in
     match id with
     | VStr k => cache_set k project
     | _ => lift Unsupported
     end)
    (fun error => handleError error "Project Saving").

(** The inner object literal of [updateProject]:
    [{ ...project.metadata, updatedAt: Date.now(),
       version: (project.metadata.version || 0) + 1 }] *)
Definition updated_metadata (project : value) (now : Z) : outcome value :=
  let* metadata0 := get project "metadata" in
  let* kept := own_props metadata0 in
  let* metadata1 := get project "metadata" in
  let* version0 := get metadata1 "version" in
  let* version := plus_one (or_else version0 (VNum 0)) in
  Ok (VObj (<["version" := version]> (<["updatedAt" := VNum (inject_Z now)]> kept))).

(** The object literal of [updateProject]:
    [{ ...project, ...updates, metadata: { ... } }] *)
Definition merge_updates (project updates : value) (now : Z) : outcome value :=
  let* mine := own_props project in
  let* theirs := own_props updates in
  let* metadata := updated_metadata project now in
  Ok (VObj (<["metadata" := metadata]> (theirs ∪ mine))).

(** [updateProject(projectId, updates)], with [now] the reading of
    [Date.now()]. *)
Definition updateProject (projectId : string) (updates : value) (now : Z)
  : action value :=
  try_catch
    (run project := getProjectById projectId in
     if negb (truthy project)
     then lift (Throw (Error "Project not found"))
     else
       run updatedProject := lift (merge_updates project updates now) in
       run validationResult := _validateProjectSpec updatedProject in
       if negb (isValid validationResult)
       then lift (Throw (Error ("Invalid project updates: "
                                ++ String.concat ", " (errors validationResult))))
       else
         run _ := _saveProject updatedProject in
         lift (Ok updatedProject))
    (fun error =>
       run _ := handleError error "Project Update" in
       lift (Ok VNull)).

(** [createProject(projectSpec)], with [now] the reading of [Date.now()]
    and [freshId] the text made by [_generateProjectId()]. *)
Definition createProject (projectSpec : value) (now : Z) (freshId : string)
  : action value :=
  try_catch
    (run validationResult := _validateProjectSpec projectSpec in
     if negb (isValid validationResult)
     then lift (Throw (Error ("Invalid project specification: "
                              ++ String.concat ", " (errors validationResult))))
     else
       run project0 := _normalizeProjectSpec projectSpec now in
       run project := lift (set project0 "id" (VStr freshId)) in
       run _ := _saveProject project in
       lift (Ok project))
    (fun error =>
       run _ := handleError error "Project Creation" in
       lift (Ok VNull)).

End ProjectManagementService.

(** ** The placement arithmetic in binary64 *)

(** The three assignments of [_addControlTo3DModel] and [addControlToModel]
    on IEEE 754 doubles, the numbers JavaScript computes with; a decimal
    literal stands for the nearest double, as it does in the source. *)
Module Binary64.

#[local] Set Warnings "-inexact-float".

Definition hpUnit : float := 5.08%float.

Definition position (controlX controlY width height depth : float)
  : float * float * float :=
  ((controlX / 100 * width) - (width / 2),
   (height / 2) - (controlY / 100 * height),
   depth / 2 + 1)%float.

End Binary64.

(** ** ProjectManagementService.js, the other methods *)

Module ProjectStore.

(** [this._projectCache.delete(k)] *)
Definition cache_delete (k : string) : action unit :=
  fun w =>
    (Ok tt,
     {| console := console w;
        projectCache := delete k (projectCache w);
        localStorage := localStorage w |}).

(** [projects.filter(p => p.id !== projectId)] *)
Fixpoint without_id (projectId : string) (projects : list value)
  : outcome (list value) :=
  match projects with
  | [] => Ok []
  | p :: rest =>
      let* pid := get p "id" in
      let* rest' := without_id projectId rest in
      Ok (if strict_eq pid (VStr projectId) then rest' else p :: rest')
  end.

(** [deleteProject(projectId)]; as in [_saveProject], the text written is
    identified with the array it is made from. *)
Definition deleteProject (projectId : string) : action unit :=
  try_catch
    (run projects := ProjectManagementService._getProjects in
     run items := lift (as_array projects "filter") in
     run filteredProjects := lift (without_id projectId items) in
     run _ := storage_set (Parsed (VArr filteredProjects)) in
     cache_delete projectId)
    (fun error => handleError error "Project Deletion").

(** [a + b] on two numbers; a sum that would need a conversion to text or
    give NaN is outside the fragment. *)
Definition plus (a b : value) : outcome value :=
  match a, b with
  | VNum x, VNum y => Ok (VNum (x + y))
  | VStr x, VStr y => Ok (VStr (x ++ y))
  | (VStr _ | VArr _ | VObj _), _ => Unsupported
  | _, (VStr _ | VArr _ | VObj _) => Unsupported
  | _, _ =>
      let* x := to_number a in
      let* y := to_number b in
      Ok (VNum (x + y))
  end.

(** [project.modules.reduce((sum, module) => sum + module.width, 0)] *)
Fixpoint total_width (modules : list value) (sum : value) : outcome value :=
  match modules with
  | [] => Ok sum
  | module :: rest =>
      let* width := get module "width" in
      let* sum' := plus sum width in
      total_width rest sum'
  end.

(** The result of [validateRackUtilization]. *)
Record Utilization : Type := {
  totalHP : Q;
  rackWidthHP : Q;
  utilizationPercentage : Q;
  isOverUtilized : bool;
  remainingHP : Q
}.

(** [Math.max(0, q)] *)
Definition max_zero (q : Q) : Q := if Qle_bool q 0 then 0 else q.

(** The [try] block of [validateRackUtilization] once the project is
    found.  A quotient by zero is infinite or NaN and outside the
    fragment. *)
Definition utilization_of (project : value) : outcome Utilization :=
  let* modules0 := get project "modules" in
  let* modules := as_array modules0 "reduce" in
  let* total0 := total_width modules (VNum 0) in
  let* rack := get project "rack" in
  let* width0 := get rack "width" in
  let* width := to_number width0 in
  let* total := to_number total0 in
  let rackWidth := width / 5.08 in
  if Qeq_bool rackWidth 0 then Unsupported
  else
    let percentage := (total / rackWidth) * 100 in
    Ok {| totalHP := total;
          rackWidthHP := rackWidth;
          utilizationPercentage := round percentage;
          isOverUtilized := Qltb 100 percentage;
          remainingHP := max_zero (rackWidth - total) |}.

(** [validateRackUtilization(projectId)]: the record, or [None] for
    [null]. *)
Definition validateRackUtilization (projectId : string)
  : action (option Utilization) :=
  try_catch
    (run project := ProjectManagementService.getProjectById projectId in
     if negb (truthy project)
     then lift (Throw (Error "Project not found"))
     else lift (let* u := utilization_of project in Ok (Some u)))
    (fun error =>
       run _ := handleError error "Rack Utilization Validation" in
       lift (Ok None)).

(** [Object.entries(v)]; the order of the entries of an object is immaterial
    where each entry updates a slot of its own, as below. *)
Definition entries (v : value) : outcome (list (string * value)) :=
  match v with
  | VObj props => Ok (map_to_list props)
  | VUndefined | VNull =>
      Throw (TypeError "Cannot convert undefined or null to object")
  | VBool _ | VNum _ => Ok []
  | VStr s => if String.eqb s "" then Ok [] else Unsupported
  | VArr items => match items with [] => Ok [] | _ => Unsupported end
  end.

(** [powerConsumption[rail] += draw]; for a [rail] that is none of the four
    keys of the breakdown the sum is NaN or a text, outside the fragment. *)
Definition add_draw (powerConsumption : gmap string value) (entry : string * value)
  : outcome (gmap string value) :=
  let* sum := plus (default VUndefined (powerConsumption !! fst entry)) (snd entry) in
  Ok (<[fst entry := sum]> powerConsumption).

(** The callback of [project.modules.forEach] in
    [calculatePowerConsumption]. *)
Definition add_module_draws (powerConsumption : gmap string value) (module : value)
  : outcome (gmap string value) :=
  let* powerDraw := get module "powerDraw" in
  if truthy powerDraw
  then
    let* draws := entries powerDraw in
    fold_each add_draw draws powerConsumption
  else Ok powerConsumption.

(** [Math.abs(v)] *)
Definition Math_abs (v : value) : outcome value :=
  let* n := to_number v in Ok (VNum (Qabs n)).

(** The [try] block of [calculatePowerConsumption] once the project is
    found. *)
Definition consumption_of (project : value) : outcome value :=
  let start : gmap string value :=
    list_to_map [("+12V", VNum 0); ("-12V", VNum 0); ("+5V", VNum 0);
                 ("total", VNum 0)] in
  let* modules0 := get project "modules" in
  let* modules := as_array modules0 "forEach" in
  let* powerConsumption := fold_each add_module_draws modules start in
  let* negative := Math_abs (default VUndefined (powerConsumption !! "-12V")) in
  let* partial := plus (default VUndefined (powerConsumption !! "+12V")) negative in
  let* total := plus partial (default VUndefined (powerConsumption !! "+5V")) in
  Ok (VObj (<["total" := total]> powerConsumption)).

(** [calculatePowerConsumption(projectId)] *)
Definition calculatePowerConsumption (projectId : string) : action value :=
  try_catch
    (run project := ProjectManagementService.getProjectById projectId in
     if negb (truthy project)
     then lift (Throw (Error "Project not found"))
     else lift (consumption_of project))
    (fun error =>
       run _ := handleError error "Power Consumption Calculation" in
       lift (Ok VNull)).

End ProjectStore.

(** ** FileUploadService.js: the checks made before a file is read *)

Module FileUploadService.

Definition _allowedImageTypes : list string :=
  ["image/png"; "image/jpeg"; "image/webp"; "image/gif"].

Definition _allowedModelTypes : list string :=
  ["model/stl"; "model/obj"; "model/gltf-binary"; "model/gltf+json"].

Definition _maxImageSize : Z := (10 * 1024 * 1024)%Z.
Definition _maxModelSize : Z := (50 * 1024 * 1024)%Z.

(** [types.includes(v)] on an array of strings. *)
Definition includes (types : list string) (v : value) : bool :=
  match v with
  | VStr s => existsb (String.eqb s) types
  | _ => false
  end.

(** [_determineMaxSize(fileType)] *)
Definition _determineMaxSize (fileType : value) : Z :=
  if includes _allowedImageTypes fileType then _maxImageSize
  else if includes _allowedModelTypes fileType then _maxModelSize
  else (5 * 1024 * 1024)%Z.

(** [_determineAllowedTypes(fileType)] *)
Definition _determineAllowedTypes (fileType : value) : outcome (list string) :=
  match fileType with
  | VStr s =>
      if String.prefix "image/" s then Ok _allowedImageTypes
      else if String.prefix "model/" s then Ok _allowedModelTypes
      else Ok []
  | VUndefined | VNull => let* x := get fileType "startsWith" in Ok []
  | _ => Throw (TypeError "fileType.startsWith is not a function")
  end.

(** [_validateFile(file)]; the sizes in the message are whole numbers of
    megabytes. *)
Definition _validateFile (file : value) : outcome unit :=
  if negb (truthy file) then Throw (Error "No file provided")
  else
    let* type0 := get file "type" in
    let maxSize := _determineMaxSize type0 in
    let* size := get file "size" in
    let* tooBig := gt_num size (inject_Z maxSize) in
    if tooBig
    then Throw (Error ("File exceeds maximum size of "
                       ++ show (maxSize / 1024 / 1024)%Z ++ "MB"))
    else
      let* type1 := get file "type" in
      let* allowedTypes := _determineAllowedTypes type1 in
      let* type2 := get file "type" in
      if negb (includes allowedTypes type2)
      then Throw (Error "Unsupported file type")
      else Ok tt.

(** [_determineFileType(file).category] *)
Definition _determineFileType (file : value) : outcome string :=
  let* type0 := get file "type" in
  if includes _allowedImageTypes type0 then Ok "image"
  else
    let* type1 := get file "type" in
    if includes _allowedModelTypes type1 then Ok "model"
    else Ok "unknown".

End FileUploadService.

(** ** AIGenerationService *)

Module AIGenerationService.

(** The rules an entry of [this._modelSchema] may declare. *)
Record ModelField : Type := {
  required : bool;
  type : option string;
  allowedValues : option (list string);
  minLength : option Z;
  maxLength : option Z;
  validator : option (value -> outcome ValidationResult)
}.

(** [{ type: 'number', min, max }] of one dimension. *)
Record DimensionRule : Type := {
  dim_type : string;
  dim_min : Z;
  dim_max : Z
}.

Inductive ModelEntry : Type :=
| Field (rules : ModelField)
| Dimensions (children : list (string * DimensionRule)).

Definition no_rules : ModelField :=
  {| required := false; type := None; allowedValues := None; minLength := None;
     maxLength := None; validator := None |}.

(** What [fieldSchema.required], [fieldSchema.type], ... read from an
    entry: the entry that groups the dimensions has none of them. *)
Definition rules_of (e : ModelEntry) : ModelField :=
  match e with
  | Field rules => rules
  | Dimensions _ => no_rules
  end.

Definition supportedTypes : list string := ["image"; "3d_sketch"; "dimensions"].

(** [_validateInputType(inputType)] *)
Definition _validateInputType (inputType : value) : outcome ValidationResult :=
  Ok {| isValid := FileUploadService.includes supportedTypes inputType;
        errors :=
          if FileUploadService.includes supportedTypes inputType then []
          else ["Invalid input type. Supported types: "
                ++ String.concat ", " supportedTypes] |}.

Definition dimension_rule : DimensionRule :=
  {| dim_type := "number"; dim_min := 10; dim_max := 500 |}.

(** [this._modelSchema], in key order. *)
Definition _modelSchema : list (string * ModelEntry) :=
  [ ("inputType",
     Field {| required := true; type := None; allowedValues := None;
              minLength := None; maxLength := None;
              validator := Some _validateInputType |});
    ("dimensions",
     Dimensions [ ("width", dimension_rule); ("height", dimension_rule);
                  ("depth", dimension_rule) ]);
    ("images",
     Field {| required := true; type := Some "array"; allowedValues := None;
              minLength := Some 1%Z; maxLength := Some 5%Z; validator := None |});
    ("qualityPreset",
     Field {| required := false; type := Some "string";
              allowedValues := Some ["draft"; "standard"; "high"];
              minLength := None; maxLength := None; validator := None |}) ].

(** The callback of [['width', 'height', 'depth'].forEach] in
    [_validateGenerationSpec]. *)
Definition check_dimension (v : value) (children : list (string * DimensionRule))
  (dim : string) : outcome (list string) :=
  let* dimValue := get v dim in
  match List.find (fun child => String.eqb (fst child) dim) children with
  | None =>
      if is_undefined dimValue then Ok ["Dimension " ++ dim ++ " is required"]
      else Throw (TypeError "Cannot read properties of undefined (reading 'min')")
  | Some (_, dimSchema) =>
      if is_undefined dimValue then Ok ["Dimension " ++ dim ++ " is required"]
      else
        let* below := lt_num dimValue (inject_Z (dim_min dimSchema)) in
        let* above := gt_num dimValue (inject_Z (dim_max dimSchema)) in
        Ok (List.app
              (when below (dim ++ " must be at least " ++ show (dim_min dimSchema)))
              (when above (dim ++ " must be at most " ++ show (dim_max dimSchema))))
  end.

(** [fieldSchema.minLength && value.length < fieldSchema.minLength] and its
    [maxLength] twin. *)
Definition too_short (fieldSchema : ModelField) (v : value) : outcome bool :=
  match minLength fieldSchema with
  | Some m =>
      if (m =? 0)%Z then Ok false
      else let* len := length_of v in lt_num len (inject_Z m)
  | None => Ok false
  end.

Definition too_long (fieldSchema : ModelField) (v : value) : outcome bool :=
  match maxLength fieldSchema with
  | Some m =>
      if (m =? 0)%Z then Ok false
      else let* len := length_of v in gt_num len (inject_Z m)
  | None => Ok false
  end.

(** [typeof value !== fieldSchema.type], when a type is declared: the
    declared type on a mismatch. *)
Definition type_mismatch (fieldSchema : ModelField) (v : value) : option string :=
  match type fieldSchema with
  | Some t => if String.eqb (typeof v) t then None else Some t
  | None => None
  end.

(** The callback of [Object.keys(this._modelSchema).forEach] in
    [_validateGenerationSpec].  Past the type check of [images] each image
    is handed to [FileUploadService.processFile], whose work is asynchronous
    and outside the fragment. *)
Definition check_field (spec : value) (entry : string * ModelEntry)
  : outcome (list string) :=
  let key := fst entry in
  let fieldSchema := rules_of (snd entry) in
  let* v := get spec key in
  if required fieldSchema && nullish v then Ok [key ++ " is required"]
  else if is_undefined v then Ok []
  else
    match type_mismatch fieldSchema v with
    | Some t => Ok [key ++ " must be of type " ++ t]
    | None =>
        let notAllowed :=
          match allowedValues fieldSchema with
          | Some allowed =>
              when (negb (FileUploadService.includes allowed v))
                   (key ++ " must be one of: " ++ String.concat ", " allowed)
          | None => []
          end in
        let* short := too_short fieldSchema v in
        let* long := too_long fieldSchema v in
        let* custom :=
          match validator fieldSchema with
          | Some f =>
              let* customValidation := f v in
              Ok (if isValid customValidation then [] else errors customValidation)
          | None => Ok []
          end in
        let* dimensions :=
          if String.eqb key "dimensions"
          then
            match snd entry with
            | Dimensions children =>
                collect (check_dimension v children) ["width"; "height"; "depth"]
            | Field _ => collect (check_dimension v []) ["width"; "height"; "depth"]
            end
          else Ok [] in
        let* images :=
          if String.eqb key "images"
          then
            let* items := as_array v "forEach" in
            match items with
            | [] => Ok []
            | _ :: _ => Unsupported
            end
          else Ok [] in
        Ok (List.app notAllowed
           (List.app (when short (key ++ " must have at least "
                                  ++ show (default 0%Z (minLength fieldSchema))
                                  ++ " items"))
           (List.app (when long (key ++ " must have at most "
                                 ++ show (default 0%Z (maxLength fieldSchema))
                                 ++ " items"))
           (List.app custom (List.app dimensions images)))))
    end.

(** [_validateGenerationSpec(spec)] *)
Definition _validateGenerationSpec (spec : value) : outcome ValidationResult :=
  let* errs := collect (check_field spec) _modelSchema in
  Ok (result_of errs).

(** The text [${v}] of a template string, for values whose text needs no
    number formatting. *)
Definition template_text (v : value) : outcome string :=
  match v with
  | VStr s => Ok s
  | VUndefined => Ok "undefined"
  | VNull => Ok "null"
  | VBool b => Ok (if b then "true" else "false")
  | VNum _ | VArr _ | VObj _ => Unsupported
  end.

(** [_create3DModelRepresentation(generatedModel)] *)
Definition _create3DModelRepresentation (generatedModel : value)
  : action (option THREE.Group) :=
  run service := lift (get generatedModel "service") in
  run serviceText := lift (template_text service) in
  run dimensions0 := lift (get generatedModel "dimensions") in
  run width0 := lift (get dimensions0 "width") in
  run widthMm := lift (to_number width0) in
  run dimensions1 := lift (get generatedModel "dimensions") in
  run height := lift (get dimensions1 "height") in
  run dimensions2 := lift (get generatedModel "dimensions") in
  run depth := lift (get dimensions2 "depth") in
  let moduleSpec :=
    VObj (list_to_map
      [("name", VStr ("AI Generated Module (" ++ serviceText ++ ")"));
       ("width", VNum (round (widthMm / 5.08)));
       ("height", height);
       ("depth", depth)]) in
  ModuleDesignService.create3DModel moduleSpec.

(** [v >= m] and [v <= m] against a numeric constant. *)
Definition ge_num (v : value) (m : Q) : outcome bool :=
  match v with
  | VUndefined => Ok false
  | _ => let* n := to_number v in Ok (Qle_bool m n)
  end.

Definition le_num (v : value) (m : Q) : outcome bool :=
  match v with
  | VUndefined => Ok false
  | _ => let* n := to_number v in Ok (Qle_bool n m)
  end.

(** [model[key] >= lo && model[key] <= hi] *)
Definition within (model : value) (key : string) (lo hi : Q) : outcome bool :=
  let* low := get model key in
  let* enough := ge_num low lo in
  if enough
  then let* high := get model key in le_num high hi
  else Ok false.

Record Check : Type := { passed : bool; message : string }.

Record ComplianceChecks : Type := {
  widthInHP : Check;
  height : Check;
  depth : Check
}.

Record Compliance : Type := {
  isCompliant : bool;
  checks : ComplianceChecks
}.

(** [validateEurorackCompliance(model)] *)
Definition validateEurorackCompliance (model : value) : outcome Compliance :=
  let* w := within model "width" 2 42 in
  let* h := within model "height" 100 150 in
  let* d := within model "depth" 20 45 in
  let complianceChecks :=
    {| widthInHP := {| passed := w; message := "Width must be between 2 and 42 HP" |};
       height := {| passed := h; message := "Height must be between 100mm and 150mm" |};
       depth := {| passed := d; message := "Depth must be between 20mm and 45mm" |} |} in
  Ok {| isCompliant :=
          forallb passed [widthInHP complianceChecks; height complianceChecks;
                          depth complianceChecks];
        checks := complianceChecks |}.

End AIGenerationService.

(** ** AppController.js: the images of the current module *)

Module AppController.

(** The elements [...v] spreads into an array literal. *)
Definition spread (v : value) : outcome (list value) :=
  match v with
  | VArr items => Ok items
  | VStr s => if String.eqb s "" then Ok [] else Unsupported
  | _ => Throw (TypeError "Spread syntax requires ...iterable[Symbol.iterator] to be a function")
  end.

(** The module [_updateCurrentModuleImages] asks for when there is none. *)
Definition newModuleSpec : value :=
  VObj (list_to_map
    [("name", VStr "New Module"); ("width", VNum 4); ("height", VNum 128.5);
     ("depth", VNum 25)]).

(** [_updateCurrentModuleImages(images)], with [this._state.currentModule]
    passed in and handed back beside the state of the services. *)
Definition _updateCurrentModuleImages (images currentModule : value) (w : world)
  : outcome unit * (value * world) :=
  let '(created, w1) :=
    if negb (truthy currentModule)
    then ModuleDesignService.createModule newModuleSpec w
    else (Ok currentModule, w) in
  match created with
  | Ok module =>
      match (let* old := get module "images" in
             let* kept := spread (or_else old (VArr [])) in
             let* added := spread images in
             set module "images" (VArr (List.app kept added))) with
      | Ok module' => (Ok tt, (module', w1))
      | Throw e => (Throw e, (module, w1))
      | Unsupported => (Unsupported, (module, w1))
      end
  | Throw e => (Throw e, (currentModule, w1))
  | Unsupported => (Unsupported, (currentModule, w1))
  end.

End AppController.

(** ** The EuroRackApp class: dragging a control, the power of a rack *)

Module EuroRackAppRack.

Definition Math_min (a b : Q) : Q := if Qle_bool a b then a else b.
Definition Math_max (a b : Q) : Q := if Qle_bool a b then b else a.

(** The coordinate [onMouseMove] gives a dragged control:
    [Math.max(0, Math.min(100, ((client - origin) / extent) * 100))], from
    the position of the mouse and the rectangle of the preview.  A quotient
    by zero is infinite or NaN and outside the fragment. *)
Definition dragged_percent (client origin extent : Q) : outcome Q :=
  if Qeq_bool extent 0 then Unsupported
  else Ok (Math_max 0 (Math_min 100 ((client - origin) / extent * 100))).

(** [total[rail] += module.powerDraw[rail] || 0] *)
Definition add_rail (total : gmap string value) (module : value) (rail : string)
  : outcome (gmap string value) :=
  let* powerDraw := get module "powerDraw" in
  let* draw := get powerDraw rail in
  let* sum := ProjectStore.plus (default VUndefined (total !! rail))
                                (or_else draw (VNum 0)) in
  Ok (<[rail := sum]> total).

(** The callback of [this.rackModules.reduce] in [calculateTotalPower]. *)
Definition add_module (total : gmap string value) (module : value)
  : outcome (gmap string value) :=
  let* t1 := add_rail total module "+12V" in
  let* t2 := add_rail t1 module "-12V" in
  add_rail t2 module "+5V".

(** [calculateTotalPower()], with [this.rackModules] passed in. *)
Definition calculateTotalPower (rackModules : list value) : outcome value :=
  let* total :=
    fold_each add_module rackModules
      (list_to_map [("+12V", VNum 0); ("-12V", VNum 0); ("+5V", VNum 0)]) in
  Ok (VObj total).

End EuroRackAppRack.

(** ** ErrorService.js: validateInput *)

Module ErrorService.

(** The callback of [Object.keys(schema).forEach] in [validateInput]: it
    returns, or throws at the first rule the input breaks.  The schema is
    the list of its entries in key order; only [required], [type], [min] and
    [max] are read. *)
Definition check_key (input : value) (entry : string * FieldSchema) : outcome unit :=
  let key := fst entry in
  let rules := snd entry in
  let* missing :=
    if required rules
    then let* v := get input key in Ok (negb (truthy v))
    else Ok false in
  if missing then Throw (Error ("Missing required field: " ++ key))
  else
    let* mismatch :=
      match type rules with
      | Some t =>
          if String.eqb t "" then Ok None
          else
            let* v := get input key in
            Ok (if String.eqb (typeof v) t then None else Some t)
      | None => Ok None
      end in
    match mismatch with
    | Some t => Throw (Error ("Invalid type for " ++ key ++ ": expected " ++ t))
    | None =>
        let* below :=
          match min rules with
          | Some m => let* v := get input key in lt_num v (inject_Z m)
          | None => Ok false
          end in
        if below
        then Throw (Error (key ++ " must be at least " ++ show (default 0%Z (min rules))))
        else
          let* above :=
            match max rules with
            | Some m => let* v := get input key in gt_num v (inject_Z m)
            | None => Ok false
            end in
          if above
          then Throw (Error (key ++ " must be at most "
                             ++ show (default 0%Z (max rules))))
          else Ok tt
    end.

(** [validateInput(input, schema)]; the error is handed to [handleError]
    without a context label. *)
Definition validateInput (input : value) (schema : list (string * FieldSchema))
  : action bool :=
  try_catch
    (lift (let* _ := fold_each (fun _ entry => check_key input entry) schema tt in
           Ok true))
    (fun error =>
       run _ := handleError error "" in
       lift (Ok false)).

End ErrorService.

(** ** Vocabulary of the statements *)

Module Vocabulary.

(** *** Values and states *)

(** [{ k1: v1, ... }] *)
Definition obj (fields : list (string * value)) : value := VObj (list_to_map fields).

Definition empty_world : world :=
  {| console := []; projectCache := ∅; localStorage := Absent |}.

(** [try { ... } catch { return null }] seen from the caller: the value
    that comes back. *)
Definition caught {A : Type} (c : outcome A) (fallback : A) : outcome A :=
  match c with
  | Ok a => Ok a
  | Throw _ => Ok fallback
  | Unsupported => Unsupported
  end.

(** The state after [ErrorService.handleError(error, { context })]. *)
Definition logged (error : exn) (context : string) (w : world) : world :=
  snd (handleError error context w).

(** *** Validated and created modules *)

(** A power-rail draw of a module: not given, or a number of milliamps
    between 0 and 500. *)
Definition draw_in_range (rails : gmap string value) (rail : string) : Prop :=
  match rails !! rail with
  | None => True
  | Some v => exists q : Q, v = VNum q /\ 0 <= q <= 500
  end.

(** The text and the number a validated specification holds under a key. *)
Definition text_at (props : gmap string value) (k : string) : string :=
  match props !! k with
  | Some (VStr s) => s
  | _ => ""
  end.

Definition number_at (props : gmap string value) (k : string) : Q :=
  match props !! k with
  | Some (VNum q) => q
  | _ => 0
  end.

(** The power-draw record [_normalizeModuleSpec] builds: every rail, with 0
    for a rail that is not given. *)
Definition normalized_rails (powerDraw : value) : value :=
  obj [("+12V", or_else (field_of powerDraw "+12V") (VNum 0));
       ("-12V", or_else (field_of powerDraw "-12V") (VNum 0));
       ("+5V", or_else (field_of powerDraw "+5V") (VNum 0))].

(** The object [createModule] returns: the literal of
    [_normalizeModuleSpec] with [hpWidth] and [volumeCm3] set on it. *)
Definition created_module (name : string) (width height depth : Q)
  (powerDraw controls images : value) : value :=
  VObj (<["volumeCm3" :=
            VNum (width * ModuleDesignService.hpUnit * height / 10 * depth / 10)]>
       (<["hpWidth" := VNum (width * ModuleDesignService.hpUnit)]>
       (list_to_map
          [("name", VStr name); ("width", VNum width); ("height", VNum height);
           ("depth", VNum depth); ("powerDraw", powerDraw);
           ("controls", controls); ("images", images)]))).

(** What [createModule] makes of a specification that passed validation. *)
Definition module_of (props : gmap string value) : value :=
  created_module
    (trim (text_at props "name"))
    (round (number_at props "width"))
    (round (number_at props "height"))
    (round (number_at props "depth"))
    (normalized_rails (default VUndefined (props !! "powerDraw")))
    (or_else (default VUndefined (props !! "controls")) (VArr []))
    (or_else (default VUndefined (props !! "images")) (VArr [])).

(** The keys of a specification that [createModule] reads. *)
Definition module_keys : list string :=
  ["name"; "width"; "height"; "depth"; "powerDraw"; "controls"; "images"].

(** The number is an integer. *)
Definition is_integer (q : Q) : Prop := exists n : Z, q = inject_Z n.

(** The text has no white space at either end. *)
Definition trimmed (s : string) : Prop := trim s = s.

(** *** Placement of controls *)

(** The mesh sits at the point [(px, py, pz)]. *)
Definition placed_at (m : THREE.Mesh) (px py pz : Q) : Prop :=
  THREE.x (THREE.position m) == px /\
  THREE.y (THREE.position m) == py /\
  THREE.z (THREE.position m) == pz.

(** The inverse mapping of the specification, from a position on the panel
    back to percentages:
    [x% = (posX + widthMm/2) / widthMm * 100] and
    [y% = (heightMm/2 - posY) / heightMm * 100]. *)
Definition percent_x (posX widthMm : Q) : Q := (posX + widthMm / 2) / widthMm * 100.
Definition percent_y (posY heightMm : Q) : Q := (heightMm / 2 - posY) / heightMm * 100.

(** [control.type] is none of ['knob'], ['jack'], ['switch']. *)
Definition unrecognized (control : value) : Prop :=
  exists ctype, get control "type" = Ok ctype /\
                ctype <> VStr "knob" /\ ctype <> VStr "jack" /\ ctype <> VStr "switch".

(** [control.type] is one of ['knob'], ['jack'], ['switch']. *)
Definition recognized (control : value) : Prop :=
  get control "type" = Ok (VStr "knob") \/
  get control "type" = Ok (VStr "jack") \/
  get control "type" = Ok (VStr "switch").

(** [{ ...moduleSpec, controls: controls }] *)
Definition with_controls (props : gmap string value) (controls : list value) : value :=
  VObj (<["controls" := VArr controls]> props).

(** [_addControlTo3DModel] on a module of width [w] HP, height [h] and
    depth [d]. *)
Definition place_control (w h d : Q) (g : THREE.Group) (control : value)
  : outcome THREE.Group :=
  let* cx0 := get control "x" in
  let* cy0 := get control "y" in
  let* ctype := get control "type" in
  match ModuleDesignService.control_shape ctype with
  | None => Ok g
  | Some (geometry, material) =>
      let* cx := to_number cx0 in
      let* cy := to_number cy0 in
      Ok (List.app g
            [THREE.set_position (THREE.new_Mesh geometry material)
               (cx / 100 * (w * ModuleDesignService.hpUnit)
                - w * ModuleDesignService.hpUnit / 2)
               (h / 2 - cy / 100 * h)
               (d / 2 + 1)])
  end.

(** The panel mesh of [create3DModel]. *)
Definition panel_of (w h : Q) : THREE.Mesh :=
  THREE.new_Mesh (THREE.BoxGeometry (w * ModuleDesignService.hpUnit) h 2)
                 (THREE.MeshLambertMaterial 0x333333).

(** *** Projects *)

(** The metadata of a project made at time [now]. *)
Definition fresh_metadata (now : Z) : value :=
  obj [("createdAt", VNum (inject_Z now)); ("updatedAt", VNum (inject_Z now));
       ("version", VNum 1)].

(** [p.metadata.updatedAt], when it is there and is a number. *)
Definition updatedAt_of (p : value) : option Q :=
  match get p "metadata" with
  | Ok metadata =>
      match get metadata "updatedAt" with
      | Ok (VNum q) => Some q
      | _ => None
      end
  | _ => None
  end.

(** [a] was updated at the same time as [b] or later. *)
Definition not_older (a b : value) : Prop :=
  exists qa qb, updatedAt_of a = Some qa /\ updatedAt_of b = Some qb /\ qb <= qa.

(** *** Inputs the theorems are evaluated at *)

(** The specification [AppController._updateCurrentModuleImages] passes to
    [createModule]: no [powerDraw]. *)
Definition new_module : value :=
  obj [("name", VStr "New Module"); ("width", VNum 4); ("height", VNum 128.5);
       ("depth", VNum 25)].

(** A module with every required field and no power drawn, whose name is
    [name]. *)
Definition module_named (name : string) : value :=
  obj [("name", VStr name); ("width", VNum 4); ("height", VNum 128.5);
       ("depth", VNum 25);
       ("powerDraw", obj [("+12V", VNum 0); ("-12V", VNum 0); ("+5V", VNum 0)])].

Definition name_of_51 : string :=
  "aaaaaaaaaaaaaaaaaaaaaaaaaaaaaaaaaaaaaaaaaaaaaaaaaaa".

(** A knob at the centre of the panel, and a 4 HP module of height 128.5
    and depth 25 that carries it. *)
Definition centred_knob : value :=
  obj [("type", VStr "knob"); ("x", VNum 50); ("y", VNum 50)].

Definition module_with_centred_knob : value :=
  obj [("name", VStr "VCO"); ("width", VNum 4); ("height", VNum 128.5);
       ("depth", VNum 25);
       ("powerDraw", obj [("+12V", VNum 0); ("-12V", VNum 0); ("+5V", VNum 0)]);
       ("controls", VArr [centred_knob])].

(** A slider, which no service knows how to draw. *)
Definition slider : value :=
  obj [("type", VStr "slider"); ("x", VNum 10); ("y", VNum 20)].

(** A module that draws 120 mA and 500 mA on two rails and names no third
    rail, and a knob on its panel. *)
Definition typical_rails : gmap string value :=
  list_to_map [("+12V", VNum 120); ("-12V", VNum 500)].

Definition typical_props : gmap string value :=
  list_to_map
    [("name", VStr "  Dual VCA "); ("width", VNum 8); ("height", VNum 128.5);
     ("depth", VNum 30); ("powerDraw", VObj typical_rails)].

Definition knob_props : gmap string value :=
  list_to_map [("type", VStr "knob"); ("x", VNum 25); ("y", VNum 75)].

(** A project of the shape [_normalizeProjectSpec] builds, a store that
    holds it, and an update that renames it. *)
Definition stored_project : value :=
  obj [("id", VStr "prj_1"); ("name", VStr "Rack"); ("description", VStr "");
       ("modules", VArr [module_named "VCO"]);
       ("rack",
        obj [("width", VNum 104);
             ("powerSupply",
              obj [("+12V", VNum 1000); ("-12V", VNum 1000); ("+5V", VNum 1000)])]);
       ("metadata",
        obj [("createdAt", VNum 1000); ("updatedAt", VNum 1000); ("version", VNum 1)])].

Definition stored_world : world :=
  {| console := []; projectCache := ∅; localStorage := Parsed (VArr [stored_project]) |}.

Definition rename : value := obj [("name", VStr "Renamed")].

(** A project that was last updated at [t]. *)
Definition project_updated_at (id : string) (t : Q) : value :=
  obj [("id", VStr id); ("name", VStr "Rack");
       ("metadata", obj [("createdAt", VNum 0); ("updatedAt", VNum t);
                         ("version", VNum 1)])].

(** A store of three projects, not in order of their dates. *)
Definition three_projects : list value :=
  [project_updated_at "a" 10; project_updated_at "b" 30; project_updated_at "c" 20].

Definition three_projects_world : world :=
  {| console := []; projectCache := ∅; localStorage := Parsed (VArr three_projects) |}.

End Vocabulary.

Import Vocabulary.

(** ** Vocabulary of the further statements *)

Module Statements.

(** The messages the range rules of one numeric field push. *)
Definition range_errors (key : string) (lo hi : Z) (q : Q) : list string :=
  List.app (when (Qltb q (inject_Z lo)) (key ++ " must be at least " ++ show lo))
           (when (Qltb (inject_Z hi) q) (key ++ " must be at most " ++ show hi)).

(** A module specification with wide, tall and deep numbers out of range. *)
Definition oversized_props : gmap string value :=
  list_to_map
    [("name", VStr "Wall"); ("width", VNum 1); ("height", VNum 200);
     ("depth", VNum 30); ("powerDraw", VObj typical_rails)].

(** The meshes [_addControlTo3DModel] adds for one control on a module of
    width [w] HP, height [h] and depth [d]: one for a recognised control
    with numeric coordinates. *)
Definition placement (w h d : Q) (control : value) : list THREE.Mesh :=
  match ModuleDesignService.control_shape (field_of control "type"),
        field_of control "x", field_of control "y" with
  | Some (geometry, material), VNum cx, VNum cy =>
      [THREE.set_position (THREE.new_Mesh geometry material)
         (cx / 100 * (w * ModuleDesignService.hpUnit)
          - w * ModuleDesignService.hpUnit / 2)
         (h / 2 - cy / 100 * h)
         (d / 2 + 1)]
  | _, _, _ => []
  end.

(** A control the services can handle: an object that is either of no
    recognised type or has numbers for coordinates. *)
Definition placeable (control : value) : Prop :=
  nullish control = false /\
  (ModuleDesignService.control_shape (field_of control "type") = None \/
   exists cx cy, field_of control "x" = VNum cx /\ field_of control "y" = VNum cy).

(** The point lies on the front of a panel [widthMm] wide and [heightMm]
    high, one millimetre before a housing [depth] deep. *)
Definition on_panel (p : THREE.Vector3) (widthMm heightMm depth : Q) : Prop :=
  - (widthMm / 2) <= THREE.x p <= widthMm / 2 /\
  - (heightMm / 2) <= THREE.y p <= heightMm / 2 /\
  THREE.z p == depth / 2 + 1.

(** The project has the identifier [projectId]. *)
Definition has_id (projectId : string) (p : value) : bool :=
  strict_eq (field_of p "id") (VStr projectId).

(** Neither [null] nor [undefined]. *)
Definition present (v : value) : Prop := nullish v = false.

(** The state after [handler]-free work that touched neither the cache nor
    the stored projects. *)
Definition same_store (w w' : world) : Prop :=
  projectCache w' = projectCache w /\ localStorage w' = localStorage w.

(** The state with other stored text. *)
Definition with_storage (s : stored) (w : world) : world :=
  {| console := console w; projectCache := projectCache w; localStorage := s |}.

(** The state with one more cached project. *)
Definition with_cached (k : string) (p : value) (w : world) : world :=
  {| console := console w; projectCache := <[k := p]> (projectCache w);
     localStorage := localStorage w |}.

(** The stored text is the array of [projects]; no text stands for none. *)
Definition holds (w : world) (projects : list value) : Prop :=
  localStorage w = Parsed (VArr projects) \/
  (localStorage w = Absent /\ projects = []).

(** The projects with another identifier than [projectId]. *)
Definition others (projectId : string) (projects : list value) : list value :=
  List.filter (fun p => negb (has_id projectId p)) projects.

(** The sum of a list of numbers. *)
Definition sum_of (qs : list Q) : Q := List.fold_right Qplus 0 qs.

(** The modules are objects whose widths are the numbers [widths]. *)
Definition widths_are (modules : list value) (widths : list Q) : Prop :=
  Forall2 (fun m q => present m /\ field_of m "width" = VNum q) modules widths.

(** The draws of a module on the three rails, as [createModule] stores
    them. *)
Definition rails_of (draw : Q * Q * Q) : gmap string value :=
  let '(p12, m12, p5) := draw in
  list_to_map [("+12V", VNum p12); ("-12V", VNum m12); ("+5V", VNum p5)].

Definition plus12 (draw : Q * Q * Q) : Q := fst (fst draw).
Definition minus12 (draw : Q * Q * Q) : Q := snd (fst draw).
Definition plus5 (draw : Q * Q * Q) : Q := snd draw.

(** The modules are objects whose power draws are [draws]. *)
Definition draws_are (modules : list value) (draws : list (Q * Q * Q)) : Prop :=
  Forall2 (fun m d => present m /\ field_of m "powerDraw" = VObj (rails_of d))
          modules draws.

(** The modules are objects whose power draws, with 0 for a rail that is
    not given, are [draws]. *)
Definition draws_or_zero (modules : list value) (draws : list (Q * Q * Q)) : Prop :=
  Forall2
    (fun m d =>
       present m /\ present (field_of m "powerDraw") /\
       or_else (field_of (field_of m "powerDraw") "+12V") (VNum 0) = VNum (plus12 d) /\
       or_else (field_of (field_of m "powerDraw") "-12V") (VNum 0) = VNum (minus12 d) /\
       or_else (field_of (field_of m "powerDraw") "+5V") (VNum 0) = VNum (plus5 d))
    modules draws.

(** The breakdown [calculatePowerConsumption] returns. *)
Definition consumption (p12 m12 p5 total : Q) : gmap string value :=
  list_to_map [("+12V", VNum p12); ("-12V", VNum m12); ("+5V", VNum p5);
               ("total", VNum total)].

End Statements.

Import Statements.

(** ** Concrete inputs of the further statements *)

Module Examples.

(** A jack near the lower left corner. *)
Definition corner_jack : value :=
  obj [("type", VStr "jack"); ("x", VNum 10); ("y", VNum 90)].

(** A knob, a slider and a jack on one panel. *)
Definition three_controls : list value :=
  [centred_knob; slider; corner_jack].

(** A project with two modules, 8 and 12 HP wide, in a rack whose width is
    given as 104. *)
Definition two_module_project : gmap string value :=
  list_to_map
    [("id", VStr "prj_2"); ("name", VStr "Voice");
     ("modules",
      VArr [obj [("name", VStr "VCO"); ("width", VNum 8);
                 ("powerDraw", VObj (rails_of (120, 50, 0)))];
            obj [("name", VStr "VCF"); ("width", VNum 12);
                 ("powerDraw", VObj (rails_of (80, 30, 10)))]]);
     ("rack", obj [("width", VNum 104)])].

(** A state that has this project in its cache and nothing stored. *)
Definition two_module_world : world :=
  {| console := []; projectCache := {["prj_2" := VObj two_module_project]};
     localStorage := Absent |}.

(** A PNG image of 1000 bytes. *)
Definition png_file : gmap string value :=
  list_to_map [("name", VStr "panel.png"); ("type", VStr "image/png");
               ("size", VNum 1000)].

(** A generation request with an input type, dimensions and one image. *)
Definition generation_spec : value :=
  obj [("inputType", VStr "image");
       ("dimensions", obj [("width", VNum 40); ("height", VNum 128);
                           ("depth", VNum 30)]);
       ("images", VArr [VObj png_file])].

(** A schema for [validateInput] with an optional text. *)
Definition label_schema : list (string * FieldSchema) :=
  [("label",
    {| required := false; type := Some "string"; minLength := None;
       maxLength := None; min := None; max := None; validator := None |})].

(** Two rack modules, the second without a +5V rail. *)
Definition rack_modules : list value :=
  [obj [("name", VStr "VCO"); ("powerDraw", VObj (rails_of (120, 50, 0)))];
   obj [("name", VStr "LFO");
        ("powerDraw", obj [("+12V", VNum 20); ("-12V", VNum 15)])]].



End Examples.

Import Examples.

(** * Properties *)

Import ModuleDesignService.

(** ** Auxiliary facts about the fragment *)

Section JsFacts.

Lemma Qltb_false (a b : Q) : b <= a -> Qltb a b = false.
Proof.
  intros H. unfold Qltb. apply negb_false_iff. now apply Qle_bool_iff.
Qed.

End JsFacts.

Section ModuleValidation.

Lemma check_rail_in_range (rails : gmap string value) (rail : string) :
  draw_in_range rails rail -> check_rail (VObj rails) rail = Ok [].
Proof.
  unfold draw_in_range, check_rail. simpl.
  destruct (rails !! rail) as [v|]; simpl.
  - intros (q & -> & Hlo & Hhi). unfold or_else. simpl.
    destruct (Qeq_bool q 0); simpl.
    + reflexivity.
    + rewrite (Qltb_false q 0 Hlo).
      rewrite (Qltb_false (inject_Z maxPowerPerRail) q Hhi). reflexivity.
  - intros _. reflexivity.
Qed.

Lemma check_number_in_range (props : gmap string value) (key : string)
  (lo hi : Z) (q : Q) :
  props !! key = Some (VNum q) ->
  inject_Z lo <= q <= inject_Z hi ->
  check_field (VObj props)
    (key, {| required := true; type := Some "number";
             minLength := None; maxLength := None;
             min := Some lo; max := Some hi; validator := None |}) = Ok [].
Proof.
  intros Hget [Hlo Hhi]. unfold check_field. simpl. rewrite Hget. simpl.
  unfold type_mismatch. simpl.
  rewrite (Qltb_false _ _ Hlo). rewrite (Qltb_false _ _ Hhi). reflexivity.
Qed.

(** A module specification with a text name, a width between 2 and 42,
    a height between 100 and 150, a depth between 20 and 45 and a power-draw
    record whose rails each draw between 0 and 500 passes validation with an
    empty list of errors.  The record has to be there: see
    [validateModuleSpec_in_range_needs_powerDraw]. *)
Lemma validateModuleSpec_accepts_in_range
  (props rails : gmap string value) (name : string) (width height depth : Q) :
  props !! "name" = Some (VStr name) ->
  props !! "width" = Some (VNum width) -> 2 <= width <= 42 ->
  props !! "height" = Some (VNum height) -> 100 <= height <= 150 ->
  props !! "depth" = Some (VNum depth) -> 20 <= depth <= 45 ->
  props !! "powerDraw" = Some (VObj rails) ->
  (forall rail, In rail powerConnectors -> draw_in_range rails rail) ->
  _validateModuleSpec (VObj props) = Ok {| isValid := true; errors := [] |}.
Proof.
  intros Hname Hw Hwr Hh Hhr Hd Hdr Hp Hrails.
  unfold _validateModuleSpec, _moduleSchema.
  cbn [collect].
  rewrite (check_number_in_range props "width" 2 42 width Hw Hwr).
  rewrite (check_number_in_range props "height" 100 150 height Hh Hhr).
  rewrite (check_number_in_range props "depth" 20 45 depth Hd Hdr).
  unfold check_field at 1. cbn. rewrite Hname. cbn.
  unfold check_field. cbn. rewrite Hp. cbn.
  unfold _validatePowerDraw, powerConnectors. cbn [collect].
  rewrite !check_rail_in_range by (apply Hrails; unfold powerConnectors; simpl; tauto).
  reflexivity.
Qed.

End ModuleValidation.

Section ModuleValidationFailures.

(** C1. Validating the specification that the application controller hands
    to [createModule], which has no [powerDraw], does not return a result
    object: it raises a [TypeError]. *)
Theorem validateModuleSpec_throws_without_powerDraw :
  _validateModuleSpec new_module =
  Throw (TypeError "Cannot read properties of undefined (reading '+12V')").
Proof. vm_compute. reflexivity. Qed.

(** C3. A specification whose name is empty, or 51 characters long, is
    accepted, and the normalised module keeps that name. *)
Theorem createModule_keeps_name_out_of_range :
  (exists m, createModule_body (module_named "") = Ok m /\
             get m "name" = Ok (VStr "")) /\
  (exists m, createModule_body (module_named name_of_51) = Ok m /\
             get m "name" = Ok (VStr name_of_51) /\
             String.length name_of_51 = 51%nat).
Proof.
  split.
  - eexists. split; [vm_compute; reflexivity | reflexivity].
  - eexists. split; [vm_compute; reflexivity | split; reflexivity].
Qed.

End ModuleValidationFailures.

Section CentredKnob.

(** C4. For the module of width 4 HP, height 128.5 and depth 25 with one
    knob at (50, 50), the knob is placed at (0, 0, 13.5), both by
    [create3DModel], which rounds the height to 129 first, and by
    [createModuleModel]; the same arithmetic on doubles gives exactly these
    three numbers, for either height. *)
Theorem centred_knob_position :
  (forall w : world,
     exists panel knob,
       create3DModel module_with_centred_knob w = (Ok (Some [panel; knob]), w) /\
       THREE.geometry panel = THREE.BoxGeometry 20.32 129 2 /\
       THREE.geometry knob = THREE.CylinderGeometry 4 4 6 16 /\
       placed_at knob 0 0 13.5) /\
  (exists panel pcb housing knob,
     EuroRackApp.createModuleModel EuroRackApp.getDefaultModule [centred_knob]
       = Ok [panel; pcb; housing; knob] /\
     THREE.geometry knob = THREE.CylinderGeometry 4 4 6 16 /\
     placed_at knob 0 0 13.5) /\
  Binary64.position 50 50 (4 * Binary64.hpUnit) 129 25 = (0, 0, 13.5)%float /\
  Binary64.position 50 50 (4 * Binary64.hpUnit) 128.5 25 = (0, 0, 13.5)%float.
Proof.
  split; [| split; [| split]].
  - intros w. eexists. eexists. split; [vm_compute; reflexivity |].
    split; [reflexivity |]. split; [reflexivity |].
    repeat split; vm_compute; reflexivity.
  - do 4 eexists. split; [vm_compute; reflexivity |].
    split; [reflexivity |].
    repeat split; vm_compute; reflexivity.
  - vm_compute. reflexivity.
  - vm_compute. reflexivity.
Qed.

End CentredKnob.

Section Projection.

Lemma control_shape_unrecognized (ctype : value) :
  ctype <> VStr "knob" -> ctype <> VStr "jack" -> ctype <> VStr "switch" ->
  control_shape ctype = None.
Proof.
  intros Hk Hj Hs. unfold control_shape.
  destruct ctype as [| | | |s| |]; try reflexivity.
  destruct (String.eqb_spec s "knob") as [->|Nk]; [congruence|].
  destruct (String.eqb_spec s "jack") as [->|Nj]; [congruence|].
  destruct (String.eqb_spec s "switch") as [->|Ns]; [congruence|].
  repeat (match goal with
          | |- context [match ?s with EmptyString => _ | String _ _ => _ end] =>
              destruct s; try reflexivity; try congruence
          | |- context [match ?a with Ascii _ _ _ _ _ _ _ _ => _ end] =>
              destruct a
          | |- context [if ?b then _ else _] => destruct b
          end); try reflexivity; try congruence.
Qed.

End Projection.

Section RoundTrip.

Lemma percent_x_inverts (cx w : Q) :
  ~ w == 0 ->
  percent_x (cx / 100 * (w * hpUnit) - w * hpUnit / 2) (w * hpUnit) == cx.
Proof.
  intros Hw. unfold percent_x, hpUnit. field. exact Hw.
Qed.

Lemma percent_y_inverts (cy h : Q) :
  ~ h == 0 ->
  percent_y (h / 2 - cy / 100 * h) h == cy.
Proof.
  intros Hh. unfold percent_y. field. exact Hh.
Qed.

(** C5. For a module whose width and height are not zero and a recognised
    control at percentages (cx, cy), the inverse mapping applied to the
    position at which the control is placed gives back cx and cy, for
    [_addControlTo3DModel] and for [addControlToModel]. *)
Theorem projection_round_trip
  (mprops cprops : gmap string value) (w h d cx cy : Q) (g : THREE.Group) :
  mprops !! "width" = Some (VNum w) ->
  mprops !! "height" = Some (VNum h) ->
  mprops !! "depth" = Some (VNum d) ->
  ~ w == 0 -> ~ h == 0 ->
  cprops !! "x" = Some (VNum cx) ->
  cprops !! "y" = Some (VNum cy) ->
  recognized (VObj cprops) ->
  (exists mesh,
     _addControlTo3DModel g (VObj cprops) (VObj mprops) = Ok (g ++ [mesh])%list /\
     percent_x (THREE.x (THREE.position mesh)) (w * hpUnit) == cx /\
     percent_y (THREE.y (THREE.position mesh)) h == cy) /\
  (exists mesh,
     EuroRackApp.addControlToModel g (VObj mprops) (VObj cprops)
       (w * EuroRackApp.hpUnit) h = Ok (g ++ [mesh])%list /\
     percent_x (THREE.x (THREE.position mesh)) (w * EuroRackApp.hpUnit) == cx /\
     percent_y (THREE.y (THREE.position mesh)) h == cy).
Proof.
  intros Hw Hh Hd Nw Nh Hx Hy Hrec.
  unfold _addControlTo3DModel, EuroRackApp.addControlToModel.
  unfold recognized in Hrec. simpl in *.
  rewrite Hw, Hh, Hd, Hx, Hy. simpl.
  destruct Hrec as [E | [E | E]]; injection E as E; rewrite E; simpl;
    (split; eexists; (split; [reflexivity |]); simpl;
     (split; [apply percent_x_inverts | apply percent_y_inverts]); assumption).
Qed.

End RoundTrip.

Section CreatedModules.

Lemma isValid_result_of (errs : list string) :
  isValid (result_of errs) = true -> errs = [].
Proof.
  destruct errs; [reflexivity | discriminate].
Qed.

Lemma collect_nil {A : Type} (f : A -> outcome (list string)) (xs : list A) :
  collect f xs = Ok [] -> Forall (fun x => f x = Ok []) xs.
Proof.
  induction xs as [|x xs IH]; simpl; intros H; [constructor |].
  destruct (f x) as [here| |] eqn:Ex; simpl in H; try discriminate.
  destruct (collect f xs) as [later| |] eqn:Exs; simpl in H; try discriminate.
  injection H as H. apply List.app_eq_nil in H as [-> ->].
  constructor; [exact Ex | apply IH; reflexivity].
Qed.

Lemma collect_ext {A : Type} (f g : A -> outcome (list string)) (xs : list A) :
  Forall (fun x => f x = g x) xs -> collect f xs = collect g xs.
Proof.
  induction 1 as [|x xs Hx _ IH]; simpl; [reflexivity |].
  now rewrite Hx, IH.
Qed.

Lemma when_nil (b : bool) (m : string) : when b m = [] -> b = false.
Proof. destruct b; [discriminate | reflexivity]. Qed.

Lemma Qltb_false_inv (a b : Q) : Qltb a b = false -> b <= a.
Proof.
  unfold Qltb. intros H. apply negb_false_iff in H. now apply Qle_bool_iff.
Qed.

Lemma get_field_of (o : value) (k : string) :
  nullish o = false -> get o k = Ok (field_of o k).
Proof. destruct o; simpl; intros H; try reflexivity; discriminate. Qed.

(** A text field that passes its checks holds a string. *)
Lemma check_text_inv (props : gmap string value) (key : string) (lo hi : Z) :
  check_field (VObj props)
    (key, {| required := true; type := Some "string";
             minLength := Some lo; maxLength := Some hi;
             min := None; max := None; validator := None |}) = Ok [] ->
  exists s, props !! key = Some (VStr s).
Proof.
  unfold check_field, type_mismatch. simpl.
  destruct (props !! key) as [[| | | |s| |]|]; simpl; intros H;
    try discriminate.
  now exists s.
Qed.

(** A numeric field that passes its checks holds a number in its range. *)
Lemma check_number_inv (props : gmap string value) (key : string) (lo hi : Z) :
  check_field (VObj props)
    (key, {| required := true; type := Some "number";
             minLength := None; maxLength := None;
             min := Some lo; max := Some hi; validator := None |}) = Ok [] ->
  exists q, props !! key = Some (VNum q) /\ inject_Z lo <= q <= inject_Z hi.
Proof.
  unfold check_field, type_mismatch. simpl.
  destruct (props !! key) as [[| | |q| | |]|]; simpl; intros H;
    try discriminate.
  injection H as H. apply List.app_eq_nil in H as [Hlo H].
  apply List.app_eq_nil in H as [Hhi _].
  apply when_nil in Hlo, Hhi.
  exists q. split; [reflexivity |].
  split; now apply Qltb_false_inv.
Qed.

(** A rail that passes [check_rail] draws a number between 0 and 500, 0
    standing for a rail that is not given. *)
Lemma check_rail_inv (powerDraw : value) (rail : string) :
  check_rail powerDraw rail = Ok [] ->
  nullish powerDraw = false /\
  exists q, or_else (field_of powerDraw rail) (VNum 0) = VNum q /\ 0 <= q <= 500.
Proof.
  intros H.
  assert (Hnn : nullish powerDraw = false).
  { destruct powerDraw; try reflexivity; discriminate H. }
  split; [exact Hnn |].
  unfold check_rail in H.
  rewrite (get_field_of powerDraw rail Hnn) in H. cbn [bind] in H. cbv zeta in H.
  destruct (or_else (field_of powerDraw rail) (VNum 0)) as [| | |q| | |];
    simpl in H; try discriminate.
  injection H as H. apply List.app_eq_nil in H as [Hlo Hhi].
  apply when_nil in Hlo, Hhi.
  exists q. split; [reflexivity |].
  split; [now apply Qltb_false_inv |].
  now apply (Qltb_false_inv (inject_Z maxPowerPerRail)).
Qed.

Lemma check_powerDraw_inv (props : gmap string value) :
  check_field (VObj props)
    ("powerDraw",
     {| required := false; type := None; minLength := None; maxLength := None;
        min := None; max := None; validator := Some _validatePowerDraw |}) = Ok [] ->
  let powerDraw := default VUndefined (props !! "powerDraw") in
  nullish powerDraw = false /\
  forall rail, In rail powerConnectors ->
    exists q, or_else (field_of powerDraw rail) (VNum 0) = VNum q /\ 0 <= q <= 500.
Proof.
  unfold check_field, type_mismatch. simpl.
  set (powerDraw := default VUndefined (props !! "powerDraw")).
  unfold _validatePowerDraw.
  destruct (collect (check_rail powerDraw) powerConnectors) as [errs| |] eqn:E;
    simpl; intros H; try discriminate.
  assert (errs = []) as ->.
  { destruct errs; [reflexivity | discriminate]. }
  apply collect_nil in E.
  split.
  - inversion E as [|? ? H1 _]; subst. now apply check_rail_inv in H1.
  - intros rail Hin. rewrite List.Forall_forall in E.
    now apply (check_rail_inv powerDraw rail (E rail Hin)).
Qed.

(** What an accepted specification holds. *)
Lemma validateModuleSpec_accepted (props : gmap string value) (r : ValidationResult) :
  _validateModuleSpec (VObj props) = Ok r -> isValid r = true ->
  (exists s, props !! "name" = Some (VStr s)) /\
  (exists q, props !! "width" = Some (VNum q) /\ 2 <= q <= 42) /\
  (exists q, props !! "height" = Some (VNum q) /\ 100 <= q <= 150) /\
  (exists q, props !! "depth" = Some (VNum q) /\ 20 <= q <= 45) /\
  nullish (default VUndefined (props !! "powerDraw")) = false /\
  (forall rail, In rail powerConnectors ->
     exists q, or_else (field_of (default VUndefined (props !! "powerDraw")) rail)
                       (VNum 0) = VNum q /\ 0 <= q <= 500).
Proof.
  unfold _validateModuleSpec.
  destruct (collect (check_field (VObj props)) _moduleSchema) as [errs| |] eqn:E;
    simpl; intros H Hv; try discriminate.
  injection H as <-. apply isValid_result_of in Hv. subst errs.
  apply collect_nil in E. unfold _moduleSchema in E.
  inversion E as [|? ? Hname E1]; subst.
  inversion E1 as [|? ? Hwidth E2]; subst.
  inversion E2 as [|? ? Hheight E3]; subst.
  inversion E3 as [|? ? Hdepth E4]; subst.
  inversion E4 as [|? ? Hpower _]; subst.
  split; [exact (check_text_inv _ _ _ _ Hname) |].
  split; [exact (check_number_inv _ _ _ _ Hwidth) |].
  split; [exact (check_number_inv _ _ _ _ Hheight) |].
  split; [exact (check_number_inv _ _ _ _ Hdepth) |].
  exact (check_powerDraw_inv _ Hpower).
Qed.

End CreatedModules.

Section ValidationOutcome.

(** The checks of [name], [width], [height] and [depth] always return. *)
Lemma check_typed_field_returns (props : gmap string value) (key t : string)
  (short long : option Z) (lo hi : option Z) :
  (t = "number" \/ (lo = None /\ hi = None)) ->
  exists errs,
    check_field (VObj props)
      (key, {| required := true; type := Some t;
               minLength := short; maxLength := long;
               min := lo; max := hi; validator := None |}) = Ok errs.
Proof.
  intros Ht. unfold check_field, type_mismatch. cbn [fst snd get field_of bind required type].
  destruct (nullish (default VUndefined (props !! key))) eqn:Hn;
    cbn [andb]; [eexists; reflexivity |].
  destruct (String.eqb (typeof (default VUndefined (props !! key))) t) eqn:Hty;
    [| eexists; reflexivity].
  cbn [min max validator].
  destruct Ht as [-> | [-> ->]].
  - destruct (default VUndefined (props !! key)); try discriminate Hty.
    destruct lo, hi; cbn; eexists; reflexivity.
  - cbn. eexists; reflexivity.
Qed.

Lemma check_rail_returns (powerDraw : value) (rail : string) :
  nullish powerDraw = false -> exists errs, check_rail powerDraw rail = Ok errs.
Proof.
  intros Hnn. unfold check_rail. rewrite (get_field_of _ _ Hnn). cbn [bind]. cbv zeta.
  destruct (or_else (field_of powerDraw rail) (VNum 0)); cbn; eexists; reflexivity.
Qed.

Lemma check_rail_throws (powerDraw : value) (rail : string) :
  nullish powerDraw = true -> exists msg, check_rail powerDraw rail = Throw (TypeError msg).
Proof.
  destruct powerDraw; try discriminate; intros _; eexists; reflexivity.
Qed.

(** Validation of an object that has a [powerDraw] returns a result. *)
Lemma validateModuleSpec_returns_with_powerDraw (props : gmap string value) :
  nullish (default VUndefined (props !! "powerDraw")) = false ->
  exists r, _validateModuleSpec (VObj props) = Ok r.
Proof.
  intros Hnn. unfold _validateModuleSpec, _moduleSchema. cbn [collect].
  destruct (check_typed_field_returns props "name" "string" (Some 1%Z) (Some 50%Z)
              None None) as [e1 ->]; [right; split; reflexivity |].
  destruct (check_typed_field_returns props "width" "number" None None
              (Some 2%Z) (Some 42%Z)) as [e2 ->]; [now left |].
  destruct (check_typed_field_returns props "height" "number" None None
              (Some 100%Z) (Some 150%Z)) as [e3 ->]; [now left |].
  destruct (check_typed_field_returns props "depth" "number" None None
              (Some 20%Z) (Some 45%Z)) as [e4 ->]; [now left |].
  unfold check_field, type_mismatch. cbn [fst snd get field_of bind required type andb min max validator].
  unfold _validatePowerDraw, powerConnectors. cbn [collect].
  destruct (check_rail_returns _ "+12V" Hnn) as [r1 ->].
  destruct (check_rail_returns _ "-12V" Hnn) as [r2 ->].
  destruct (check_rail_returns _ "+5V" Hnn) as [r3 ->].
  cbn [bind]. eexists; reflexivity.
Qed.

(** Validation of an object without a [powerDraw] raises a [TypeError],
    whatever its other fields are. *)
Lemma validateModuleSpec_throws_when_powerDraw_missing (props : gmap string value) :
  nullish (default VUndefined (props !! "powerDraw")) = true ->
  exists msg, _validateModuleSpec (VObj props) = Throw (TypeError msg).
Proof.
  intros Hn. unfold _validateModuleSpec, _moduleSchema. cbn [collect].
  destruct (check_typed_field_returns props "name" "string" (Some 1%Z) (Some 50%Z)
              None None) as [e1 ->]; [right; split; reflexivity |].
  destruct (check_typed_field_returns props "width" "number" None None
              (Some 2%Z) (Some 42%Z)) as [e2 ->]; [now left |].
  destruct (check_typed_field_returns props "height" "number" None None
              (Some 100%Z) (Some 150%Z)) as [e3 ->]; [now left |].
  destruct (check_typed_field_returns props "depth" "number" None None
              (Some 20%Z) (Some 45%Z)) as [e4 ->]; [now left |].
  unfold check_field, type_mismatch. cbn [fst snd get field_of bind required type andb min max validator].
  unfold _validatePowerDraw, powerConnectors. cbn [collect].
  destruct (check_rail_throws _ "+12V" Hn) as [msg ->].
  cbn [bind]. eexists; reflexivity.
Qed.

End ValidationOutcome.


Section CreateModule.

Lemma normalized_rails_falsy (powerDraw : value) :
  nullish powerDraw = false -> truthy powerDraw = false ->
  normalized_rails powerDraw
  = VObj (list_to_map [("+12V", VNum 0); ("-12V", VNum 0); ("+5V", VNum 0)]).
Proof.
  destruct powerDraw; simpl; intros Hn Ht; try discriminate; reflexivity.
Qed.

(** [createModule] on an accepted specification. *)
Lemma createModule_body_accepted (props : gmap string value) (r : ValidationResult) :
  _validateModuleSpec (VObj props) = Ok r -> isValid r = true ->
  createModule_body (VObj props) = Ok (module_of props).
Proof.
  intros Hval Hvalid.
  destruct (validateModuleSpec_accepted props r Hval Hvalid)
    as ((s & Hs) & (w & Hw & _) & (h & Hh & _) & (d & Hd & _) & Hnn & _).
  unfold createModule_body. rewrite Hval. cbn [bind]. rewrite Hvalid. cbn [negb].
  unfold module_of, text_at, number_at.
  unfold _normalizeModuleSpec. cbn [get field_of bind].
  rewrite Hs, Hw, Hh, Hd. cbn [default trim_of Math_round to_number bind].
  set (powerDraw := default VUndefined (props !! "powerDraw")) in *.
  unfold rail_or_zero.
  assert (Hrails :
    (if truthy powerDraw
     then
       let* p12 := (let* raw := get powerDraw "+12V" in Ok (or_else raw (VNum 0))) in
       let* m12 := (let* raw := get powerDraw "-12V" in Ok (or_else raw (VNum 0))) in
       let* p5 := (let* raw := get powerDraw "+5V" in Ok (or_else raw (VNum 0))) in
       Ok (VObj (list_to_map [("+12V", p12); ("-12V", m12); ("+5V", p5)]))
     else
       Ok (VObj (list_to_map [("+12V", VNum 0); ("-12V", VNum 0); ("+5V", VNum 0)])))
    = Ok (normalized_rails powerDraw)).
  { destruct (truthy powerDraw) eqn:Ht.
    - rewrite !(get_field_of powerDraw _ Hnn). reflexivity.
    - now rewrite (normalized_rails_falsy powerDraw Hnn Ht). }
  rewrite Hrails. cbn [bind].
  reflexivity.
Qed.

End CreateModule.

Section CreateModuleReads.

Lemma check_field_ext (s1 s2 : value) (entry : string * FieldSchema) :
  get s1 (fst entry) = get s2 (fst entry) ->
  check_field s1 entry = check_field s2 entry.
Proof. unfold check_field. now intros ->. Qed.

(** Validation reads the five keys of the schema and nothing else. *)
Lemma validateModuleSpec_ext (p1 p2 : gmap string value) :
  (forall k, In k module_keys -> p1 !! k = p2 !! k) ->
  _validateModuleSpec (VObj p1) = _validateModuleSpec (VObj p2).
Proof.
  intros H. unfold _validateModuleSpec.
  rewrite (collect_ext (check_field (VObj p1)) (check_field (VObj p2))); [reflexivity |].
  unfold _moduleSchema.
  repeat constructor; apply check_field_ext; simpl; rewrite H; try reflexivity;
    unfold module_keys; simpl; tauto.
Qed.

Lemma module_of_ext (p1 p2 : gmap string value) :
  (forall k, In k module_keys -> p1 !! k = p2 !! k) ->
  module_of p1 = module_of p2.
Proof.
  intros H. unfold module_of, text_at, number_at.
  rewrite !H by (unfold module_keys; simpl; tauto). reflexivity.
Qed.

Lemma createModule_body_invalid (spec : value) (r : ValidationResult) :
  _validateModuleSpec spec = Ok r -> isValid r = false ->
  createModule_body spec
  = Throw (Error ("Invalid module specification: " ++ String.concat ", " (errors r))).
Proof.
  intros Hval Hinv. unfold createModule_body. rewrite Hval. cbn [bind].
  now rewrite Hinv.
Qed.

(** [createModule] reads the seven keys of [module_keys] and nothing else. *)
Lemma createModule_body_ext (p1 p2 : gmap string value) :
  (forall k, In k module_keys -> p1 !! k = p2 !! k) ->
  createModule_body (VObj p1) = createModule_body (VObj p2).
Proof.
  intros H.
  pose proof (validateModuleSpec_ext p1 p2 H) as Hval.
  destruct (_validateModuleSpec (VObj p2)) as [r| |] eqn:E.
  - destruct (isValid r) eqn:Hv.
    + rewrite (createModule_body_accepted p1 r Hval Hv).
      rewrite (createModule_body_accepted p2 r E Hv).
      now rewrite (module_of_ext p1 p2 H).
    + rewrite (createModule_body_invalid _ r Hval Hv).
      now rewrite (createModule_body_invalid _ r E Hv).
  - unfold createModule_body. now rewrite Hval, E.
  - unfold createModule_body. now rewrite Hval, E.
Qed.

(** What the caller of [create3DModel] gets back does not depend on the
    state. *)
Lemma create3DModel_returns (spec : value) (w : world) :
  fst (create3DModel spec w)
  = caught (let* module := caught (createModule_body spec) VNull in
            build3DModel module) None.
Proof.
  unfold create3DModel, createModule, try_catch, lift, and_then, handleError.
  destruct (createModule_body spec) as [m| |]; simpl; try reflexivity.
  destruct (build3DModel m); reflexivity.
Qed.

(** [create3DModel] call by call: the value returned and the errors
    logged. *)
Lemma create3DModel_unfold (spec : value) (w : world) :
  create3DModel spec w =
  match createModule_body spec with
  | Ok module =>
      match build3DModel module with
      | Ok group => (Ok group, w)
      | Throw e => (Ok None, logged e "3D Module Model Generation" w)
      | Unsupported => (Unsupported, w)
      end
  | Throw e =>
      (Ok None,
       logged (Error "Invalid module specification") "3D Module Model Generation"
         (logged e "Module Design Creation" w))
  | Unsupported => (Unsupported, w)
  end.
Proof.
  unfold create3DModel, createModule, try_catch, lift, and_then, handleError, logged.
  destruct (createModule_body spec) as [m| |]; [| reflexivity ..].
  destruct (build3DModel m); reflexivity.
Qed.

End CreateModuleReads.

Section NormalizedModules.

Lemma trim_end_idempotent (s : string) : trim_end (trim_end s) = trim_end s.
Proof.
  induction s as [|c rest IH]; [reflexivity |].
  cbn [trim_end]. destruct (trim_end rest) as [|c' rest'] eqn:E.
  - destruct (is_space c) eqn:Hc; [reflexivity |].
    cbn [trim_end]. now rewrite Hc.
  - cbn [trim_end] in *. now rewrite IH.
Qed.

Lemma trim_end_head (c : ascii) (rest : string) :
  is_space c = false -> exists rest', trim_end (String c rest) = String c rest'.
Proof.
  intros Hc. cbn [trim_end]. destruct (trim_end rest) as [|c' rest'].
  - rewrite Hc. now exists EmptyString.
  - now exists (String c' rest').
Qed.

Lemma trim_start_cases (s : string) :
  trim_start s = EmptyString \/
  exists c rest, trim_start s = String c rest /\ is_space c = false.
Proof.
  induction s as [|c rest IH]; [now left |].
  cbn [trim_start]. destruct (is_space c) eqn:Hc; [exact IH |].
  right. now exists c, rest.
Qed.

(** What [trim] returns is trimmed. *)
Lemma trim_trimmed (s : string) : trimmed (trim s).
Proof.
  unfold trimmed, trim.
  destruct (trim_start_cases s) as [-> | (c & rest & -> & Hc)]; [reflexivity |].
  destruct (trim_end_head c rest Hc) as [rest' E]. rewrite E.
  cbn [trim_start]. rewrite Hc. rewrite <- E. apply trim_end_idempotent.
Qed.

Lemma round_is_integer (q : Q) : is_integer (round q).
Proof. now exists (Qfloor (q + (1 # 2))). Qed.

(** Rounding keeps a number between the integer bounds it was between. *)
Lemma round_in_range (q : Q) (lo hi : Z) :
  inject_Z lo <= q <= inject_Z hi -> inject_Z lo <= round q <= inject_Z hi.
Proof.
  intros [Hlo Hhi]. unfold round. split.
  - rewrite <- Zle_Qle. rewrite <- (Qfloor_Z lo).
    apply Qfloor_resp_le. lra.
  - rewrite <- Zle_Qle.
    assert (H : (Qfloor (q + (1 # 2)) < hi + 1)%Z); [| lia].
    rewrite Zlt_Qlt.
    apply Qle_lt_trans with (q + (1 # 2)); [apply Qfloor_le |].
    rewrite inject_Z_plus. change (inject_Z 1) with 1. lra.
Qed.

Lemma createModule_body_Ok_inv (props : gmap string value) (m : value) :
  createModule_body (VObj props) = Ok m ->
  exists r, _validateModuleSpec (VObj props) = Ok r /\ isValid r = true /\
            m = module_of props.
Proof.
  intros H.
  destruct (_validateModuleSpec (VObj props)) as [r| |] eqn:E.
  - destruct (isValid r) eqn:Hv.
    + rewrite (createModule_body_accepted props r E Hv) in H. injection H as <-.
      now exists r.
    + rewrite (createModule_body_invalid _ r E Hv) in H. discriminate.
  - unfold createModule_body in H. rewrite E in H. discriminate.
  - unfold createModule_body in H. rewrite E in H. discriminate.
Qed.

(** The invariants of a created module: a trimmed name, integer width,
    height and depth within their ranges, and every rail a number of
    milliamps between 0 and 500. *)
Lemma createModule_invariants (props : gmap string value) (m : value) :
  createModule_body (VObj props) = Ok m ->
  exists (name : string) (width height depth : Q) (powerDraw : value),
    get m "name" = Ok (VStr name) /\ trimmed name /\
    get m "width" = Ok (VNum width) /\ is_integer width /\ 2 <= width <= 42 /\
    get m "height" = Ok (VNum height) /\ is_integer height /\ 100 <= height <= 150 /\
    get m "depth" = Ok (VNum depth) /\ is_integer depth /\ 20 <= depth <= 45 /\
    get m "powerDraw" = Ok powerDraw /\
    forall rail, In rail powerConnectors ->
      exists q, get powerDraw rail = Ok (VNum q) /\ 0 <= q <= 500.
Proof.
  intros H. apply createModule_body_Ok_inv in H as (r & Hval & Hv & ->).
  destruct (validateModuleSpec_accepted props r Hval Hv)
    as ((s & Hs) & (w & Hw & Rw) & (h & Hh & Rh) & (d & Hd & Rd) & Hnn & Hrails).
  exists (trim s), (round w), (round h), (round d),
    (normalized_rails (default VUndefined (props !! "powerDraw"))).
  unfold module_of, text_at, number_at. rewrite Hs, Hw, Hh, Hd.
  split; [reflexivity |]. split; [apply trim_trimmed |].
  split; [reflexivity |]. split; [apply round_is_integer |].
  split; [exact (round_in_range w 2 42 Rw) |].
  split; [reflexivity |]. split; [apply round_is_integer |].
  split; [exact (round_in_range h 100 150 Rh) |].
  split; [reflexivity |]. split; [apply round_is_integer |].
  split; [exact (round_in_range d 20 45 Rd) |].
  split; [reflexivity |].
  intros rail Hin. destruct (Hrails rail Hin) as (q & Hq & Rq).
  exists q. split; [| exact Rq].
  unfold powerConnectors in Hin. cbn in Hin.
  destruct Hin as [<- | [<- | [<- | []]]]; cbn in Hq |- *; now rewrite Hq.
Qed.

End NormalizedModules.


Section SkippedControls.

Lemma add_control_created (g : THREE.Group) (control : value)
  (name : string) (w h d : Q) (powerDraw controls images : value) :
  _addControlTo3DModel g control (created_module name w h d powerDraw controls images)
  = place_control w h d g control.
Proof.
  unfold _addControlTo3DModel, place_control.
  change (get (created_module name w h d powerDraw controls images) "width")
    with (Ok (A := value) (VNum w)).
  change (get (created_module name w h d powerDraw controls images) "height")
    with (Ok (A := value) (VNum h)).
  change (get (created_module name w h d powerDraw controls images) "depth")
    with (Ok (A := value) (VNum d)).
  cbn [bind to_number].
  destruct (get control "x"); cbn [bind]; reflexivity.
Qed.

Lemma fold_each_ext {A S : Type} (f f' : S -> A -> outcome S) (xs : list A) :
  (forall acc x, f acc x = f' acc x) ->
  forall acc, fold_each f xs acc = fold_each f' xs acc.
Proof.
  intros H. induction xs as [|x xs IH]; intros acc; simpl; [reflexivity |].
  rewrite H. destruct (f' acc x); simpl; [apply IH | reflexivity ..].
Qed.

Lemma fold_each_skip {A S : Type} (f : S -> A -> outcome S) (pre post : list A) (x : A) :
  (forall acc, f acc x = Ok acc) ->
  forall acc, fold_each f (pre ++ x :: post)%list acc = fold_each f (pre ++ post)%list acc.
Proof.
  intros H. induction pre as [|y pre IH]; intros acc; simpl.
  - now rewrite H.
  - destruct (f acc y); simpl; [apply IH | reflexivity ..].
Qed.

Lemma build3DModel_created (name : string) (w h d : Q)
  (powerDraw images : value) (controls : list value) :
  build3DModel (created_module name w h d powerDraw (VArr controls) images)
  = (let* g := fold_each (place_control w h d) controls [panel_of w h] in
     Ok (Some g)).
Proof.
  unfold build3DModel.
  set (module := created_module name w h d powerDraw (VArr controls) images).
  change (truthy module) with true.
  change (get module "width") with (Ok (A := value) (VNum w)).
  change (get module "height") with (Ok (A := value) (VNum h)).
  change (get module "controls") with (Ok (A := value) (VArr controls)).
  cbn [negb bind to_number].
  rewrite (fold_each_ext _ (place_control w h d)); [reflexivity |].
  intros acc x. apply add_control_created.
Qed.

Lemma place_control_unrecognized (w h d : Q) (g : THREE.Group) (control : value) :
  unrecognized control -> place_control w h d g control = Ok g.
Proof.
  intros (ctype & Hget & Hk & Hj & Hs). unfold place_control.
  assert (Hnn : nullish control = false).
  { destruct control; try reflexivity; discriminate Hget. }
  rewrite !(get_field_of control _ Hnn). rewrite (get_field_of control _ Hnn) in Hget.
  injection Hget as ->. cbn [bind].
  now rewrite (control_shape_unrecognized _ Hk Hj Hs).
Qed.

Lemma addControlToModel_unrecognized (g : THREE.Group) (currentModule control depth : value)
  (widthMm heightMm : Q) :
  get currentModule "depth" = Ok depth ->
  unrecognized control ->
  EuroRackApp.addControlToModel g currentModule control widthMm heightMm = Ok g.
Proof.
  intros Hd (ctype & Hget & Hk & Hj & Hs). unfold EuroRackApp.addControlToModel.
  assert (Hnn : nullish control = false).
  { destruct control; try reflexivity; discriminate Hget. }
  rewrite !(get_field_of control _ Hnn). rewrite (get_field_of control _ Hnn) in Hget.
  injection Hget as ->. rewrite Hd. cbn [bind].
  change EuroRackApp.control_shape with control_shape.
  now rewrite (control_shape_unrecognized _ Hk Hj Hs).
Qed.

Lemma module_of_with_controls (props : gmap string value) (controls : list value) :
  module_of (<["controls" := VArr controls]> props)
  = created_module
      (trim (text_at props "name"))
      (round (number_at props "width"))
      (round (number_at props "height"))
      (round (number_at props "depth"))
      (normalized_rails (default VUndefined (props !! "powerDraw")))
      (VArr controls)
      (or_else (default VUndefined (props !! "images")) (VArr [])).
Proof.
  unfold module_of, text_at, number_at.
  rewrite lookup_insert_eq.
  rewrite !lookup_insert_ne by discriminate.
  reflexivity.
Qed.

Lemma validateModuleSpec_with_controls (props : gmap string value) (controls : list value) :
  _validateModuleSpec (with_controls props controls) = _validateModuleSpec (VObj props).
Proof.
  unfold _validateModuleSpec, with_controls.
  rewrite (collect_ext _ (check_field (VObj props))); [reflexivity |].
  unfold _moduleSchema.
  repeat constructor; apply check_field_ext; simpl;
    rewrite lookup_insert_ne by discriminate; reflexivity.
Qed.

(** For every module, valid or not: with a control whose type is none of
    knob, jack and switch in the list, at any place, [create3DModel] and
    [createModuleModel] return what they return without it and log what
    they log without it. *)
Lemma unrecognized_control_skipped
  (props : gmap string value) (currentModule control : value)
  (pre post : list value) (w : world) :
  unrecognized control ->
  create3DModel (with_controls props (pre ++ control :: post)) w
  = create3DModel (with_controls props (pre ++ post)) w
  /\ EuroRackApp.createModuleModel currentModule (pre ++ control :: post)
     = EuroRackApp.createModuleModel currentModule (pre ++ post).
Proof.
  intros Hun. split.
  - rewrite !create3DModel_unfold.
    pose proof (validateModuleSpec_with_controls props (pre ++ control :: post)) as E1.
    pose proof (validateModuleSpec_with_controls props (pre ++ post)) as E2.
    destruct (_validateModuleSpec (VObj props)) as [r| |] eqn:E.
    + destruct (isValid r) eqn:Hv.
      * unfold with_controls in *.
        rewrite (createModule_body_accepted _ r E1 Hv).
        rewrite (createModule_body_accepted _ r E2 Hv).
        rewrite !module_of_with_controls.
        rewrite !build3DModel_created.
        rewrite (fold_each_skip (place_control _ _ _) pre post control); [reflexivity |].
        intros acc. now apply place_control_unrecognized.
      * rewrite (createModule_body_invalid _ r E1 Hv).
        rewrite (createModule_body_invalid _ r E2 Hv). reflexivity.
    + unfold createModule_body. rewrite E1, E2. reflexivity.
    + unfold createModule_body. rewrite E1, E2. reflexivity.
  - unfold EuroRackApp.createModuleModel.
    destruct (get currentModule "width") as [w0| |]; cbn [bind]; try reflexivity.
    destruct (to_number w0) as [wn| |]; cbn [bind]; try reflexivity.
    destruct (get currentModule "height") as [h0| |]; cbn [bind]; try reflexivity.
    destruct (to_number h0) as [hn| |]; cbn [bind]; try reflexivity.
    destruct (get currentModule "depth") as [d0| |] eqn:Hd; cbn [bind]; try reflexivity.
    destruct (to_number d0) as [dn| |]; cbn [bind]; try reflexivity.
    apply fold_each_skip. intros acc.
    now apply (addControlToModel_unrecognized acc currentModule control d0).
Qed.

End SkippedControls.

Section Determinism.

(** What [create3DModel] returns for a specification is the same in
    every state of the services, and the same again on a second call made
    in the state the first call leaves behind.  The embedding makes this so:
    a method that reads no state becomes a function of its argument. *)
Lemma create3DModel_deterministic (spec : value) :
  (forall w1 w2 : world,
     fst (create3DModel spec w1) = fst (create3DModel spec w2)) /\
  (forall w : world,
     fst (create3DModel spec (snd (create3DModel spec w)))
     = fst (create3DModel spec w)) /\
  (forall w : world,
     fst (create3DModel spec w)
     = caught (let* module := caught (createModule_body spec) VNull in
               build3DModel module) None).
Proof.
  split; [| split]; intros; now rewrite !create3DModel_returns.
Qed.

End Determinism.

Import ProjectManagementService.

Section DerivedFields.

Lemma createModule_ext (p1 p2 : gmap string value) (w : world) :
  (forall k, In k module_keys -> p1 !! k = p2 !! k) ->
  createModule (VObj p1) w = createModule (VObj p2) w.
Proof.
  intros H. unfold createModule, try_catch, lift.
  now rewrite (createModule_body_ext p1 p2 H).
Qed.

Lemma merge_updates_ignores_metadata (project : value) (uprops : gmap string value)
  (supplied : value) (now : Z) :
  merge_updates project (VObj (<["metadata" := supplied]> uprops)) now
  = merge_updates project (VObj uprops) now.
Proof.
  unfold merge_updates. cbn [own_props].
  destruct (own_props project) as [mine| |]; cbn [bind]; try reflexivity.
  destruct (updated_metadata project now) as [md| |]; cbn [bind]; try reflexivity.
  now rewrite <- insert_union_l, insert_insert_eq.
Qed.

Lemma merge_updates_metadata (project updates merged : value) (now : Z) :
  merge_updates project updates now = Ok merged ->
  exists metadata,
    updated_metadata project now = Ok metadata /\ get merged "metadata" = Ok metadata.
Proof.
  unfold merge_updates.
  destruct (own_props project) as [mine| |]; cbn [bind]; try discriminate.
  destruct (own_props updates) as [theirs| |]; cbn [bind]; try discriminate.
  destruct (updated_metadata project now) as [md| |]; cbn [bind]; try discriminate.
  intros H. injection H as <-. exists md. split; [reflexivity |].
  cbn [get field_of]. now rewrite lookup_insert_eq.
Qed.

Lemma normalizeProjectSpec_ignores_metadata (props : gmap string value)
  (supplied : value) (now : Z) (w : world) :
  _normalizeProjectSpec (VObj (<["metadata" := supplied]> props)) now w
  = _normalizeProjectSpec (VObj props) now w.
Proof.
  unfold _normalizeProjectSpec. cbn [get field_of].
  rewrite !lookup_insert_ne by discriminate. reflexivity.
Qed.

Ltac step H :=
  match type of H with
  | context [match ?c with _ => _ end] =>
      let E := fresh "E" in destruct c eqn:E; cbn [bind fst snd] in H; try discriminate H
  | context [bind ?c _] =>
      let E := fresh "E" in destruct c eqn:E; cbn [bind fst snd] in H; try discriminate H
  end.

Lemma normalizeProjectSpec_metadata (spec p : value) (now : Z) (w w' : world) :
  _normalizeProjectSpec spec now w = (Ok p, w') ->
  get p "metadata" = Ok (fresh_metadata now).
Proof.
  unfold _normalizeProjectSpec, and_then, lift. intros H.
  repeat step H.
  inversion H; subst. reflexivity.
Qed.

End DerivedFields.

Section DerivedFieldsIgnored.

(** Values supplied for derived fields are ignored.  [createModule]
    returns the same for a specification with and without [hpWidth] and
    [volumeCm3], and the module it returns has [hpWidth = width * 5.08] and
    the volume of its own dimensions; [_normalizeProjectSpec] returns the
    same with and without a supplied [metadata], and the project it returns
    has the fresh metadata of its creation time; the merge of
    [updateProject] is the same with and without a [metadata] in the
    updates, and the metadata of the merged project is computed from the
    stored project and the time. *)
Lemma derived_fields_recomputed
  (props pprops uprops : gmap string value) (project : value)
  (hp vol supplied : value) (now : Z) (w : world) :
  createModule (VObj (<["hpWidth" := hp]> (<["volumeCm3" := vol]> props))) w
    = createModule (VObj props) w
  /\ (forall m, createModule_body (VObj props) = Ok m ->
        exists width height depth,
          get m "width" = Ok (VNum width) /\
          get m "height" = Ok (VNum height) /\
          get m "depth" = Ok (VNum depth) /\
          get m "hpWidth" = Ok (VNum (width * 5.08)) /\
          get m "volumeCm3" = Ok (VNum (width * 5.08 * height / 10 * depth / 10)))
  /\ _normalizeProjectSpec (VObj (<["metadata" := supplied]> pprops)) now w
       = _normalizeProjectSpec (VObj pprops) now w
  /\ (forall p w', _normalizeProjectSpec (VObj pprops) now w = (Ok p, w') ->
        get p "metadata" = Ok (fresh_metadata now))
  /\ merge_updates project (VObj (<["metadata" := supplied]> uprops)) now
       = merge_updates project (VObj uprops) now
  /\ (forall merged, merge_updates project (VObj uprops) now = Ok merged ->
        exists metadata,
          updated_metadata project now = Ok metadata /\
          get merged "metadata" = Ok metadata).
Proof.
  repeat split.
  - apply createModule_ext. intros k Hk.
    rewrite !lookup_insert_ne; [reflexivity | ..];
      intros E; subst k; unfold module_keys in Hk; simpl in Hk;
      repeat (destruct Hk as [Hk | Hk]; [discriminate Hk |]); exact Hk.
  - intros m Hm. apply createModule_body_Ok_inv in Hm as (_ & _ & _ & ->).
    do 3 eexists. repeat split; reflexivity.
  - apply normalizeProjectSpec_ignores_metadata.
  - intros p w'. apply normalizeProjectSpec_metadata.
  - apply merge_updates_ignores_metadata.
  - intros merged. apply merge_updates_metadata.
Qed.

End DerivedFieldsIgnored.

Section ProjectValidation.

(** No value has the [typeof] that the schema asks of [modules]. *)
Lemma typeof_never_array (v : value) : String.eqb (typeof v) "array" = false.
Proof. destruct v; reflexivity. Qed.

(** The check of the [modules] key always pushes a message, when it
    returns. *)
Lemma check_modules_key (spec : value) (rules : FieldSchema) (w w' : world)
  (errs : list string) :
  required rules = true -> type rules = Some "array" ->
  ProjectManagementService.check_field spec ("modules", Field rules) w = (Ok errs, w') ->
  errs <> [].
Proof.
  intros Hreq Hty. unfold ProjectManagementService.check_field, and_then, lift.
  cbn [fst snd rules_of]. rewrite Hreq. unfold type_mismatch. rewrite Hty.
  destruct (get spec "modules") as [v| |]; try discriminate.
  rewrite typeof_never_array.
  destruct v; cbn; intros H; inversion H; subst; discriminate.
Qed.

Lemma collect_each_cons {A : Type} (f : A -> action (list string)) (x : A)
  (xs : list A) (w w' : world) (errs : list string) :
  collect_each f (x :: xs) w = (Ok errs, w') ->
  exists here later w1,
    f x w = (Ok here, w1) /\ collect_each f xs w1 = (Ok later, w') /\
    errs = List.app here later.
Proof.
  cbn [collect_each]. unfold and_then, lift.
  destruct (f x w) as [[here| |] w1] eqn:E1; try discriminate.
  destruct (collect_each f xs w1) as [[later| |] w2] eqn:E2; try discriminate.
  intros H. inversion H; subst. now exists here, later, w1.
Qed.

(** [_validateProjectSpec] accepts no project at all. *)
Lemma validateProjectSpec_rejects (spec : value) (w w' : world) (r : ValidationResult) :
  _validateProjectSpec spec w = (Ok r, w') -> isValid r = false.
Proof.
  unfold _validateProjectSpec, and_then, lift.
  destruct (collect_each (ProjectManagementService.check_field spec) _projectSchema w)
    as [[errs| |] w1] eqn:E; try discriminate.
  intros H. inversion H; subst. clear H.
  unfold _projectSchema in E.
  apply collect_each_cons in E as (e1 & l1 & w2 & _ & E & ->).
  apply collect_each_cons in E as (e2 & l2 & w3 & _ & E & ->).
  apply collect_each_cons in E as (e3 & l3 & w4 & Hmod & _ & ->).
  apply check_modules_key in Hmod; [| reflexivity ..].
  destruct e1, e2, e3; try reflexivity. now destruct Hmod.
Qed.

Lemma updateProject_returns_null (projectId : string) (updates : value) (now : Z)
  (w : world) (v : value) :
  fst (updateProject projectId updates now w) = Ok v -> v = VNull.
Proof.
  unfold updateProject, try_catch, and_then, lift, handleError.
  destruct (getProjectById projectId w) as [[project| |] w1]; cbn [fst];
    [| intros H; now inversion H | discriminate].
  destruct (truthy project); cbn [negb];
    [| intros H; now inversion H].
  destruct (merge_updates project updates now) as [merged| |];
    [| intros H; now inversion H | discriminate].
  destruct (_validateProjectSpec merged w1) as [[r| |] w2] eqn:E;
    [| intros H; now inversion H | discriminate].
  rewrite (validateProjectSpec_rejects _ _ _ _ E). cbn [negb fst].
  intros H. now inversion H.
Qed.

Lemma createProject_returns_null (spec : value) (now : Z) (freshId : string)
  (w : world) (v : value) :
  fst (createProject spec now freshId w) = Ok v -> v = VNull.
Proof.
  unfold createProject, try_catch, and_then, lift, handleError.
  destruct (_validateProjectSpec spec w) as [[r| |] w1] eqn:E;
    [| intros H; now inversion H | discriminate].
  rewrite (validateProjectSpec_rejects _ _ _ _ E). cbn [negb fst].
  intros H. now inversion H.
Qed.

(** [updateProject] returns a project for no stored project and no
    update: whatever it returns is [null].  For the stored project
    [stored_project], whose version is 1 and which was updated at 1000, and
    the update [rename] at time 2000, the merged project has version 2 and
    [updatedAt] 2000, validation rejects it because [typeof] never answers
    ['array'], and the call returns [null]. *)
Lemma updateProject_never_succeeds :
  (forall (projectId : string) (updates : value) (now : Z) (w : world),
     fst (updateProject projectId updates now w) = Ok VNull \/
     fst (updateProject projectId updates now w) = Unsupported) /\
  (exists merged metadata,
     merge_updates stored_project rename 2000 = Ok merged /\
     get merged "metadata" = Ok metadata /\
     get metadata "version" = Ok (VNum 2) /\
     get metadata "updatedAt" = Ok (VNum 2000) /\
     fst (_validateProjectSpec merged stored_world)
       = Ok {| isValid := false; errors := ["modules must be of type array"] |}) /\
  fst (updateProject "prj_1" rename 2000 stored_world) = Ok VNull.
Proof.
  split; [| split].
  - intros projectId updates now w.
    pose proof (updateProject_returns_null projectId updates now w) as H.
    destruct (fst (updateProject projectId updates now w)) as [v| |] eqn:E.
    + left. now rewrite (H v eq_refl).
    + exfalso. revert E.
      unfold updateProject, try_catch, and_then, lift, handleError.
      destruct (getProjectById projectId w) as [[project| |] w1]; cbn [fst];
        try discriminate.
      destruct (truthy project); cbn [negb]; try discriminate.
      destruct (merge_updates project updates now) as [merged| |]; try discriminate.
      destruct (_validateProjectSpec merged w1) as [[r| |] w2]; try discriminate.
      destruct (isValid r); cbn [negb]; try discriminate.
      unfold _saveProject, try_catch, and_then, lift, handleError.
      destruct (_getProjects w2) as [[ps| |] w3]; try discriminate.
      * destruct (as_array ps "findIndex") as [items| |]; try discriminate.
        destruct (replace_or_push merged items) as [items'| |]; try discriminate.
        unfold storage_set. 
        destruct (get merged "id") as [[]| |]; try discriminate.
    + now right.
  - do 2 eexists. split; [vm_compute; reflexivity |].
    repeat split; vm_compute; reflexivity.
  - vm_compute. reflexivity.
Qed.

End ProjectValidation.

Section ProjectList.

Lemma by_updatedAt_numbers (a b : value) (qa qb : Q) :
  updatedAt_of a = Some qa -> updatedAt_of b = Some qb ->
  by_updatedAt a b = Ok (qb - qa).
Proof.
  unfold updatedAt_of. intros Ha Hb.
  destruct (get a "metadata") as [am| |] eqn:Ea; try discriminate.
  destruct (get am "updatedAt") as [[| | |q1| | |]| |] eqn:Eau; try discriminate.
  destruct (get b "metadata") as [bm| |] eqn:Eb; try discriminate.
  destruct (get bm "updatedAt") as [[| | |q2| | |]| |] eqn:Ebu; try discriminate.
  injection Ha as ->. injection Hb as ->.
  unfold by_updatedAt. rewrite Eb. cbn [bind]. rewrite Ebu. cbn [bind].
  rewrite Ea. cbn [bind]. rewrite Eau. reflexivity.
Qed.

Lemma not_older_trans (a b c : value) :
  not_older a b -> not_older b c -> not_older a c.
Proof.
  intros (qa & qb & Ha & Hb & Hab) (qb' & qc & Hb' & Hc & Hbc).
  rewrite Hb in Hb'. injection Hb' as <-.
  exists qa, qc. repeat split; try assumption.
  now apply Qle_trans with qb.
Qed.

(** Inserting a dated project into a list sorted newest first keeps it
    sorted and adds just that project. *)
Lemma insert_by_sorted (x : value) (sorted : list value) :
  is_Some (updatedAt_of x) ->
  Forall (fun p => is_Some (updatedAt_of p)) sorted ->
  StronglySorted not_older sorted ->
  exists sorted',
    insert_by by_updatedAt x sorted = Ok sorted' /\
    Permutation (x :: sorted) sorted' /\
    StronglySorted not_older sorted'.
Proof.
  intros [qx Hx] Hall Hsorted.
  induction sorted as [|y rest IH]; cbn [insert_by].
  - exists [x]. repeat split; [reflexivity | repeat constructor].
  - inversion Hall as [|? ? [qy Hy] Hrest]; subst.
    inversion Hsorted as [|? ? Hsr Hyrest]; subst.
    rewrite (by_updatedAt_numbers x y qx qy Hx Hy). cbn [bind].
    destruct (Qle_bool (qy - qx) 0) eqn:Hc.
    + apply Qle_bool_iff in Hc.
      assert (Hxy : not_older x y).
      { exists qx, qy. repeat split; try assumption. lra. }
      exists (x :: y :: rest). repeat split; [reflexivity |].
      constructor; [exact Hsorted |].
      constructor; [exact Hxy |].
      eapply List.Forall_impl; [| exact Hyrest].
      intros z Hz. now apply not_older_trans with y.
    + destruct (IH Hrest Hsr) as (rest' & -> & Hperm & Hsorted').
      cbn [bind]. exists (y :: rest'). repeat split.
      * rewrite perm_swap. now constructor.
      * constructor; [exact Hsorted' |].
        assert (Hyx : not_older y x).
        { exists qy, qx. repeat split; try assumption.
          destruct (Qlt_le_dec 0 (qy - qx)) as [Hlt | Hle]; [lra |].
          apply Qle_bool_iff in Hle. congruence. }
        eapply Permutation_Forall; [exact Hperm |].
        constructor; assumption.
Qed.

Lemma sort_by_sorted (projects : list value) :
  Forall (fun p => is_Some (updatedAt_of p)) projects ->
  exists sorted,
    sort_by by_updatedAt projects = Ok sorted /\
    Permutation projects sorted /\
    StronglySorted not_older sorted.
Proof.
  induction 1 as [|x rest Hx Hrest IH]; cbn [sort_by].
  - exists []. repeat split; constructor.
  - destruct IH as (sorted & -> & Hperm & Hsorted). cbn [bind].
    assert (Hall : Forall (fun p => is_Some (updatedAt_of p)) sorted).
    { eapply Permutation_Forall; eassumption. }
    destruct (insert_by_sorted x sorted Hx Hall Hsorted) as (sorted' & E & Hp & Hs).
    exists sorted'. repeat split; try assumption.
    etransitivity; [| exact Hp]. now constructor.
Qed.

Lemma dated_not_undefined (projects : list value) :
  Forall (fun p => is_Some (updatedAt_of p)) projects ->
  List.filter (fun v => negb (is_undefined v)) projects = projects /\
  List.filter is_undefined projects = [].
Proof.
  induction 1 as [|x rest [q Hx] _ [IH1 IH2]]; [split; reflexivity |].
  destruct x; try discriminate Hx; cbn; now rewrite IH1, IH2.
Qed.

(** C10. When every stored project has a numeric [metadata.updatedAt],
    [getProjects] returns the stored projects, each once, the most recently
    updated first, and changes nothing. *)
Theorem getProjects_sorted_newest_first (w : world) (projects : list value) :
  localStorage w = Parsed (VArr projects) ->
  Forall (fun p => is_Some (updatedAt_of p)) projects ->
  exists sorted,
    getProjects w = (Ok (VArr sorted), w) /\
    Permutation projects sorted /\
    StronglySorted not_older sorted.
Proof.
  intros Hstore Hall.
  destruct (sort_by_sorted projects Hall) as (sorted & Hsort & Hperm & Hsorted).
  destruct (dated_not_undefined projects Hall) as [Hdef Hundef].
  exists sorted. repeat split; try assumption.
  unfold getProjects, _getProjects, try_catch, and_then, lift, storage_get.
  rewrite Hstore. cbn [as_array bind]. unfold Array_sort.
  rewrite Hdef, Hundef, Hsort. cbn [bind]. now rewrite List.app_nil_r.
Qed.

End ProjectList.

(** ** The theorems at concrete inputs *)

Section Witnesses.

Lemma validateModuleSpec_accepts_in_range_witness :
  _validateModuleSpec (VObj typical_props) = Ok {| isValid := true; errors := [] |}.
Proof.
  apply (validateModuleSpec_accepts_in_range
           typical_props typical_rails "  Dual VCA " 8 128.5 30);
    try reflexivity; try (split; discriminate).
  intros rail [<- | [<- | [<- | []]]]; unfold draw_in_range; cbn.
  - exists 120. split; [reflexivity | split; discriminate].
  - exists 500. split; [reflexivity | split; discriminate].
  - exact I.
Defined.

Lemma projection_round_trip_witness :
  (exists mesh,
     _addControlTo3DModel [] (VObj knob_props) (VObj typical_props) = Ok [mesh] /\
     percent_x (THREE.x (THREE.position mesh)) (8 * hpUnit) == 25 /\
     percent_y (THREE.y (THREE.position mesh)) 128.5 == 75) /\
  (exists mesh,
     EuroRackApp.addControlToModel [] (VObj typical_props) (VObj knob_props)
       (8 * EuroRackApp.hpUnit) 128.5 = Ok [mesh] /\
     percent_x (THREE.x (THREE.position mesh)) (8 * EuroRackApp.hpUnit) == 25 /\
     percent_y (THREE.y (THREE.position mesh)) 128.5 == 75).
Proof.
  apply (projection_round_trip typical_props knob_props 8 128.5 30 25 75 []);
    try reflexivity; try discriminate.
  left. reflexivity.
Defined.

Lemma unrecognized_control_skipped_witness :
  create3DModel (with_controls typical_props ([centred_knob] ++ slider :: [])) empty_world
  = create3DModel (with_controls typical_props ([centred_knob] ++ [])) empty_world
  /\ EuroRackApp.createModuleModel EuroRackApp.getDefaultModule
       ([centred_knob] ++ slider :: [])
     = EuroRackApp.createModuleModel EuroRackApp.getDefaultModule ([centred_knob] ++ []).
Proof.
  apply (unrecognized_control_skipped typical_props EuroRackApp.getDefaultModule slider
           [centred_knob] [] empty_world).
  exists (VStr "slider"). repeat split; try reflexivity; discriminate.
Defined.

Lemma derived_fields_recomputed_witness :
  exists width height depth,
    get (module_of typical_props) "width" = Ok (VNum width) /\
    get (module_of typical_props) "height" = Ok (VNum height) /\
    get (module_of typical_props) "depth" = Ok (VNum depth) /\
    get (module_of typical_props) "hpWidth" = Ok (VNum (width * 5.08)) /\
    get (module_of typical_props) "volumeCm3"
      = Ok (VNum (width * 5.08 * height / 10 * depth / 10)).
Proof.
  apply (derived_fields_recomputed typical_props ∅ ∅ VNull VNull VNull VNull 0 empty_world).
  vm_compute. reflexivity.
Defined.

Lemma getProjects_sorted_newest_first_witness :
  exists sorted,
    getProjects three_projects_world = (Ok (VArr sorted), three_projects_world) /\
    Permutation three_projects sorted /\
    StronglySorted not_older sorted.
Proof.
  apply (getProjects_sorted_newest_first three_projects_world three_projects).
  - reflexivity.
  - repeat constructor; eexists; reflexivity.
Defined.

End Witnesses.

(** * Further properties of the code *)

(** ** What a created module is *)

Section CreatedModule.

(** X1. For a specification whose width, height and depth are numbers (a
    [VNum] is a finite number; a NaN, which the range checks of the code let
    through, is none), every module [createModule] returns has a trimmed
    name, the rounded width, height and depth, which are whole numbers
    within 2..42, 100..150 and 20..45, and on each of the three rails a
    number of milliamps between 0 and 500. *)
Theorem createModule_result_invariants
  (props : gmap string value) (m : value) (w h d : Q) :
  props !! "width" = Some (VNum w) ->
  props !! "height" = Some (VNum h) ->
  props !! "depth" = Some (VNum d) ->
  createModule_body (VObj props) = Ok m ->
  exists (name : string) (powerDraw : value),
    get m "name" = Ok (VStr name) /\ trimmed name /\
    get m "width" = Ok (VNum (round w)) /\
    is_integer (round w) /\ 2 <= round w <= 42 /\
    get m "height" = Ok (VNum (round h)) /\
    is_integer (round h) /\ 100 <= round h <= 150 /\
    get m "depth" = Ok (VNum (round d)) /\
    is_integer (round d) /\ 20 <= round d <= 45 /\
    get m "powerDraw" = Ok powerDraw /\
    forall rail, In rail powerConnectors ->
      exists q, get powerDraw rail = Ok (VNum q) /\ 0 <= q <= 500.
Proof.
  intros Hw Hh Hd H.
  apply createModule_body_Ok_inv in H as (r & Hval & Hv & ->).
  destruct (validateModuleSpec_accepted props r Hval Hv)
    as ((s & Hs) & (w' & Hw' & Rw) & (h' & Hh' & Rh) & (d' & Hd' & Rd) & Hnn & Hrails).
  rewrite Hw in Hw'. injection Hw' as <-.
  rewrite Hh in Hh'. injection Hh' as <-.
  rewrite Hd in Hd'. injection Hd' as <-.
  exists (trim s), (normalized_rails (default VUndefined (props !! "powerDraw"))).
  unfold module_of, text_at, number_at. rewrite Hs, Hw, Hh, Hd.
  split; [reflexivity |]. split; [apply trim_trimmed |].
  split; [reflexivity |]. split; [apply round_is_integer |].
  split; [exact (round_in_range w 2 42 Rw) |].
  split; [reflexivity |]. split; [apply round_is_integer |].
  split; [exact (round_in_range h 100 150 Rh) |].
  split; [reflexivity |]. split; [apply round_is_integer |].
  split; [exact (round_in_range d 20 45 Rd) |].
  split; [reflexivity |].
  intros rail Hin. destruct (Hrails rail Hin) as (q & Hq & Rq).
  exists q. split; [| exact Rq].
  unfold powerConnectors in Hin. cbn in Hin.
  destruct Hin as [<- | [<- | [<- | []]]]; cbn in Hq |- *; now rewrite Hq.
Qed.

End CreatedModule.

(** ** ModuleDesignService: validation and creation *)

Section ModuleErrors.

Lemma check_number_errors (props : gmap string value) (key : string)
  (lo hi : Z) (q : Q) :
  props !! key = Some (VNum q) ->
  ModuleDesignService.check_field (VObj props)
    (key, {| required := true; type := Some "number";
             minLength := None; maxLength := None;
             min := Some lo; max := Some hi; validator := None |})
  = Ok (range_errors key lo hi q).
Proof.
  intros Hget. unfold ModuleDesignService.check_field, type_mismatch, range_errors.
  cbn [fst snd get field_of bind required type min max validator]. rewrite Hget.
  cbn. now rewrite List.app_nil_r.
Qed.

Lemma check_name_text (props : gmap string value) (s : string) (lo hi : Z) :
  props !! "name" = Some (VStr s) ->
  ModuleDesignService.check_field (VObj props)
    ("name", {| required := true; type := Some "string";
                minLength := Some lo; maxLength := Some hi;
                min := None; max := None; validator := None |}) = Ok [].
Proof.
  intros Hget. unfold ModuleDesignService.check_field, type_mismatch.
  cbn [fst snd get field_of bind required type min max validator]. now rewrite Hget.
Qed.

Lemma check_powerDraw_in_range (props rails : gmap string value) :
  props !! "powerDraw" = Some (VObj rails) ->
  (forall rail, In rail powerConnectors -> draw_in_range rails rail) ->
  ModuleDesignService.check_field (VObj props)
    ("powerDraw",
     {| required := false; type := None; minLength := None; maxLength := None;
        min := None; max := None; validator := Some _validatePowerDraw |}) = Ok [].
Proof.
  intros Hp Hrails. unfold ModuleDesignService.check_field, type_mismatch.
  cbn [fst snd get field_of bind required type min max validator andb]. rewrite Hp.
  cbn [default from_option id]. unfold _validatePowerDraw, powerConnectors. cbn [collect].
  rewrite !check_rail_in_range by (apply Hrails; unfold powerConnectors; simpl; tauto).
  reflexivity.
Qed.

(** X2. Validation reports every bound that width, height and depth break,
    each once, in the order width, height, depth, and nothing else, when
    the name is a text and the power draws are in range. *)
Theorem validateModuleSpec_reports_every_bound
  (props rails : gmap string value) (name : string) (width height depth : Q) :
  props !! "name" = Some (VStr name) ->
  props !! "width" = Some (VNum width) ->
  props !! "height" = Some (VNum height) ->
  props !! "depth" = Some (VNum depth) ->
  props !! "powerDraw" = Some (VObj rails) ->
  (forall rail, In rail powerConnectors -> draw_in_range rails rail) ->
  _validateModuleSpec (VObj props)
  = Ok (result_of (List.app (range_errors "width" 2 42 width)
                  (List.app (range_errors "height" 100 150 height)
                            (range_errors "depth" 20 45 depth)))).
Proof.
  intros Hname Hw Hh Hd Hp Hrails.
  unfold _validateModuleSpec, _moduleSchema. cbn [collect].
  rewrite (check_name_text props name 1 50 Hname).
  rewrite (check_number_errors props "width" 2 42 width Hw).
  rewrite (check_number_errors props "height" 100 150 height Hh).
  rewrite (check_number_errors props "depth" 20 45 depth Hd).
  rewrite (check_powerDraw_in_range props rails Hp Hrails).
  cbn [bind List.app]. now rewrite List.app_nil_r.
Qed.

End ModuleErrors.

Section CreateModuleAgain.

Lemma or_else_twice (a b : value) : or_else (or_else a b) b = or_else a b.
Proof.
  unfold or_else. destruct (truthy a) eqn:Ha; [now rewrite Ha |].
  now destruct (truthy b).
Qed.

Lemma Qfloor_half (n : Z) : Qfloor (inject_Z n + (1 # 2)) = n.
Proof.
  unfold Qfloor, Qplus, inject_Z. cbn [Qnum Qden].
  change (Z.pos (1 * 2)) with 2%Z.
  symmetry. apply (Z.div_unique_pos _ 2 n 1); lia.
Qed.

(** Rounding a rounded number changes nothing. *)
Lemma round_round (q : Q) : round (round q) = round q.
Proof. unfold round. now rewrite Qfloor_half. Qed.

Lemma normalized_rails_twice (powerDraw : value) :
  normalized_rails (normalized_rails powerDraw) = normalized_rails powerDraw.
Proof.
  unfold normalized_rails at 1 3.
  change (field_of (normalized_rails powerDraw) "+12V")
    with (or_else (field_of powerDraw "+12V") (VNum 0)).
  change (field_of (normalized_rails powerDraw) "-12V")
    with (or_else (field_of powerDraw "-12V") (VNum 0)).
  change (field_of (normalized_rails powerDraw) "+5V")
    with (or_else (field_of powerDraw "+5V") (VNum 0)).
  now rewrite !or_else_twice.
Qed.

(** A created module passes validation. *)
Lemma validate_created_module (name : string) (w h d : Q)
  (powerDraw controls images : value) :
  2 <= w <= 42 -> 100 <= h <= 150 -> 20 <= d <= 45 ->
  (forall rail, In rail powerConnectors ->
     exists q, or_else (field_of powerDraw rail) (VNum 0) = VNum q /\ 0 <= q <= 500) ->
  _validateModuleSpec
    (created_module name w h d (normalized_rails powerDraw) controls images)
  = Ok {| isValid := true; errors := [] |}.
Proof.
  intros Hw Hh Hd Hrails.
  unfold _validateModuleSpec, _moduleSchema, created_module. cbn [collect].
  match goal with
  | |- context [ModuleDesignService.check_field (VObj ?m) _] => set (mp := m)
  end.
  set (rails := list_to_map
                  [("+12V", or_else (field_of powerDraw "+12V") (VNum 0));
                   ("-12V", or_else (field_of powerDraw "-12V") (VNum 0));
                   ("+5V", or_else (field_of powerDraw "+5V") (VNum 0))]
                : gmap string value).
  assert (Hname : mp !! "name" = Some (VStr name)) by reflexivity.
  assert (Hwidth : mp !! "width" = Some (VNum w)) by reflexivity.
  assert (Hheight : mp !! "height" = Some (VNum h)) by reflexivity.
  assert (Hdepth : mp !! "depth" = Some (VNum d)) by reflexivity.
  assert (Hpower : mp !! "powerDraw" = Some (VObj rails)) by reflexivity.
  rewrite (check_name_text mp name 1 50 Hname).
  rewrite (check_number_in_range mp "width" 2 42 w Hwidth Hw).
  rewrite (check_number_in_range mp "height" 100 150 h Hheight Hh).
  rewrite (check_number_in_range mp "depth" 20 45 d Hdepth Hd).
  rewrite (check_powerDraw_in_range mp rails Hpower); [reflexivity |].
  intros rail Hin. destruct (Hrails rail Hin) as (q & Hq & Rq).
  unfold powerConnectors in Hin. cbn in Hin. unfold draw_in_range.
  destruct Hin as [<- | [<- | [<- | []]]];
    [change (rails !! "+12V") with (Some (or_else (field_of powerDraw "+12V") (VNum 0)))
    |change (rails !! "-12V") with (Some (or_else (field_of powerDraw "-12V") (VNum 0)))
    |change (rails !! "+5V") with (Some (or_else (field_of powerDraw "+5V") (VNum 0)))];
    rewrite Hq; now exists q.
Qed.

(** X3. [createModule] applied to a module it returned returns that module
    again. *)
Theorem createModule_idempotent (props : gmap string value) (m : value) :
  createModule_body (VObj props) = Ok m ->
  createModule_body m = Ok m.
Proof.
  intros H. apply createModule_body_Ok_inv in H as (r & Hval & Hv & ->).
  destruct (validateModuleSpec_accepted props r Hval Hv)
    as ((s & Hs) & (w & Hw & Rw) & (h & Hh & Rh) & (d & Hd & Rd) & Hnn & Hrails).
  unfold module_of at 1 2. unfold text_at, number_at. rewrite Hs, Hw, Hh, Hd.
  set (powerDraw := default VUndefined (props !! "powerDraw")) in *.
  set (controls := or_else (default VUndefined (props !! "controls")) (VArr [])).
  set (images := or_else (default VUndefined (props !! "images")) (VArr [])).
  pose proof (validate_created_module (trim s) (round w) (round h) (round d)
                powerDraw controls images
                (round_in_range w 2 42 Rw) (round_in_range h 100 150 Rh)
                (round_in_range d 20 45 Rd) Hrails) as Hagain.
  unfold created_module in Hagain |- *.
  rewrite (createModule_body_accepted _ _ Hagain eq_refl).
  unfold module_of, text_at, number_at.
  match goal with
  | |- context [normalized_rails (default VUndefined (?m !! "powerDraw"))] =>
      change (m !! "name") with (Some (VStr (trim s)));
      change (m !! "width") with (Some (VNum (round w)));
      change (m !! "height") with (Some (VNum (round h)));
      change (m !! "depth") with (Some (VNum (round d)));
      change (m !! "powerDraw") with (Some (normalized_rails powerDraw));
      change (m !! "controls") with (Some controls);
      change (m !! "images") with (Some images)
  end.
  cbn [default from_option id].
  rewrite (trim_trimmed s), !round_round, normalized_rails_twice.
  unfold controls, images. now rewrite !or_else_twice.
Qed.

End CreateModuleAgain.

(** ** ModuleDesignService: the 3D model *)

(** [lra] with the divisions by 2 and by 100 of the placement arithmetic
    read as multiplications. *)
Ltac lra_halves :=
  unfold Qdiv in *;
  change (/ 2) with (1 # 2) in *; change (/ 100) with (1 # 100) in *;
  lra.

Section Placement.

(** X4. Validation of an object returns a result exactly when the object
    has a [powerDraw] that is neither [undefined] nor [null]; otherwise it
    raises. *)
Theorem validateModuleSpec_returns_iff_powerDraw (props : gmap string value) :
  (exists r, _validateModuleSpec (VObj props) = Ok r)
  <-> nullish (default VUndefined (props !! "powerDraw")) = false.
Proof.
  split.
  - intros [r Hr].
    destruct (nullish (default VUndefined (props !! "powerDraw"))) eqn:Hn;
      [| reflexivity].
    destruct (validateModuleSpec_throws_when_powerDraw_missing props Hn) as [msg Hm].
    rewrite Hm in Hr. discriminate.
  - apply validateModuleSpec_returns_with_powerDraw.
Qed.

Lemma place_control_placeable (w h d : Q) (g : THREE.Group) (control : value) :
  placeable control ->
  place_control w h d g control = Ok (List.app g (placement w h d control)).
Proof.
  intros [Hnn Hc]. unfold place_control, placement.
  rewrite !(get_field_of control _ Hnn). cbn [bind].
  destruct Hc as [Hnone | (cx & cy & Hx & Hy)].
  - rewrite Hnone. now rewrite List.app_nil_r.
  - rewrite Hx, Hy.
    destruct (control_shape (field_of control "type")) as [[geometry material]|];
      [reflexivity | now rewrite List.app_nil_r].
Qed.

Lemma fold_place_control (w h d : Q) (controls : list value) :
  Forall placeable controls ->
  forall g,
    fold_each (place_control w h d) controls g
    = Ok (List.app g (List.concat (List.map (placement w h d) controls))).
Proof.
  induction 1 as [|c rest Hc _ IH]; intros g; cbn [fold_each List.map List.concat].
  - now rewrite List.app_nil_r.
  - rewrite (place_control_placeable w h d g c Hc). cbn [bind].
    rewrite IH. now rewrite <- List.app_assoc.
Qed.

(** X5. For a specification that passes validation and whose controls are
    objects, each of no recognised type or with numeric coordinates,
    [create3DModel] returns the panel followed by one mesh for each
    recognised control, in the order of the controls, and logs nothing. *)
Theorem create3DModel_panel_then_controls
  (props : gmap string value) (r : ValidationResult) (controls : list value)
  (w : world) :
  _validateModuleSpec (VObj props) = Ok r -> isValid r = true ->
  Forall placeable controls ->
  create3DModel (with_controls props controls) w
  = (Ok (Some (panel_of (round (number_at props "width"))
                        (round (number_at props "height"))
               :: List.concat
                    (List.map (placement (round (number_at props "width"))
                                         (round (number_at props "height"))
                                         (round (number_at props "depth")))
                              controls))),
     w).
Proof.
  intros Hval Hv Hall. rewrite create3DModel_unfold.
  pose proof (validateModuleSpec_with_controls props controls) as E.
  rewrite Hval in E. unfold with_controls in *.
  rewrite (createModule_body_accepted _ r E Hv).
  rewrite module_of_with_controls, build3DModel_created.
  now rewrite (fold_place_control _ _ _ controls Hall).
Qed.

Lemma percent_across (c W : Q) :
  0 <= c <= 100 -> 0 <= W -> - (W / 2) <= c / 100 * W - W / 2 <= W / 2.
Proof.
  intros Hc HW.
  assert (Hscaled : 0 <= c / 100 * W <= W);
    [| generalize dependent (c / 100 * W); intros t Ht; lra_halves].
  split.
  - apply Qmult_le_0_compat; [| exact HW]. lra_halves.
  - apply Qle_trans with (1 * W); [| rewrite Qmult_1_l; apply Qle_refl].
    apply Qmult_le_compat_r; [lra_halves | exact HW].
Qed.

Lemma percent_down (c H : Q) :
  0 <= c <= 100 -> 0 <= H -> - (H / 2) <= H / 2 - c / 100 * H <= H / 2.
Proof.
  intros Hc HH. pose proof (percent_across c H Hc HH).
  generalize dependent (c / 100 * H). intros t Ht. lra_halves.
Qed.

(** X6. A recognised control at percentages between 0 and 100 is placed on
    the panel: within half the width and half the height of its centre and
    one millimetre before the housing, by [_addControlTo3DModel] and by
    [addControlToModel]. *)
Theorem control_placed_on_panel
  (mprops cprops : gmap string value) (w h d cx cy : Q) (g : THREE.Group) :
  mprops !! "width" = Some (VNum w) ->
  mprops !! "height" = Some (VNum h) ->
  mprops !! "depth" = Some (VNum d) ->
  0 <= w -> 0 <= h ->
  cprops !! "x" = Some (VNum cx) -> 0 <= cx <= 100 ->
  cprops !! "y" = Some (VNum cy) -> 0 <= cy <= 100 ->
  recognized (VObj cprops) ->
  (exists mesh,
     _addControlTo3DModel g (VObj cprops) (VObj mprops) = Ok (g ++ [mesh])%list /\
     on_panel (THREE.position mesh) (w * hpUnit) h d) /\
  (exists mesh,
     EuroRackApp.addControlToModel g (VObj mprops) (VObj cprops)
       (w * EuroRackApp.hpUnit) h = Ok (g ++ [mesh])%list /\
     on_panel (THREE.position mesh) (w * EuroRackApp.hpUnit) h d).
Proof.
  intros Hw Hh Hd Pw Ph Hx Rx Hy Ry Hrec.
  unfold _addControlTo3DModel, EuroRackApp.addControlToModel.
  unfold recognized in Hrec. cbn [get field_of bind] in *.
  rewrite Hw, Hh, Hd, Hx, Hy. cbn [default from_option id to_number bind].
  assert (HW : 0 <= w * hpUnit).
  { apply Qmult_le_0_compat; [exact Pw | discriminate]. }
  destruct Hrec as [E | [E | E]]; injection E as E; rewrite E; cbn;
    (split; eexists; (split; [reflexivity |]); unfold on_panel; cbn;
     (split; [apply (percent_across cx _ Rx HW)
             | split; [exact (percent_down cy h Ry Ph) | reflexivity]])).
Qed.

End Placement.

(** Case analysis along a chain of [let*] in a hypothesis. *)
Ltac unwind H :=
  match type of H with
  | context [match ?c with _ => _ end] =>
      let E := fresh "E" in destruct c eqn:E; cbn [bind fst snd negb] in H;
      try discriminate H
  | context [if ?c then _ else _] =>
      let E := fresh "E" in destruct c eqn:E; cbn [bind fst snd negb] in H;
      try discriminate H
  | context [bind ?c _] =>
      let E := fresh "E" in destruct c eqn:E; cbn [bind fst snd negb] in H;
      try discriminate H
  end.

Section CreateModuleEffects.

Lemma set_returns_object (o v r : value) (k : string) :
  Js.set o k v = Ok r -> exists props, r = VObj props.
Proof.
  destruct o; cbn; intros H; try discriminate. injection H as <-. eauto.
Qed.

(** What [createModule] builds is an object. *)
Lemma createModule_body_object (spec m : value) :
  createModule_body spec = Ok m -> exists props, m = VObj props.
Proof.
  unfold createModule_body. intros H.
  repeat unwind H.
  now apply set_returns_object in H.
Qed.

(** X7. [createModule] never throws.  It returns the module and leaves the
    state alone, or it returns [null] and hands exactly one error to
    [ErrorService]; the project cache and the stored projects are never
    touched. *)
Theorem createModule_returns_or_reports (spec : value) (w : world) :
  (exists m props, createModule spec w = (Ok m, w) /\ m = VObj props) \/
  (exists e, createModule spec w = (Ok VNull, logged e "Module Design Creation" w) /\
             console (logged e "Module Design Creation" w)
             = (console w ++ [{| report_error := e;
                                 report_context := "Module Design Creation" |}])%list /\
             projectCache (logged e "Module Design Creation" w) = projectCache w /\
             localStorage (logged e "Module Design Creation" w) = localStorage w) \/
  createModule spec w = (Unsupported, w).
Proof.
  unfold createModule, try_catch, lift, and_then, handleError, logged.
  destruct (createModule_body spec) as [m| e |] eqn:E.
  - left. destruct (createModule_body_object spec m E) as [props ->].
    now exists (VObj props), props.
  - right. left. exists e. cbn. repeat split; reflexivity.
  - right. right. reflexivity.
Qed.

End CreateModuleEffects.

(** ** The model the EuroRackApp class builds *)

Section AppModel.

Lemma control_shape_agree (ctype : value) :
  EuroRackApp.control_shape ctype = ModuleDesignService.control_shape ctype.
Proof. reflexivity. Qed.

Lemma addControlToModel_placeable (mprops : gmap string value) (w h d : Q)
  (g : THREE.Group) (control : value) :
  mprops !! "depth" = Some (VNum d) ->
  placeable control ->
  EuroRackApp.addControlToModel g (VObj mprops) control (w * EuroRackApp.hpUnit) h
  = Ok (List.app g (placement w h d control)).
Proof.
  intros Hd [Hnn Hc]. unfold EuroRackApp.addControlToModel, placement.
  rewrite !(get_field_of control _ Hnn). cbn [get field_of bind]. rewrite Hd.
  cbn [default from_option id bind]. rewrite control_shape_agree.
  destruct Hc as [Hnone | (cx & cy & Hx & Hy)].
  - rewrite Hnone. now rewrite List.app_nil_r.
  - rewrite Hx, Hy.
    destruct (control_shape (field_of control "type")) as [[geometry material]|];
      [reflexivity | now rewrite List.app_nil_r].
Qed.

Lemma fold_addControlToModel (mprops : gmap string value) (w h d : Q)
  (controls : list value) :
  mprops !! "depth" = Some (VNum d) ->
  Forall placeable controls ->
  forall g,
    fold_each
      (fun model control =>
         EuroRackApp.addControlToModel model (VObj mprops) control
           (w * EuroRackApp.hpUnit) h)
      controls g
    = Ok (List.app g (List.concat (List.map (placement w h d) controls))).
Proof.
  intros Hd. induction 1 as [|c rest Hc _ IH]; intros g;
    cbn [fold_each List.map List.concat].
  - now rewrite List.app_nil_r.
  - rewrite (addControlToModel_placeable mprops w h d g c Hd Hc). cbn [bind].
    rewrite IH. now rewrite <- List.app_assoc.
Qed.

(** X8. For a current module with numbers for width, height and depth and
    controls that are objects, each of no recognised type or with numeric
    coordinates, [createModuleModel] builds the panel, the PCB and the
    housing followed by one mesh for each recognised control, in the order
    of the controls; each control mesh is the one [create3DModel] of
    [ModuleDesignService] places for a module of the same dimensions. *)
Theorem createModuleModel_layers_then_controls
  (mprops : gmap string value) (w h d : Q) (controls : list value) :
  mprops !! "width" = Some (VNum w) ->
  mprops !! "height" = Some (VNum h) ->
  mprops !! "depth" = Some (VNum d) ->
  Forall placeable controls ->
  exists panel pcb housing,
    EuroRackApp.createModuleModel (VObj mprops) controls
    = Ok ([panel; pcb; housing]
          ++ List.concat (List.map (placement w h d) controls))%list /\
    THREE.geometry panel = THREE.BoxGeometry (w * EuroRackApp.hpUnit) h 2 /\
    THREE.geometry pcb = THREE.BoxGeometry (w * EuroRackApp.hpUnit - 4) (h - 10) 1.6 /\
    THREE.geometry housing = THREE.BoxGeometry (w * EuroRackApp.hpUnit) h d.
Proof.
  intros Hw Hh Hd Hall. unfold EuroRackApp.createModuleModel.
  cbn [get field_of bind]. rewrite Hw, Hh, Hd.
  cbn [default from_option id to_number bind].
  rewrite (fold_addControlToModel mprops w h d controls Hd Hall).
  do 3 eexists. split; [reflexivity |]. repeat split.
Qed.

End AppModel.

(** ** The project store *)

Section ProjectStoreFacts.

Import ProjectStore.

Lemma same_store_refl (w : world) : same_store w w.
Proof. now split. Qed.

Lemma same_store_trans (w1 w2 w3 : world) :
  same_store w1 w2 -> same_store w2 w3 -> same_store w1 w3.
Proof. intros [A B] [C D]. split; congruence. Qed.

Lemma createModule_same_store (spec : value) (w : world) :
  same_store w (snd (createModule spec w)).
Proof.
  unfold createModule, try_catch, lift, and_then, handleError.
  destruct (createModule_body spec); now split.
Qed.

Lemma check_modules_same_store (modules : list value) :
  forall (index : Z) (w : world), same_store w (snd (check_modules modules index w)).
Proof.
  induction modules as [|module rest IH]; intros index w; cbn [check_modules].
  - apply same_store_refl.
  - unfold and_then at 1.
    pose proof (createModule_same_store module w) as H1.
    destruct (createModule module w) as [[m| |] w1]; cbn [snd] in *; try exact H1.
    unfold and_then, lift.
    pose proof (IH (index + 1)%Z w1) as H2.
    destruct (check_modules rest (index + 1)%Z w1) as [[later| |] w2]; cbn [snd] in *;
      eapply same_store_trans; eauto.
Qed.

Lemma check_field_same_store (spec : value) (entry : string * SchemaEntry) (w : world) :
  same_store w (snd (ProjectManagementService.check_field spec entry w)).
Proof.
  unfold ProjectManagementService.check_field, and_then, lift.
  destruct (get spec (fst entry)) as [v| |]; cbn [snd]; try apply same_store_refl.
  destruct (required (rules_of (snd entry)) && nullish v); [apply same_store_refl |].
  destruct (is_undefined v); [apply same_store_refl |].
  destruct (type_mismatch (rules_of (snd entry)) v); [apply same_store_refl |].
  destruct (check_rules (fst entry) (rules_of (snd entry)) v); cbn [snd];
    try apply same_store_refl.
  destruct (String.eqb (fst entry) "modules").
  - destruct (as_array v "forEach") as [modules| |]; try apply same_store_refl.
    pose proof (check_modules_same_store modules 0%Z w) as H.
    destruct (check_modules modules 0%Z w) as [[nested| |] w1]; exact H.
  - apply same_store_refl.
Qed.

Lemma collect_each_same_store {A : Type} (f : A -> action (list string)) :
  (forall x w, same_store w (snd (f x w))) ->
  forall xs w, same_store w (snd (collect_each f xs w)).
Proof.
  intros Hf. induction xs as [|x rest IH]; intros w; cbn [collect_each].
  - apply same_store_refl.
  - unfold and_then at 1. pose proof (Hf x w) as H1.
    destruct (f x w) as [[here| |] w1]; cbn [snd] in *; try exact H1.
    unfold and_then, lift. pose proof (IH w1) as H2.
    destruct (collect_each f rest w1) as [[later| |] w2]; cbn [snd] in *;
      eapply same_store_trans; eauto.
Qed.

Lemma validateProjectSpec_same_store (spec : value) (w : world) :
  same_store w (snd (_validateProjectSpec spec w)).
Proof.
  unfold _validateProjectSpec, and_then, lift.
  pose proof (collect_each_same_store (ProjectManagementService.check_field spec)
                (check_field_same_store spec) _projectSchema w) as H.
  destruct (collect_each (ProjectManagementService.check_field spec) _projectSchema w)
    as [[errs| |] w1]; exact H.
Qed.

Lemma getProjects_raw_same_store (w : world) : same_store w (snd (_getProjects w)).
Proof.
  unfold _getProjects, try_catch, and_then, storage_get, lift, handleError.
  destruct (localStorage w); now split.
Qed.

Lemma getProjectById_same_storage (projectId : string) (w : world) :
  localStorage (snd (getProjectById projectId w)) = localStorage w.
Proof.
  unfold getProjectById, try_catch, and_then, cache_get, lift.
  destruct (projectCache w !! projectId); [reflexivity |].
  pose proof (getProjects_raw_same_store w) as [_ H].
  destruct (_getProjects w) as [[projects| |] w1]; cbn [snd] in H;
    [| cbn; exact H ..].
  destruct (as_array projects "find") as [items| |]; cbn; try exact H.
  destruct (find_by_id projectId items) as [project| |]; cbn; try exact H.
  destruct (truthy project); cbn; exact H.
Qed.

End ProjectStoreFacts.

Section ProjectWrites.

(** X9. Neither [createProject] nor [updateProject] ever writes a project:
    after [createProject] the project cache and the stored projects are what
    they were, and after [updateProject] the stored projects are (its lookup
    may have cached the project it was asked to update). *)
Theorem createProject_updateProject_store_nothing
  (spec updates : value) (projectId freshId : string) (now : Z) (w : world) :
  same_store w (snd (createProject spec now freshId w)) /\
  localStorage (snd (updateProject projectId updates now w)) = localStorage w.
Proof.
  split.
  - unfold createProject, try_catch, and_then, lift, handleError.
    pose proof (validateProjectSpec_same_store spec w) as H.
    destruct (_validateProjectSpec spec w) as [[r| |] w1] eqn:E; cbn [snd] in H;
      [| exact H ..].
    rewrite (validateProjectSpec_rejects _ _ _ _ E). cbn. exact H.
  - unfold updateProject, try_catch, and_then, lift, handleError.
    pose proof (getProjectById_same_storage projectId w) as H.
    destruct (getProjectById projectId w) as [[project| |] w1]; cbn [snd] in H;
      [| exact H ..].
    destruct (negb (truthy project)); [exact H |].
    destruct (merge_updates project updates now) as [updated| |]; cbn; try exact H.
    pose proof (validateProjectSpec_same_store updated w1) as [_ H2].
    destruct (_validateProjectSpec updated w1) as [[r| |] w2] eqn:E; cbn [snd] in H2;
      [| cbn; congruence ..].
    rewrite (validateProjectSpec_rejects _ _ _ _ E). cbn. congruence.
Qed.

End ProjectWrites.

(** ** What the project validation looks at *)

Section ProjectValidation.

Lemma check_field_reads_key (spec1 spec2 : value) (entry : string * SchemaEntry)
  (w : world) :
  get spec1 (fst entry) = get spec2 (fst entry) ->
  ProjectManagementService.check_field spec1 entry w
  = ProjectManagementService.check_field spec2 entry w.
Proof.
  intros H. unfold ProjectManagementService.check_field. now rewrite H.
Qed.

Lemma collect_each_ext {A : Type} (f g : A -> action (list string)) (xs : list A) :
  Forall (fun x => forall w, f x w = g x w) xs ->
  forall w, collect_each f xs w = collect_each g xs w.
Proof.
  induction 1 as [|x xs Hx _ IH]; intros w; cbn [collect_each]; [reflexivity |].
  unfold and_then. rewrite Hx.
  destruct (g x w) as [[here| |] w1]; [| reflexivity ..].
  now rewrite IH.
Qed.

(** An entry that groups sub-fields checks nothing. *)
Lemma check_field_group (props : gmap string value) (key : string)
  (children : list (string * FieldSchema)) (w : world) :
  String.eqb key "modules" = false ->
  ProjectManagementService.check_field (VObj props) (key, Group children) w
  = (Ok [], w).
Proof.
  intros Hk. unfold ProjectManagementService.check_field, and_then, lift.
  cbn [fst snd rules_of get required no_rules andb].
  destruct (is_undefined (field_of (VObj props) key)); [reflexivity |].
  unfold type_mismatch, check_rules, too_short, too_long.
  cbn [type minLength maxLength min max validator no_rules bind default from_option id
       when List.app].
  now rewrite Hk.
Qed.

(** X10. The validation of a project never looks at its rack or its
    metadata: whatever stands under [rack] and [metadata], the outcome, the
    messages and the state are the same.  The limits the schema declares for
    the rack width and its power supply are checked nowhere. *)
Theorem validateProjectSpec_ignores_rack_and_metadata
  (props : gmap string value) (rack metadata : value) (w : world) :
  _validateProjectSpec (VObj (<["rack" := rack]> (<["metadata" := metadata]> props))) w
  = _validateProjectSpec (VObj props) w.
Proof.
  set (props' := <["rack" := rack]> (<["metadata" := metadata]> props)).
  assert (Hget : forall key, key <> "rack" -> key <> "metadata" ->
                 get (VObj props') key = get (VObj props) key).
  { intros key H1 H2. cbn [get field_of]. unfold props'.
    rewrite lookup_insert_ne by congruence.
    now rewrite lookup_insert_ne by congruence. }
  unfold _validateProjectSpec, and_then.
  rewrite (collect_each_ext (ProjectManagementService.check_field (VObj props'))
             (ProjectManagementService.check_field (VObj props))); [reflexivity |].
  unfold _projectSchema.
  repeat constructor; intros w0;
    try (apply check_field_reads_key, Hget; discriminate);
    now rewrite !check_field_group by reflexivity.
Qed.

Lemma result_of_valid (errs : list string) : isValid (result_of errs) = true <-> errs = [].
Proof.
  unfold result_of. cbn [isValid]. destruct errs; cbn; split; congruence.
Qed.

Lemma supply_rail (rails : gmap string value) (rail : string) :
  exists errs,
    ProjectManagementService.check_rail (VObj rails) rail = Ok errs /\
    (errs = [] <-> exists q, rails !! rail = Some (VNum q) /\ 0 < q <= 2000).
Proof.
  unfold ProjectManagementService.check_rail. cbn [get field_of bind].
  destruct (rails !! rail) as [v|]; cbn [default from_option id].
  2:{ eexists; split; [reflexivity |]. split; [discriminate |].
      intros (q & H & _). discriminate. }
  destruct v as [| |b|q|s|items|fields]; cbn [truthy negb].
  1,2: eexists; split; [reflexivity |]; split; [discriminate |];
       intros (q & H & _); discriminate.
  - destruct b; cbn; eexists; (split; [reflexivity |]); split; try discriminate;
      intros (q & H & _); discriminate.
  - destruct (Qeq_bool q 0) eqn:Ez; cbn [negb].
    + eexists; split; [reflexivity |]. split; [discriminate |].
      intros (q' & H & Hpos & _). injection H as <-.
      apply Qeq_bool_iff in Ez. lra.
    + cbn [typeof String.eqb negb lt_num gt_num to_number bind].
      assert (Hnz : ~ q == 0) by (now apply Qeq_bool_neq).
      eexists; split; [reflexivity |]. split.
      * intros H. apply app_eq_nil in H as [H1 H2].
        apply when_nil in H1. apply when_nil in H2.
        apply Qltb_false_inv in H1. apply Qltb_false_inv in H2.
        exists q. split; [reflexivity |].
        change (inject_Z maxCurrentPerRail) with 2000 in H2. lra.
      * intros (q' & H & Hlo & Hhi). injection H as <-.
        rewrite (Qltb_false q 0) by lra.
        rewrite (Qltb_false (inject_Z maxCurrentPerRail) q)
          by (change (inject_Z maxCurrentPerRail) with 2000; lra).
        reflexivity.
  - destruct (String.eqb s ""); cbn; eexists; (split; [reflexivity |]); split;
      try discriminate; intros (q & H & _); discriminate.
  - cbn. eexists; split; [reflexivity |]. split; [discriminate |].
    intros (q & H & _); discriminate.
  - cbn. eexists; split; [reflexivity |]. split; [discriminate |].
    intros (q & H & _); discriminate.
Qed.

(** X11. [_validatePowerSupply] returns for every object, and accepts it
    exactly when each of the three rails holds a number above 0 and at most
    2000: a rail of 0 mA is reported as missing. *)
Theorem validatePowerSupply_accepts_iff (rails : gmap string value) :
  exists r,
    _validatePowerSupply (VObj rails) = Ok r /\
    (isValid r = true <->
     forall rail, In rail requiredRails ->
       exists q, rails !! rail = Some (VNum q) /\ 0 < q <= 2000).
Proof.
  unfold _validatePowerSupply, requiredRails. cbn [collect].
  destruct (supply_rail rails "+12V") as (e1 & -> & H1).
  destruct (supply_rail rails "-12V") as (e2 & -> & H2).
  destruct (supply_rail rails "+5V") as (e3 & -> & H3).
  cbn [bind]. eexists. split; [reflexivity |].
  rewrite result_of_valid. split.
  - intros H. apply app_eq_nil in H as [E1 H]. apply app_eq_nil in H as [E2 H].
    apply app_eq_nil in H as [E3 _].
    intros rail [<- | [<- | [<- | []]]]; tauto.
  - intros H.
    assert (E1 : e1 = []) by (apply H1, H; cbn; tauto).
    assert (E2 : e2 = []) by (apply H2, H; cbn; tauto).
    assert (E3 : e3 = []) by (apply H3, H; cbn; tauto).
    now subst.
Qed.

End ProjectValidation.

(** ** Saving, finding and deleting projects *)

Section ProjectLookup.

Import ProjectStore.

Lemma getProjects_raw_holds (w : world) (projects : list value) :
  holds w projects -> _getProjects w = (Ok (VArr projects), w).
Proof.
  unfold _getProjects, try_catch, and_then, storage_get, lift.
  intros [-> | [-> ->]]; reflexivity.
Qed.

Lemma has_id_object (projectId : string) (p : value) :
  has_id projectId p = true -> exists props, p = VObj props.
Proof.
  unfold has_id. destruct p; cbn; try discriminate; eauto.
Qed.

Lemma has_id_own (project : value) (k : string) :
  field_of project "id" = VStr k -> has_id k project = true.
Proof.
  unfold has_id. intros ->. cbn. apply String.eqb_refl.
Qed.

Lemma find_by_id_present (projectId : string) (projects : list value) :
  Forall present projects ->
  find_by_id projectId projects
  = Ok (default VUndefined (List.find (has_id projectId) projects)).
Proof.
  induction 1 as [|p rest Hp _ IH]; cbn [find_by_id List.find]; [reflexivity |].
  rewrite (get_field_of _ _ Hp). cbn [bind]. fold (has_id projectId p).
  destruct (has_id projectId p); [reflexivity | exact IH].
Qed.

(** X12. With no cached entry for the identifier and a stored array whose
    entries are neither [null] nor [undefined], [getProjectById] returns
    the first stored project with that identifier and caches it; with no
    such project it returns [null] and changes nothing. *)
Theorem getProjectById_first_match
  (projectId : string) (projects : list value) (w : world) :
  holds w projects ->
  projectCache w !! projectId = None ->
  Forall present projects ->
  getProjectById projectId w =
    match List.find (has_id projectId) projects with
    | Some p => (Ok p, with_cached projectId p w)
    | None => (Ok VNull, w)
    end.
Proof.
  intros Hw Hc Hall.
  unfold getProjectById, try_catch, and_then, cache_get, lift.
  rewrite Hc, (getProjects_raw_holds w projects Hw). cbn [as_array].
  rewrite (find_by_id_present projectId projects Hall).
  destruct (List.find (has_id projectId) projects) as [p|] eqn:E;
    cbn [default from_option id]; [| reflexivity].
  apply List.find_some in E as [_ E].
  destruct (has_id_object _ _ E) as [props ->]. reflexivity.
Qed.

(** X13. A project that [getProjectById] has returned once is returned
    again whatever the storage holds afterwards: the answer comes from the
    cache, and a later change of the stored text is not seen. *)
Theorem getProjectById_answers_from_cache
  (projectId : string) (p : value) (w w1 : world) (s : stored) :
  getProjectById projectId w = (Ok p, w1) ->
  p <> VNull ->
  getProjectById projectId (with_storage s w1) = (Ok p, with_storage s w1).
Proof.
  intros H Hp.
  assert (Hc : projectCache w1 !! projectId = Some p).
  { revert H. unfold getProjectById, try_catch, and_then, cache_get, lift.
    destruct (projectCache w !! projectId) as [c|] eqn:Ec.
    - intros H. inversion H; subst. exact Ec.
    - destruct (_getProjects w) as [[projects| |] w2];
        [| cbn; intros H; inversion H; subst; congruence | discriminate].
      destruct (as_array projects "find") as [items| |];
        [| cbn; intros H; inversion H; subst; congruence | discriminate].
      destruct (find_by_id projectId items) as [project| |];
        [| cbn; intros H; inversion H; subst; congruence | discriminate].
      destruct (truthy project); cbn; intros H; inversion H; subst;
        [| congruence].
      cbn. apply lookup_insert_eq. }
  unfold getProjectById, try_catch, and_then, cache_get, lift, with_storage.
  cbn [projectCache]. now rewrite Hc.
Qed.

Lemma replace_or_push_spec (project : value) (k : string) (projects : list value) :
  field_of project "id" = VStr k ->
  present project ->
  Forall present projects ->
  exists saved,
    replace_or_push project projects = Ok saved /\
    List.find (has_id k) saved = Some project /\
    others k saved = others k projects /\
    Forall present saved.
Proof.
  intros Hid Hp. pose proof (has_id_own project k Hid) as Hown.
  induction 1 as [|p rest Hpp Hrest IH]; cbn [replace_or_push].
  - exists [project]. unfold others. cbn. rewrite Hown. cbn.
    repeat split; constructor; [exact Hp | constructor].
  - rewrite (get_field_of _ _ Hpp), (get_field_of _ _ Hp), Hid. cbn [bind].
    fold (has_id k p). destruct (has_id k p) eqn:E.
    + exists (project :: rest). unfold others. cbn. rewrite Hown, E. cbn.
      repeat split. now constructor.
    + destruct IH as (saved & -> & Hfind & Hothers & Hall). cbn [bind].
      exists (p :: saved). unfold others in *. cbn. rewrite E. cbn.
      rewrite Hothers. repeat split; [exact Hfind | now constructor].
Qed.

(** X14. Saving a project that has a text for identifier, over stored
    entries that are neither [null] nor [undefined]: the project becomes
    the first stored one with its identifier, the projects with other
    identifiers stay as they were and in their order, the project is
    cached, and [getProjectById] then returns it. *)
Theorem saveProject_then_getProjectById
  (project : value) (k : string) (projects : list value) (w : world) :
  field_of project "id" = VStr k ->
  present project ->
  holds w projects ->
  Forall present projects ->
  exists saved,
    let w' := with_cached k project (with_storage (Parsed (VArr saved)) w) in
    _saveProject project w = (Ok tt, w') /\
    List.find (has_id k) saved = Some project /\
    others k saved = others k projects /\
    getProjectById k w' = (Ok project, w').
Proof.
  intros Hid Hp Hw Hall.
  destruct (replace_or_push_spec project k projects Hid Hp Hall)
    as (saved & Hsave & Hfind & Hothers & _).
  exists saved. cbv zeta. repeat split; try assumption.
  - unfold _saveProject, try_catch, and_then, lift, storage_set, cache_set.
    rewrite (getProjects_raw_holds w projects Hw). cbn [as_array].
    rewrite Hsave, (get_field_of _ _ Hp), Hid. reflexivity.
  - unfold getProjectById, try_catch, and_then, cache_get, lift, with_cached.
    cbn [projectCache]. now rewrite lookup_insert_eq.
Qed.

Lemma without_id_others (projectId : string) (projects : list value) :
  Forall present projects ->
  without_id projectId projects = Ok (others projectId projects).
Proof.
  induction 1 as [|p rest Hp _ IH]; cbn [without_id]; [reflexivity |].
  rewrite (get_field_of _ _ Hp), IH. cbn [bind]. unfold others. cbn [List.filter].
  fold (has_id projectId p). now destruct (has_id projectId p).
Qed.

Lemma others_no_match (projectId : string) (projects : list value) :
  List.find (has_id projectId) (others projectId projects) = None.
Proof.
  induction projects as [|p rest IH]; [reflexivity |].
  unfold others in *. cbn [List.filter].
  destruct (has_id projectId p) eqn:E; cbn [negb]; [exact IH |].
  cbn [List.find]. now rewrite E.
Qed.

Lemma others_present (projectId : string) (projects : list value) :
  Forall present projects -> Forall present (others projectId projects).
Proof.
  intros H. unfold others. apply List.Forall_forall. intros p Hin.
  apply List.filter_In in Hin as [Hin _].
  now apply (proj1 (List.Forall_forall _ _) H).
Qed.

(** X15. [deleteProject], over stored entries that are neither [null] nor
    [undefined], writes back the projects with other identifiers, in their
    order, drops the cached entry and logs nothing; [getProjectById] then
    returns [null] for the identifier. *)
Theorem deleteProject_then_getProjectById
  (projectId : string) (projects : list value) (w : world) :
  holds w projects ->
  Forall present projects ->
  let w' := {| console := console w;
               projectCache := delete projectId (projectCache w);
               localStorage := Parsed (VArr (others projectId projects)) |} in
  deleteProject projectId w = (Ok tt, w') /\
  getProjectById projectId w' = (Ok VNull, w').
Proof.
  intros Hw Hall. cbv zeta. split.
  - unfold deleteProject, try_catch, and_then, lift, storage_set, cache_delete.
    rewrite (getProjects_raw_holds w projects Hw). cbn [as_array].
    now rewrite (without_id_others projectId projects Hall).
  - unfold getProjectById, try_catch, and_then, cache_get, lift.
    cbn [projectCache]. rewrite lookup_delete_eq.
    rewrite (getProjects_raw_holds _ (others projectId projects)) by now left.
    cbn [as_array].
    rewrite (find_by_id_present _ _ (others_present projectId projects Hall)).
    now rewrite others_no_match.
Qed.

End ProjectLookup.

(** ** What [getProjects] can return *)

Section ProjectListing.

Lemma insert_by_permutation (cmp : value -> value -> outcome Q) (x : value)
  (sorted sorted' : list value) :
  insert_by cmp x sorted = Ok sorted' -> Permutation (x :: sorted) sorted'.
Proof.
  revert sorted'. induction sorted as [|y rest IH]; intros sorted'; cbn [insert_by].
  - intros H. injection H as <-. reflexivity.
  - destruct (cmp x y) as [c| |]; cbn [bind]; try discriminate.
    destruct (Qle_bool c 0).
    + intros H. injection H as <-. reflexivity.
    + destruct (insert_by cmp x rest) as [rest'| |]; cbn [bind]; try discriminate.
      intros H. injection H as <-.
      rewrite perm_swap. constructor. now apply IH.
Qed.

Lemma sort_by_permutation (cmp : value -> value -> outcome Q) (items : list value) :
  forall sorted, sort_by cmp items = Ok sorted -> Permutation items sorted.
Proof.
  induction items as [|x rest IH]; intros sorted; cbn [sort_by].
  - intros H. injection H as <-. constructor.
  - destruct (sort_by cmp rest) as [sorted0| |]; cbn [bind]; try discriminate.
    intros H. apply insert_by_permutation in H.
    etransitivity; [| exact H]. constructor. now apply IH.
Qed.

Lemma filter_split_permutation {A : Type} (f : A -> bool) (l : list A) :
  Permutation l (List.app (List.filter (fun v => negb (f v)) l) (List.filter f l)).
Proof.
  induction l as [|a l IH]; cbn [List.filter]; [constructor |].
  destruct (f a); cbn [negb].
  - etransitivity; [| apply Permutation_middle]. now constructor.
  - cbn. now constructor.
Qed.

Lemma Array_sort_permutation (cmp : value -> value -> outcome Q)
  (items sorted : list value) :
  Array_sort cmp items = Ok sorted -> Permutation items sorted.
Proof.
  unfold Array_sort.
  destruct (sort_by cmp (List.filter (fun v => negb (is_undefined v)) items))
    as [sorted0| |] eqn:E; cbn [bind]; try discriminate.
  intros H. injection H as <-.
  etransitivity; [apply (filter_split_permutation is_undefined) |].
  apply Permutation_app_tail. now apply sort_by_permutation with (cmp := cmp).
Qed.

(** X16. [getProjects] never throws and always returns an array: either
    the stored projects, each once, or the empty array.  Whatever goes wrong
    (no stored text, text that does not parse, a stored value that is no
    array, a project without metadata) shows as an empty list. *)
Theorem getProjects_all_or_nothing (w : world) :
  match fst (getProjects w) with
  | Ok (VArr sorted) =>
      sorted = [] \/
      exists projects,
        localStorage w = Parsed (VArr projects) /\ Permutation projects sorted
  | Ok _ => False
  | Throw _ => False
  | Unsupported => True
  end.
Proof.
  unfold getProjects, _getProjects, try_catch, and_then, lift, storage_get,
    handleError.
  destruct (localStorage w) as [| |v] eqn:Es; cbn; try (now left).
  destruct v as [| |b|q|s|items|fields]; cbn; try (now left).
  destruct (Array_sort by_updatedAt items) as [sorted| |] eqn:E; cbn;
    [| now left | exact I].
  right. exists items. split; [reflexivity |].
  now apply Array_sort_permutation with (cmp := by_updatedAt).
Qed.

End ProjectListing.

(** ** Rack utilisation *)

Section RackUtilization.

Import ProjectStore.

Lemma total_width_sum (modules : list value) (widths : list Q) :
  widths_are modules widths ->
  forall acc, exists total,
    total_width modules (VNum acc) = Ok (VNum total) /\ total == acc + sum_of widths.
Proof.
  induction 1 as [|m q modules widths [Hm Hq] _ IH]; intros acc; cbn [total_width sum_of List.fold_right].
  - exists acc. split; [reflexivity | lra].
  - rewrite (get_field_of _ _ Hm), Hq. cbn [bind plus].
    destruct (IH (acc + q)) as (total & -> & Ht).
    exists total. split; [reflexivity |]. fold (sum_of widths). lra.
Qed.

Lemma Qltb_true_iff (a b : Q) : Qltb a b = true <-> a < b.
Proof.
  unfold Qltb. rewrite negb_true_iff. split.
  - intros H. apply Qnot_le_lt. intros Hle. apply Qle_bool_iff in Hle. congruence.
  - intros H. destruct (Qle_bool b a) eqn:E; [| reflexivity].
    apply Qle_bool_iff in E. lra.
Qed.

(** X17. For a project found whose modules are objects with numeric widths
    and whose rack has a positive width, [validateRackUtilization] returns:
    [totalHP] is the sum of the module widths and [rackWidthHP] the rack
    width divided by 5.08; the rack is reported over-utilised only when
    [totalHP] exceeds [rackWidthHP], and then [remainingHP] is 0; when
    [totalHP] is at most [rackWidthHP] the rack is not reported
    over-utilised and [remainingHP] is the difference; [remainingHP] is
    never negative. *)
Theorem validateRackUtilization_fits_or_over
  (projectId : string) (project : gmap string value) (modules : list value)
  (widths : list Q) (rack : value) (rackWidth : Q) (w w1 : world) :
  getProjectById projectId w = (Ok (VObj project), w1) ->
  project !! "modules" = Some (VArr modules) ->
  widths_are modules widths ->
  project !! "rack" = Some rack ->
  field_of rack "width" = VNum rackWidth ->
  0 < rackWidth ->
  exists u,
    validateRackUtilization projectId w = (Ok (Some u), w1) /\
    totalHP u == sum_of widths /\
    rackWidthHP u == rackWidth / 5.08 /\
    0 <= remainingHP u /\
    (isOverUtilized u = true ->
       rackWidthHP u < totalHP u /\ remainingHP u == 0) /\
    (totalHP u <= rackWidthHP u ->
       isOverUtilized u = false /\ remainingHP u == rackWidthHP u - totalHP u).
Proof.
  intros Hfound Hmodules Hwidths Hrack Hwidth Hpos.
  assert (Hr : present rack) by (destruct rack; try discriminate; reflexivity).
  destruct (total_width_sum modules widths Hwidths 0) as (total & Htotal & Hsum).
  unfold validateRackUtilization, try_catch, and_then, lift.
  rewrite Hfound. cbn [truthy negb]. unfold utilization_of.
  cbn [get field_of]. rewrite Hmodules, Hrack.
  cbn [default from_option id bind as_array].
  rewrite Htotal. cbn [bind]. rewrite (get_field_of _ _ Hr), Hwidth.
  cbn [bind to_number].
  assert (Hhp : 0 < rackWidth / 5.08).
  { apply Qlt_shift_div_l; [reflexivity | lra]. }
  destruct (Qeq_bool (rackWidth / 5.08) 0) eqn:Ez.
  { apply Qeq_bool_iff in Ez. lra. }
  cbn [bind]. eexists. split; [reflexivity |].
  cbn [totalHP rackWidthHP isOverUtilized remainingHP].
  set (h := rackWidth / 5.08) in *.
  assert (Htimes : total == total / h * h).
  { field. lra. }
  assert (Hover : Qltb 100 (total / h * 100) = true <-> h < total).
  { rewrite Qltb_true_iff. generalize dependent (total / h). intros x Hx. split; intros H.
    - rewrite Hx. nra.
    - rewrite Hx in H. nra. }
  assert (Hmax : forall q, 0 <= max_zero q /\ (q <= 0 -> max_zero q == 0)
                           /\ (0 <= q -> max_zero q == q)).
  { intros q. unfold max_zero. destruct (Qle_bool q 0) eqn:E.
    - apply Qle_bool_iff in E. repeat split; intros; lra.
    - assert (0 < q).
      { apply Qnot_le_lt. intros Hle. apply Qle_bool_iff in Hle. congruence. }
      repeat split; intros; lra. }
  destruct (Hmax (h - total)) as (Hnonneg & Hzero & Hsame).
  split; [lra |]. split; [reflexivity |]. split; [exact Hnonneg |]. split.
  - intros H. apply Hover in H. split; [exact H | apply Hzero; lra].
  - intros H. split; [| apply Hsame; lra].
    destruct (Qltb 100 (total / h * 100)); [| reflexivity].
    pose proof (proj1 Hover eq_refl). lra.
Qed.

End RackUtilization.

(** ** Power consumption *)

Section PowerConsumption.

Import ProjectStore.

Lemma add_module_draws_step (m : value) (a b c x y z t : Q) :
  present m ->
  field_of m "powerDraw" = VObj (rails_of (a, b, c)) ->
  add_module_draws (consumption x y z t) m
  = Ok (consumption (x + a) (y + b) (z + c) t).
Proof.
  intros Hm Hd. unfold add_module_draws.
  rewrite (get_field_of _ _ Hm), Hd. cbn [bind truthy entries].
  reflexivity.
Qed.

Lemma fold_module_draws (modules : list value) (draws : list (Q * Q * Q)) :
  draws_are modules draws ->
  forall x y z t, exists p12 m12 p5,
    fold_each add_module_draws modules (consumption x y z t)
    = Ok (consumption p12 m12 p5 t) /\
    p12 == x + sum_of (List.map plus12 draws) /\
    m12 == y + sum_of (List.map minus12 draws) /\
    p5 == z + sum_of (List.map plus5 draws).
Proof.
  induction 1 as [|m [[a b] c] modules draws [Hm Hd] _ IH]; intros x y z t;
    cbn [fold_each List.map sum_of List.fold_right].
  - exists x, y, z. repeat split; try reflexivity; lra.
  - rewrite (add_module_draws_step m a b c x y z t Hm Hd). cbn [bind].
    destruct (IH (x + a) (y + b) (z + c) t) as (p12 & m12 & p5 & -> & H1 & H2 & H3).
    exists p12, m12, p5. split; [reflexivity |].
    unfold sum_of in *. cbn [plus12 minus12 plus5 fst snd]. repeat split; lra.
Qed.

(** X18. For a project found whose modules are objects that each carry a
    number for each of the three rails, [calculatePowerConsumption] returns
    the per-rail sums over the modules, and a total that is the +12V sum
    plus the absolute value of the -12V sum plus the +5V sum. *)
Theorem calculatePowerConsumption_sums
  (projectId : string) (project : gmap string value) (modules : list value)
  (draws : list (Q * Q * Q)) (w w1 : world) :
  getProjectById projectId w = (Ok (VObj project), w1) ->
  project !! "modules" = Some (VArr modules) ->
  draws_are modules draws ->
  exists p12 m12 p5 total,
    calculatePowerConsumption projectId w
    = (Ok (VObj (consumption p12 m12 p5 total)), w1) /\
    p12 == sum_of (List.map plus12 draws) /\
    m12 == sum_of (List.map minus12 draws) /\
    p5 == sum_of (List.map plus5 draws) /\
    total == p12 + Qabs m12 + p5.
Proof.
  intros Hfound Hmodules Hdraws.
  destruct (fold_module_draws modules draws Hdraws 0 0 0 0)
    as (p12 & m12 & p5 & Hfold & H1 & H2 & H3).
  exists p12, m12, p5, (p12 + Qabs m12 + p5).
  split; [| repeat split; try reflexivity; lra].
  unfold calculatePowerConsumption, try_catch, and_then, lift.
  rewrite Hfound. cbn [truthy negb]. unfold consumption_of.
  cbn [get field_of]. rewrite Hmodules. cbn [default from_option id bind as_array].
  change (list_to_map [("+12V", VNum 0); ("-12V", VNum 0); ("+5V", VNum 0);
                       ("total", VNum 0)])
    with (consumption 0 0 0 0).
  rewrite Hfold. reflexivity.
Qed.

End PowerConsumption.

(** ** Which files are accepted *)

Section FileChecks.

Import FileUploadService.

Lemma includes_In (types : list string) (t : string) :
  includes types (VStr t) = true <-> In t types.
Proof.
  cbn [includes]. rewrite List.existsb_exists. split.
  - intros (x & Hin & E). apply String.eqb_eq in E. now subst.
  - intros Hin. exists t. split; [exact Hin | apply String.eqb_refl].
Qed.

Lemma includes_text (types : list string) (v : value) :
  includes types v = true -> exists t, v = VStr t /\ In t types.
Proof.
  destruct v; cbn [includes]; try discriminate.
  intros H. eexists. split; [reflexivity |]. now apply includes_In.
Qed.

Lemma image_type_prefix (t : string) :
  In t _allowedImageTypes ->
  String.prefix "image/" t = true /\ includes _allowedModelTypes (VStr t) = false.
Proof. intros [<- | [<- | [<- | [<- | []]]]]; split; reflexivity. Qed.

Lemma model_type_prefix (t : string) :
  In t _allowedModelTypes ->
  String.prefix "image/" t = false /\ String.prefix "model/" t = true /\
  includes _allowedImageTypes (VStr t) = false.
Proof. intros [<- | [<- | [<- | [<- | []]]]]; repeat split; reflexivity. Qed.

Lemma allowed_types_known (v : value) (allowed : list string) :
  _determineAllowedTypes v = Ok allowed ->
  includes allowed v = true ->
  includes _allowedImageTypes v = true \/ includes _allowedModelTypes v = true.
Proof.
  destruct v as [| |b|q|s|items|fields]; cbn [_determineAllowedTypes get bind];
    try discriminate.
  destruct (String.prefix "image/" s);
    [| destruct (String.prefix "model/" s)]; intros H; injection H as <-; intros H.
  - now left.
  - now right.
  - discriminate.
Qed.

(** X19. A file object with a text for type and a number for size passes
    [_validateFile] exactly when its type is one of the four image types and
    its size is at most [_maxImageSize] (10 MB), or one of the four model
    types and at most [_maxModelSize] (50 MB).  The 5 MB limit applies only to files that are then refused for
    their type. *)
Theorem validateFile_accepts_iff (fields : gmap string value) (t : string) (n : Q) :
  fields !! "type" = Some (VStr t) ->
  fields !! "size" = Some (VNum n) ->
  _validateFile (VObj fields) = Ok tt <->
  (In t _allowedImageTypes /\ n <= inject_Z _maxImageSize) \/
  (In t _allowedModelTypes /\ n <= inject_Z _maxModelSize).
Proof.
  intros Ht Hn. unfold _validateFile. cbn [truthy negb get field_of bind].
  rewrite Ht, Hn. cbn [default from_option id bind gt_num to_number].
  unfold _determineMaxSize.
  destruct (includes _allowedImageTypes (VStr t)) eqn:Ei.
  - pose proof (proj1 (includes_In _ _) Ei) as Hin.
    destruct (image_type_prefix t Hin) as [Hp Hm].
    destruct (Qltb (inject_Z _maxImageSize) n) eqn:Eb.
    + split; [discriminate |]. intros [[_ H] | [H _]].
      * rewrite (Qltb_false _ _ H) in Eb. discriminate.
      * apply includes_In in H. congruence.
    + cbn [_determineAllowedTypes]. rewrite Hp. cbn [bind]. rewrite Ei. cbn [negb].
      split; [| reflexivity]. intros _. left. split; [exact Hin |].
      now apply Qltb_false_inv.
  - destruct (includes _allowedModelTypes (VStr t)) eqn:Em.
    + pose proof (proj1 (includes_In _ _) Em) as Hin.
      destruct (model_type_prefix t Hin) as (Hp1 & Hp2 & _).
      destruct (Qltb (inject_Z _maxModelSize) n) eqn:Eb.
      * split; [discriminate |]. intros [[H _] | [_ H]].
        -- apply includes_In in H. congruence.
        -- rewrite (Qltb_false _ _ H) in Eb. discriminate.
      * cbn [_determineAllowedTypes]. rewrite Hp1, Hp2. cbn [bind]. rewrite Em.
        cbn [negb]. split; [| reflexivity]. intros _. right. split; [exact Hin |].
        now apply Qltb_false_inv.
    + split.
      * destruct (Qltb _ n); [discriminate |].
        destruct (_determineAllowedTypes (VStr t)) as [allowed| |] eqn:Ea;
          cbn [bind]; try discriminate.
        destruct (includes allowed (VStr t)) eqn:Ein; cbn [negb]; [| discriminate].
        destruct (allowed_types_known _ _ Ea Ein); congruence.
      * intros [[H _] | [H _]]; apply includes_In in H; congruence.
Qed.

(** X20. A file that passed [_validateFile] is never of the category
    [unknown]: [_determineFileType] calls it an image or a model, whatever
    the file is. *)
Theorem validated_file_has_known_category (file : value) :
  _validateFile file = Ok tt ->
  _determineFileType file = Ok "image" \/ _determineFileType file = Ok "model".
Proof.
  unfold _validateFile, _determineFileType. intros H.
  destruct (negb (truthy file)); [discriminate |].
  destruct (get file "type") as [v| |]; cbn [bind] in *; try discriminate.
  destruct (get file "size") as [size| |]; cbn [bind] in *; try discriminate.
  destruct (gt_num size _) as [[|]| |]; cbn [bind] in *; try discriminate.
  destruct (_determineAllowedTypes v) as [allowed| |] eqn:Ea; cbn [bind] in *;
    try discriminate.
  destruct (includes allowed v) eqn:Ein; cbn [negb] in *; [| discriminate].
  destruct (includes _allowedImageTypes v) eqn:Ei; [now left | right].
  destruct (allowed_types_known _ _ Ea Ein) as [E | E]; [congruence |].
  now rewrite E.
Qed.

End FileChecks.

(** ** The AI generation service *)

Section Generation.

Lemma createModule_body_without_powerDraw (props : gmap string value) :
  props !! "powerDraw" = None ->
  exists msg, createModule_body (VObj props) = Throw (TypeError msg).
Proof.
  intros H.
  destruct (validateModuleSpec_throws_when_powerDraw_missing props) as [msg E].
  - now rewrite H.
  - exists msg. unfold createModule_body. now rewrite E.
Qed.

(** X21. [_create3DModelRepresentation] never yields a 3D model.  The
    specification it hands to [create3DModel] has no [powerDraw], so
    whenever the generated model can be read the result is [null], after
    two error reports: the TypeError of the module validation and the
    "Invalid module specification" of [create3DModel].  (Otherwise the
    reading of the generated model throws a TypeError, or leaves the
    fragment.) *)
Theorem create3DModelRepresentation_never_builds (generatedModel : value) (w : world) :
  (exists msg,
     AIGenerationService._create3DModelRepresentation generatedModel w
     = (Ok None,
        logged (Error "Invalid module specification") "3D Module Model Generation"
          (logged (TypeError msg) "Module Design Creation" w))) \/
  (exists msg,
     AIGenerationService._create3DModelRepresentation generatedModel w
     = (Throw (TypeError msg), w)) \/
  AIGenerationService._create3DModelRepresentation generatedModel w = (Unsupported, w).
Proof.
  unfold AIGenerationService._create3DModelRepresentation, and_then, lift.
  destruct (get generatedModel "service") as [service| e |] eqn:Es.
  2:{ right. left. destruct generatedModel; try discriminate Es;
        injection Es as <-; eexists; reflexivity. }
  2:{ destruct generatedModel; discriminate Es. }
  destruct (AIGenerationService.template_text service) as [text| |] eqn:Et.
  2:{ destruct service; try destruct b; discriminate Et. }
  2:{ now right; right. }
  destruct (get generatedModel "dimensions") as [dims| |] eqn:Ed.
  2,3: destruct generatedModel; discriminate.
  destruct (get dims "width") as [width0| e |] eqn:Ew.
  2:{ right. left. destruct dims; try discriminate Ew;
        injection Ew as <-; eexists; reflexivity. }
  2:{ destruct dims; discriminate Ew. }
  destruct (to_number width0) as [widthMm| |] eqn:En.
  2:{ destruct width0; discriminate En. }
  2:{ now right; right. }
  destruct (get dims "height") as [height| |] eqn:Eh.
  2,3: destruct dims; discriminate.
  destruct (get dims "depth") as [depth| |] eqn:Edp.
  2,3: destruct dims; discriminate.
  left. rewrite create3DModel_unfold.
  match goal with
  | |- context [createModule_body (VObj ?p)] =>
      destruct (createModule_body_without_powerDraw p) as [msg ->]
  end.
  - apply lookup_insert_ne_None || reflexivity.
  - now exists msg.
Qed.

Lemma generation_images_refused (spec : value) (errs : list string) :
  AIGenerationService.check_field spec
    ("images",
     AIGenerationService.Field
       {| AIGenerationService.required := true;
          AIGenerationService.type := Some "array";
          AIGenerationService.allowedValues := None;
          AIGenerationService.minLength := Some 1%Z;
          AIGenerationService.maxLength := Some 5%Z;
          AIGenerationService.validator := None |}) = Ok errs ->
  errs = ["images is required"] \/ errs = ["images must be of type array"].
Proof.
  unfold AIGenerationService.check_field.
  cbn [fst snd AIGenerationService.rules_of AIGenerationService.required andb].
  destruct (get spec "images") as [v| |]; cbn [bind]; try discriminate.
  destruct v; cbn; intros H; injection H as <-; auto.
Qed.

(** X22. [_validateGenerationSpec] accepts no specification: whenever it
    returns, the result is invalid and says that [images] is required or
    that [images] must be of type array, since [typeof] is never
    ['array']. *)
Theorem validateGenerationSpec_never_valid (spec : value) (r : ValidationResult) :
  AIGenerationService._validateGenerationSpec spec = Ok r ->
  isValid r = false /\
  (In "images is required" (errors r) \/
   In "images must be of type array" (errors r)).
Proof.
  unfold AIGenerationService._validateGenerationSpec, AIGenerationService._modelSchema.
  cbn [collect].
  destruct (AIGenerationService.check_field spec ("inputType", _)) as [e1| |];
    cbn [bind]; try discriminate.
  destruct (AIGenerationService.check_field spec ("dimensions", _)) as [e2| |];
    cbn [bind]; try discriminate.
  destruct (AIGenerationService.check_field spec ("images", _)) as [e3| |] eqn:E3;
    cbn [bind]; try discriminate.
  destruct (AIGenerationService.check_field spec ("qualityPreset", _)) as [e4| |];
    cbn [bind]; try discriminate.
  intros H. injection H as <-. unfold result_of. cbn [isValid errors].
  apply generation_images_refused in E3.
  split.
  - destruct E3 as [-> | ->]; rewrite !List.length_app; cbn [List.length];
      apply Nat.eqb_neq; lia.
  - destruct E3 as [-> | ->]; [left | right];
      rewrite !List.in_app_iff; right; right; left; now left.
Qed.

Lemma within_range (model : value) (key : string) (q lo hi : Q) :
  get model key = Ok (VNum q) -> lo <= q <= hi ->
  AIGenerationService.within model key lo hi = Ok true.
Proof.
  intros Hget [Hlo Hhi]. unfold AIGenerationService.within.
  rewrite Hget. cbn [bind AIGenerationService.ge_num AIGenerationService.le_num to_number].
  rewrite (proj2 (Qle_bool_iff lo q) Hlo). cbn [bind].
  now rewrite (proj2 (Qle_bool_iff q hi) Hhi).
Qed.

(** X23. For a specification whose width, height and depth are numbers (a
    [VNum] is a finite number; a NaN, which the range checks of the code let
    through, is none), every module [createModule] returns passes
    [validateEurorackCompliance]: the three checks pass and the module is
    compliant. *)
Theorem created_module_is_compliant
  (props : gmap string value) (m : value) (w h d : Q) :
  props !! "width" = Some (VNum w) ->
  props !! "height" = Some (VNum h) ->
  props !! "depth" = Some (VNum d) ->
  createModule_body (VObj props) = Ok m ->
  exists c,
    AIGenerationService.validateEurorackCompliance m = Ok c /\
    AIGenerationService.isCompliant c = true /\
    AIGenerationService.passed
      (AIGenerationService.widthInHP (AIGenerationService.checks c)) = true /\
    AIGenerationService.passed
      (AIGenerationService.height (AIGenerationService.checks c)) = true /\
    AIGenerationService.passed
      (AIGenerationService.depth (AIGenerationService.checks c)) = true.
Proof.
  intros _ _ _ H.
  destruct (createModule_invariants props m H)
    as (name & width & height & depth & powerDraw & _ & _ & Hw & _ & Rw & Hh & _ & Rh
        & Hd & _ & Rd & _).
  unfold AIGenerationService.validateEurorackCompliance.
  rewrite (within_range m "width" width 2 42 Hw Rw).
  rewrite (within_range m "height" height 100 150 Hh Rh).
  rewrite (within_range m "depth" depth 20 45 Hd Rd).
  cbn [bind]. eexists. split; [reflexivity |]. cbn. repeat split.
Qed.

End Generation.

(** ** The images of the current module *)

Section CurrentModuleImages.

(** X24. With no current module, [_updateCurrentModuleImages] always throws
    a TypeError and adds no image: the module it asks [createModule] for has
    no [powerDraw], so [createModule] logs the TypeError of the validation
    and returns [null], which becomes the current module and whose [images]
    cannot be read. *)
Theorem updateCurrentModuleImages_without_module
  (images currentModule : value) (w : world) :
  truthy currentModule = false ->
  exists msg logged_msg,
    AppController._updateCurrentModuleImages images currentModule w
    = (Throw (TypeError msg),
       (VNull, logged (TypeError logged_msg) "Module Design Creation" w)).
Proof.
  intros H. unfold AppController._updateCurrentModuleImages. rewrite H. cbn [negb].
  unfold createModule, try_catch, lift, and_then, handleError, logged.
  unfold AppController.newModuleSpec.
  match goal with
  | |- context [createModule_body (VObj ?p)] =>
      destruct (createModule_body_without_powerDraw p) as [msg ->]; [reflexivity |]
  end.
  eexists. exists msg. reflexivity.
Qed.

End CurrentModuleImages.

(** ** The EuroRackApp class: dragging and the power of a rack *)

Section RackApp.

Import EuroRackAppRack.

Lemma add_module_step (m : value) (d : Q * Q * Q) (x y z : Q) :
  present m -> present (field_of m "powerDraw") ->
  or_else (field_of (field_of m "powerDraw") "+12V") (VNum 0) = VNum (plus12 d) ->
  or_else (field_of (field_of m "powerDraw") "-12V") (VNum 0) = VNum (minus12 d) ->
  or_else (field_of (field_of m "powerDraw") "+5V") (VNum 0) = VNum (plus5 d) ->
  add_module (rails_of (x, y, z)) m
  = Ok (rails_of (x + plus12 d, y + minus12 d, z + plus5 d)).
Proof.
  intros Hm Hp H1 H2 H3. unfold add_module, add_rail.
  rewrite (get_field_of _ _ Hm). cbn [bind].
  rewrite !(get_field_of _ _ Hp). cbn [bind].
  rewrite H1. cbn [rails_of]. cbn [bind]. 
  change (default VUndefined (_ !! "+12V")) with (VNum x).
  cbn [ProjectStore.plus bind].
  rewrite H2.
  match goal with |- context [default VUndefined (?t !! "-12V")] =>
    change (default VUndefined (t !! "-12V")) with (VNum y) end.
  cbn [ProjectStore.plus bind].
  rewrite H3.
  match goal with |- context [default VUndefined (?t !! "+5V")] =>
    change (default VUndefined (t !! "+5V")) with (VNum z) end.
  cbn [ProjectStore.plus bind].
  reflexivity.
Qed.

Lemma fold_add_module (modules : list value) (draws : list (Q * Q * Q)) :
  draws_or_zero modules draws ->
  forall x y z, exists p12 m12 p5,
    fold_each add_module modules (rails_of (x, y, z)) = Ok (rails_of (p12, m12, p5)) /\
    p12 == x + sum_of (List.map plus12 draws) /\
    m12 == y + sum_of (List.map minus12 draws) /\
    p5 == z + sum_of (List.map plus5 draws).
Proof.
  induction 1 as [|m d modules draws (Hm & Hp & H1 & H2 & H3) _ IH]; intros x y z;
    cbn [fold_each List.map sum_of List.fold_right].
  - exists x, y, z. repeat split; try reflexivity; lra.
  - rewrite (add_module_step m d x y z Hm Hp H1 H2 H3). cbn [bind].
    destruct (IH (x + plus12 d) (y + minus12 d) (z + plus5 d))
      as (p12 & m12 & p5 & -> & E1 & E2 & E3).
    exists p12, m12, p5. split; [reflexivity |].
    unfold sum_of in *. repeat split; lra.
Qed.

(** X25. [calculateTotalPower] adds up, rail by rail, the draws of the
    rack's modules, a rail that a module does not give (or gives as 0)
    counting for 0; for no module at all every rail is 0. *)
Theorem calculateTotalPower_sums (modules : list value) (draws : list (Q * Q * Q)) :
  draws_or_zero modules draws ->
  exists p12 m12 p5,
    calculateTotalPower modules = Ok (VObj (rails_of (p12, m12, p5))) /\
    p12 == sum_of (List.map plus12 draws) /\
    m12 == sum_of (List.map minus12 draws) /\
    p5 == sum_of (List.map plus5 draws).
Proof.
  intros H. destruct (fold_add_module modules draws H 0 0 0)
    as (p12 & m12 & p5 & E & E1 & E2 & E3).
  exists p12, m12, p5. unfold calculateTotalPower.
  change (list_to_map [("+12V", VNum 0); ("-12V", VNum 0); ("+5V", VNum 0)])
    with (rails_of (0, 0, 0)).
  rewrite E. cbn [bind]. repeat split; try reflexivity; lra.
Qed.

Lemma dragged_percent_range (client origin extent p : Q) :
  dragged_percent client origin extent = Ok p -> 0 <= p <= 100.
Proof.
  unfold dragged_percent. destruct (Qeq_bool extent 0); [discriminate |].
  intros H. injection H as <-. unfold Math_max, Math_min.
  set (raw := (client - origin) / extent * 100).
  destruct (Qle_bool 100 raw) eqn:E1.
  - change (Qle_bool 0 100) with true. cbv iota. lra.
  - destruct (Qle_bool 0 raw) eqn:E2.
    + apply Qle_bool_iff in E2. split; [exact E2 |].
      destruct (Qlt_le_dec raw 100) as [Hlt | Hle]; [lra |].
      apply Qle_bool_iff in Hle. congruence.
    + lra.
Qed.

Lemma dragged_percent_returns (client origin extent : Q) :
  ~ extent == 0 -> exists p, dragged_percent client origin extent = Ok p.
Proof.
  intros Hne. unfold dragged_percent.
  destruct (Qeq_bool extent 0) eqn:E; [| eexists; reflexivity].
  apply Qeq_bool_iff in E. contradiction.
Qed.

(** X26. Over a preview rectangle whose width and height are not zero, a
    recognised control that was dragged lands on the panel wherever the
    mouse is: [onMouseMove] stores coordinates between 0 and 100, and
    [addControlToModel] places the control within half the width and half
    the height of the panel's centre, one millimetre before the housing. *)
Theorem dragged_control_on_panel
  (mprops cprops : gmap string value) (w h d : Q) (g : THREE.Group)
  (clientX left width clientY top height : Q) :
  mprops !! "depth" = Some (VNum d) ->
  0 <= w -> 0 <= h ->
  recognized (VObj cprops) ->
  ~ width == 0 -> ~ height == 0 ->
  exists x y,
    dragged_percent clientX left width = Ok x /\
    dragged_percent clientY top height = Ok y /\
    0 <= x <= 100 /\ 0 <= y <= 100 /\
    exists mesh,
      EuroRackApp.addControlToModel g (VObj mprops)
        (VObj (<["y" := VNum y]> (<["x" := VNum x]> cprops)))
        (w * EuroRackApp.hpUnit) h = Ok (g ++ [mesh])%list /\
      on_panel (THREE.position mesh) (w * EuroRackApp.hpUnit) h d.
Proof.
  intros Hd Pw Ph Hrec Hwidth Hheight.
  destruct (dragged_percent_returns clientX left width Hwidth) as [x Hx].
  destruct (dragged_percent_returns clientY top height Hheight) as [y Hy].
  exists x, y.
  pose proof (dragged_percent_range _ _ _ _ Hx) as Rx.
  pose proof (dragged_percent_range _ _ _ _ Hy) as Ry.
  split; [exact Hx |]. split; [exact Hy |].
  split; [exact Rx |]. split; [exact Ry |].
  unfold EuroRackApp.addControlToModel.
  unfold recognized in Hrec. cbn [get field_of bind] in *.
  set (control := <["y" := VNum y]> (<["x" := VNum x]> cprops)).
  assert (Ex : control !! "x" = Some (VNum x)).
  { unfold control. rewrite lookup_insert_ne by discriminate. apply lookup_insert_eq. }
  assert (Ey : control !! "y" = Some (VNum y)) by apply lookup_insert_eq.
  assert (Et : control !! "type" = cprops !! "type").
  { unfold control. now rewrite !lookup_insert_ne by discriminate. }
  rewrite Ex, Ey, Et, Hd. cbn [default from_option id to_number bind].
  assert (HW : 0 <= w * EuroRackApp.hpUnit).
  { apply Qmult_le_0_compat; [exact Pw | discriminate]. }
  destruct Hrec as [E | [E | E]]; injection E as E; rewrite E; cbn;
    (eexists; (split; [reflexivity |]); unfold on_panel; cbn;
     (split; [apply (percent_across x _ Rx HW)
             | split; [exact (percent_down y h Ry Ph) | reflexivity]])).
Qed.

End RackApp.

(** ** validateInput *)

Section ValidateInput.

Lemma check_key_untyped_value (input : value) (key t : string) (rules : FieldSchema) :
  type rules = Some t -> t <> "" -> t <> "undefined" ->
  field_of input key = VUndefined ->
  ErrorService.check_key input (key, rules) <> Ok tt.
Proof.
  intros Ht Hne Hnu Hv. unfold ErrorService.check_key. cbn [fst snd].
  rewrite Ht. apply String.eqb_neq in Hne. rewrite Hne.
  destruct (nullish input) eqn:Hn.
  - destruct input; try discriminate Hn; cbn [get bind];
      destruct (required rules); cbn [bind]; discriminate.
  - rewrite (get_field_of _ _ Hn), Hv. cbn [bind truthy negb typeof].
    destruct (required rules); cbn [bind]; [discriminate |].
    assert (E : String.eqb "undefined" t = false).
    { apply String.eqb_neq. congruence. }
    rewrite E. discriminate.
Qed.

Lemma validateInput_true (input : value) (schema : list (string * FieldSchema))
  (w : world) :
  fst (ErrorService.validateInput input schema w) = Ok true ->
  Forall (fun entry => ErrorService.check_key input entry = Ok tt) schema.
Proof.
  unfold ErrorService.validateInput, try_catch, lift, and_then, handleError.
  induction schema as [|entry rest IH]; [constructor |].
  cbn [fold_each]. destruct (ErrorService.check_key input entry) as [[]| |] eqn:E;
    cbn [bind fst]; try discriminate.
  intros H. constructor; [exact E | exact (IH H)].
Qed.

(** X27. [validateInput] never returns [true] for an input that lacks a key
    for which the schema declares a type, the type being a non-empty text
    other than ['undefined']: such a key is required, whether or not its
    entry says so, since the type of a missing value is ['undefined']. *)
Theorem validateInput_typed_key_is_required
  (input : value) (schema : list (string * FieldSchema)) (key t : string)
  (rules : FieldSchema) (w : world) :
  In (key, rules) schema ->
  type rules = Some t -> t <> "" -> t <> "undefined" ->
  field_of input key = VUndefined ->
  fst (ErrorService.validateInput input schema w) <> Ok true.
Proof.
  intros Hin Ht Hne Hnu Hv Htrue.
  apply validateInput_true in Htrue.
  apply (proj1 (List.Forall_forall _ _) Htrue) in Hin.
  exact (check_key_untyped_value input key t rules Ht Hne Hnu Hv Hin).
Qed.

End ValidateInput.

(** ** Asking about a project that is not there *)

Section UnknownProject.

Import ProjectStore.

Lemma getProjectById_unknown (projectId : string) (projects : list value) (w : world) :
  holds w projects ->
  projectCache w !! projectId = None ->
  Forall present projects ->
  List.find (has_id projectId) projects = None ->
  getProjectById projectId w = (Ok VNull, w).
Proof.
  intros Hw Hc Hall Hnone.
  unfold getProjectById, try_catch, and_then, cache_get, lift.
  rewrite Hc, (getProjects_raw_holds w projects Hw). cbn [as_array].
  now rewrite (find_by_id_present projectId projects Hall), Hnone.
Qed.

(** X28. For an identifier that is neither cached nor stored,
    [validateRackUtilization] and [calculatePowerConsumption] return [null],
    each after one report of "Project not found" under its own context, and
    leave the cache and the stored projects as they were. *)
Theorem queries_of_unknown_project
  (projectId : string) (projects : list value) (w : world) :
  holds w projects ->
  projectCache w !! projectId = None ->
  Forall present projects ->
  List.find (has_id projectId) projects = None ->
  validateRackUtilization projectId w
  = (Ok None, logged (Error "Project not found") "Rack Utilization Validation" w) /\
  calculatePowerConsumption projectId w
  = (Ok VNull, logged (Error "Project not found") "Power Consumption Calculation" w) /\
  same_store w (logged (Error "Project not found") "Rack Utilization Validation" w) /\
  same_store w (logged (Error "Project not found") "Power Consumption Calculation" w).
Proof.
  intros Hw Hc Hall Hnone.
  pose proof (getProjectById_unknown projectId projects w Hw Hc Hall Hnone) as E.
  unfold validateRackUtilization, calculatePowerConsumption, try_catch, and_then, lift.
  rewrite E. cbn [truthy negb]. repeat split.
Qed.

End UnknownProject.

(** ** Validation without a power draw *)

Section PowerDrawRequired.

(** C2. A module specification with a text name, a width between 2 and 42,
    a height between 100 and 150 and a depth between 20 and 45 that gives
    no [powerDraw] (so that no rail draws outside 0..500) is not accepted
    with an empty list of errors: validation raises a [TypeError]. *)
Theorem validateModuleSpec_in_range_needs_powerDraw
  (props : gmap string value) (name : string) (width height depth : Q) :
  props !! "name" = Some (VStr name) ->
  props !! "width" = Some (VNum width) -> 2 <= width <= 42 ->
  props !! "height" = Some (VNum height) -> 100 <= height <= 150 ->
  props !! "depth" = Some (VNum depth) -> 20 <= depth <= 45 ->
  props !! "powerDraw" = None ->
  _validateModuleSpec (VObj props)
  = Throw (TypeError "Cannot read properties of undefined (reading '+12V')").
Proof.
  intros Hname Hw Hwr Hh Hhr Hd Hdr Hp.
  unfold _validateModuleSpec, _moduleSchema.
  cbn [collect].
  rewrite (check_number_in_range props "width" 2 42 width Hw Hwr).
  rewrite (check_number_in_range props "height" 100 150 height Hh Hhr).
  rewrite (check_number_in_range props "depth" 20 45 depth Hd Hdr).
  unfold ModuleDesignService.check_field at 1. cbn. rewrite Hname. cbn.
  unfold ModuleDesignService.check_field. cbn. rewrite Hp. reflexivity.
Qed.

Lemma validateModuleSpec_in_range_needs_powerDraw_witness :
  _validateModuleSpec new_module
  = Throw (TypeError "Cannot read properties of undefined (reading '+12V')").
Proof.
  apply (validateModuleSpec_in_range_needs_powerDraw _ "New Module" 4 128.5 25);
    try reflexivity; split; discriminate.
Defined.

End PowerDrawRequired.

(** ** The project an update builds *)

Section UpdatedProject.







End UpdatedProject.

(** ** Skipped controls and the controls around them *)

Section SkippedControlsPlaced.

Lemma unrecognized_placeable (control : value) :
  unrecognized control -> placeable control.
Proof.
  intros (ctype & Hget & Hk & Hj & Hs). split.
  - destruct control; try discriminate Hget; reflexivity.
  - left. assert (Hf : field_of control "type" = ctype).
    { destruct control; try discriminate Hget; cbn [get] in Hget; congruence. }
    rewrite Hf. now apply control_shape_unrecognized.
Qed.

Lemma placement_unrecognized (w h d : Q) (control : value) :
  unrecognized control -> placement w h d control = [].
Proof.
  intros (ctype & Hget & Hk & Hj & Hs).
  assert (Hf : field_of control "type" = ctype).
  { destruct control; try discriminate Hget; cbn [get] in Hget; congruence. }
  unfold placement. rewrite Hf.
  now rewrite (control_shape_unrecognized ctype Hk Hj Hs).
Qed.

Lemma placement_recognized (w h d : Q) (control : value) :
  placeable control -> recognized control ->
  exists mesh, placement w h d control = [mesh].
Proof.
  intros [Hnn Hc] Hrec. unfold recognized in Hrec.
  rewrite (get_field_of _ _ Hnn) in Hrec. unfold placement.
  destruct Hc as [Hnone | (cx & cy & Hx & Hy)].
  - destruct Hrec as [E | [E | E]]; injection E as E; rewrite E in Hnone;
      discriminate Hnone.
  - rewrite Hx, Hy.
    destruct Hrec as [E | [E | E]]; injection E as E; rewrite E; eexists; reflexivity.
Qed.

Lemma skip_in_the_middle (w h d : Q) (control : value) (pre post : list value) :
  unrecognized control ->
  List.concat (List.map (placement w h d) (pre ++ control :: post))
  = List.concat (List.map (placement w h d) (pre ++ post)).
Proof.
  intros Hun. rewrite !List.map_app, !List.concat_app. cbn [List.map List.concat].
  now rewrite (placement_unrecognized w h d control Hun).
Qed.

(** C6. A control whose type is none of knob, jack and switch is skipped,
    and the recognised controls are still placed.  For a specification that
    passes validation, respectively a current module with numeric
    dimensions, and a list of controls with such a control at any place
    (the others being objects, each of no recognised type or with numeric
    coordinates): [create3DModel] returns, without an error or a report,
    the panel followed by the meshes of the other controls in their order,
    and [createModuleModel] the panel, the PCB and the housing followed by
    them; no mesh stands for the skipped control, and every recognised
    control of the list has exactly one. *)
Theorem unrecognized_control_skipped_others_placed
  (props mprops : gmap string value) (r : ValidationResult) (control : value)
  (pre post : list value) (w h d : Q) (state : world) :
  unrecognized control ->
  _validateModuleSpec (VObj props) = Ok r -> isValid r = true ->
  mprops !! "width" = Some (VNum w) ->
  mprops !! "height" = Some (VNum h) ->
  mprops !! "depth" = Some (VNum d) ->
  Forall placeable pre -> Forall placeable post ->
  let W := round (number_at props "width") in
  let H := round (number_at props "height") in
  let D := round (number_at props "depth") in
  create3DModel (with_controls props (pre ++ control :: post)) state
    = (Ok (Some (panel_of W H
                 :: List.concat (List.map (placement W H D) (pre ++ post)))),
       state)
  /\ (exists panel pcb housing,
        EuroRackApp.createModuleModel (VObj mprops) (pre ++ control :: post)
        = Ok ([panel; pcb; housing]
              ++ List.concat (List.map (placement w h d) (pre ++ post)))%list)
  /\ placement W H D control = [] /\ placement w h d control = []
  /\ (forall c, In c (pre ++ post) -> recognized c ->
        (exists mesh, placement W H D c = [mesh]) /\
        (exists mesh, placement w h d c = [mesh])).
Proof.
  intros Hun Hval Hv Hw Hh Hd Hpre Hpost W H D.
  assert (Hall : Forall placeable (pre ++ control :: post)).
  { apply List.Forall_app. split; [exact Hpre |].
    constructor; [now apply unrecognized_placeable | exact Hpost]. }
  split; [| split; [| split; [| split]]].
  - rewrite create3DModel_unfold.
    pose proof (validateModuleSpec_with_controls props (pre ++ control :: post)) as E.
    rewrite Hval in E. unfold with_controls in *.
    rewrite (createModule_body_accepted _ r E Hv).
    rewrite module_of_with_controls, build3DModel_created.
    rewrite (fold_place_control _ _ _ _ Hall). cbn [bind List.app].
    fold W H D. now rewrite (skip_in_the_middle W H D control pre post Hun).
  - unfold EuroRackApp.createModuleModel.
    cbn [get field_of bind]. rewrite Hw, Hh, Hd.
    cbn [default from_option id to_number bind].
    rewrite (fold_addControlToModel mprops w h d _ Hd Hall).
    rewrite (skip_in_the_middle w h d control pre post Hun).
    do 3 eexists. reflexivity.
  - now apply placement_unrecognized.
  - now apply placement_unrecognized.
  - intros c Hin Hrec.
    assert (Hc : placeable c).
    { apply List.in_app_or in Hin as [Hin | Hin];
        [exact (proj1 (List.Forall_forall _ _) Hpre c Hin)
        | exact (proj1 (List.Forall_forall _ _) Hpost c Hin)]. }
    split; now apply placement_recognized.
Qed.

Lemma unrecognized_control_skipped_others_placed_witness :
  let W := round (number_at typical_props "width") in
  let H := round (number_at typical_props "height") in
  let D := round (number_at typical_props "depth") in
  create3DModel (with_controls typical_props ([centred_knob] ++ slider :: [corner_jack]))
    empty_world
    = (Ok (Some (panel_of W H
                 :: List.concat (List.map (placement W H D)
                                          ([centred_knob] ++ [corner_jack])))),
       empty_world)
  /\ (exists panel pcb housing,
        EuroRackApp.createModuleModel (VObj typical_props)
          ([centred_knob] ++ slider :: [corner_jack])
        = Ok ([panel; pcb; housing]
              ++ List.concat (List.map (placement 8 128.5 30)
                                       ([centred_knob] ++ [corner_jack])))%list)
  /\ placement W H D slider = [] /\ placement 8 128.5 30 slider = []
  /\ (forall c, In c ([centred_knob] ++ [corner_jack]) -> recognized c ->
        (exists mesh, placement W H D c = [mesh]) /\
        (exists mesh, placement 8 128.5 30 c = [mesh])).
Proof.
  apply (unrecognized_control_skipped_others_placed
           typical_props typical_props {| isValid := true; errors := [] |} slider
           [centred_knob] [corner_jack] 8 128.5 30 empty_world).
  - exists (VStr "slider"). repeat split; try reflexivity; discriminate.
  - vm_compute. reflexivity.
  - reflexivity.
  - reflexivity.
  - reflexivity.
  - reflexivity.
  - constructor; [| constructor]. split; [reflexivity |].
    right. exists 50, 50. split; reflexivity.
  - constructor; [| constructor]. split; [reflexivity |].
    right. exists 10, 90. split; reflexivity.
Defined.

End SkippedControlsPlaced.

(** ** The further theorems at concrete inputs *)

Section FurtherWitnesses.

Import ProjectStore.

Lemma validateModuleSpec_reports_every_bound_witness :
  _validateModuleSpec (VObj oversized_props)
  = Ok (result_of ["width must be at least 2"; "height must be at most 150"]).
Proof.
  apply (validateModuleSpec_reports_every_bound
           oversized_props typical_rails "Wall" 1 200 30); try reflexivity.
  intros rail [<- | [<- | [<- | []]]]; unfold draw_in_range; cbn.
  - exists 120. split; [reflexivity | split; discriminate].
  - exists 500. split; [reflexivity | split; discriminate].
  - exact I.
Defined.

Lemma createModule_result_invariants_witness :
  exists (name : string) (powerDraw : value),
    get (module_of typical_props) "name" = Ok (VStr name) /\ trimmed name /\
    get (module_of typical_props) "width" = Ok (VNum (round 8)) /\
    is_integer (round 8) /\ 2 <= round 8 <= 42 /\
    get (module_of typical_props) "height" = Ok (VNum (round 128.5)) /\
    is_integer (round 128.5) /\ 100 <= round 128.5 <= 150 /\
    get (module_of typical_props) "depth" = Ok (VNum (round 30)) /\
    is_integer (round 30) /\ 20 <= round 30 <= 45 /\
    get (module_of typical_props) "powerDraw" = Ok powerDraw /\
    forall rail, In rail powerConnectors ->
      exists q, get powerDraw rail = Ok (VNum q) /\ 0 <= q <= 500.
Proof.
  apply (createModule_result_invariants typical_props _ 8 128.5 30);
    [reflexivity | reflexivity | reflexivity | vm_compute; reflexivity].
Defined.

Lemma createModule_idempotent_witness :
  createModule_body (module_of typical_props) = Ok (module_of typical_props).
Proof.
  apply (createModule_idempotent typical_props). vm_compute. reflexivity.
Defined.

Lemma create3DModel_panel_then_controls_witness :
  create3DModel (with_controls typical_props three_controls) empty_world
  = (Ok (Some (panel_of (round (number_at typical_props "width"))
                        (round (number_at typical_props "height"))
               :: List.concat
                    (List.map (placement (round (number_at typical_props "width"))
                                         (round (number_at typical_props "height"))
                                         (round (number_at typical_props "depth")))
                              three_controls))),
     empty_world).
Proof.
  apply (create3DModel_panel_then_controls
           typical_props {| isValid := true; errors := [] |} three_controls empty_world).
  - vm_compute. reflexivity.
  - reflexivity.
  - unfold three_controls.
    constructor; [| constructor; [| constructor; [| constructor]]];
      (split; [reflexivity |]).
    + right. exists 50, 50. split; reflexivity.
    + left. reflexivity.
    + right. exists 10, 90. split; reflexivity.
Defined.

Lemma control_placed_on_panel_witness :
  (exists mesh,
     _addControlTo3DModel [] (VObj knob_props) (VObj typical_props) = Ok ([] ++ [mesh])%list /\
     on_panel (THREE.position mesh) (8 * hpUnit) 128.5 30) /\
  (exists mesh,
     EuroRackApp.addControlToModel [] (VObj typical_props) (VObj knob_props)
       (8 * EuroRackApp.hpUnit) 128.5 = Ok ([] ++ [mesh])%list /\
     on_panel (THREE.position mesh) (8 * EuroRackApp.hpUnit) 128.5 30).
Proof.
  apply (control_placed_on_panel typical_props knob_props 8 128.5 30 25 75 []);
    try reflexivity; try discriminate; try (split; discriminate).
  left. reflexivity.
Defined.

Lemma getProjectById_first_match_witness :
  getProjectById "b" three_projects_world
  = (Ok (project_updated_at "b" 30),
     with_cached "b" (project_updated_at "b" 30) three_projects_world).
Proof.
  apply (getProjectById_first_match "b" three_projects three_projects_world).
  - left. reflexivity.
  - reflexivity.
  - repeat constructor.
Defined.

Lemma getProjectById_answers_from_cache_witness :
  getProjectById "b"
    (with_storage Absent
       (with_cached "b" (project_updated_at "b" 30) three_projects_world))
  = (Ok (project_updated_at "b" 30),
     with_storage Absent
       (with_cached "b" (project_updated_at "b" 30) three_projects_world)).
Proof.
  apply (getProjectById_answers_from_cache "b" (project_updated_at "b" 30)
           three_projects_world).
  - vm_compute. reflexivity.
  - discriminate.
Defined.

Lemma saveProject_then_getProjectById_witness :
  exists saved,
    let w' := with_cached "b" (project_updated_at "b" 40)
                (with_storage (Parsed (VArr saved)) three_projects_world) in
    _saveProject (project_updated_at "b" 40) three_projects_world = (Ok tt, w') /\
    List.find (has_id "b") saved = Some (project_updated_at "b" 40) /\
    others "b" saved = others "b" three_projects /\
    getProjectById "b" w' = (Ok (project_updated_at "b" 40), w').
Proof.
  apply (saveProject_then_getProjectById
           (project_updated_at "b" 40) "b" three_projects three_projects_world).
  - reflexivity.
  - reflexivity.
  - left. reflexivity.
  - repeat constructor.
Defined.

Lemma deleteProject_then_getProjectById_witness :
  let w' := {| console := console three_projects_world;
               projectCache := delete "b" (projectCache three_projects_world);
               localStorage := Parsed (VArr (others "b" three_projects)) |} in
  deleteProject "b" three_projects_world = (Ok tt, w') /\
  getProjectById "b" w' = (Ok VNull, w').
Proof.
  apply (deleteProject_then_getProjectById "b" three_projects three_projects_world).
  - left. reflexivity.
  - repeat constructor.
Defined.

Lemma validateRackUtilization_fits_or_over_witness :
  exists u,
    validateRackUtilization "prj_2" two_module_world = (Ok (Some u), two_module_world) /\
    totalHP u == sum_of [8; 12] /\
    rackWidthHP u == 104 / 5.08 /\
    0 <= remainingHP u /\
    (isOverUtilized u = true ->
       rackWidthHP u < totalHP u /\ remainingHP u == 0) /\
    (totalHP u <= rackWidthHP u ->
       isOverUtilized u = false /\ remainingHP u == rackWidthHP u - totalHP u).
Proof.
  apply (validateRackUtilization_fits_or_over "prj_2" two_module_project
           (match two_module_project !! "modules" with
            | Some (VArr modules) => modules
            | _ => []
            end)
           [8; 12] (obj [("width", VNum 104)]) 104 two_module_world two_module_world);
    try reflexivity.
  repeat constructor.
Defined.

Lemma calculatePowerConsumption_sums_witness :
  exists p12 m12 p5 total,
    calculatePowerConsumption "prj_2" two_module_world
    = (Ok (VObj (consumption p12 m12 p5 total)), two_module_world) /\
    p12 == sum_of (List.map plus12 [(120, 50, 0); (80, 30, 10)]) /\
    m12 == sum_of (List.map minus12 [(120, 50, 0); (80, 30, 10)]) /\
    p5 == sum_of (List.map plus5 [(120, 50, 0); (80, 30, 10)]) /\
    total == p12 + Qabs m12 + p5.
Proof.
  apply (calculatePowerConsumption_sums "prj_2" two_module_project
           (match two_module_project !! "modules" with
            | Some (VArr modules) => modules
            | _ => []
            end)
           [(120, 50, 0); (80, 30, 10)] two_module_world two_module_world);
    try reflexivity.
  repeat constructor.
Defined.

Lemma validateFile_accepts_iff_witness :
  FileUploadService._validateFile (VObj png_file) = Ok tt <->
  (In "image/png" FileUploadService._allowedImageTypes /\
   1000 <= inject_Z FileUploadService._maxImageSize) \/
  (In "image/png" FileUploadService._allowedModelTypes /\
   1000 <= inject_Z FileUploadService._maxModelSize).
Proof.
  apply (validateFile_accepts_iff png_file "image/png" 1000); reflexivity.
Defined.

Lemma validated_file_has_known_category_witness :
  FileUploadService._determineFileType (VObj png_file) = Ok "image" \/
  FileUploadService._determineFileType (VObj png_file) = Ok "model".
Proof.
  apply (validated_file_has_known_category (VObj png_file)). vm_compute. reflexivity.
Defined.

Lemma validateGenerationSpec_never_valid_witness :
  isValid (result_of ["images must be of type array"]) = false /\
  (In "images is required" (errors (result_of ["images must be of type array"])) \/
   In "images must be of type array"
      (errors (result_of ["images must be of type array"]))).
Proof.
  apply (validateGenerationSpec_never_valid generation_spec). vm_compute. reflexivity.
Defined.

Lemma created_module_is_compliant_witness :
  exists c,
    AIGenerationService.validateEurorackCompliance (module_of typical_props) = Ok c /\
    AIGenerationService.isCompliant c = true /\
    AIGenerationService.passed
      (AIGenerationService.widthInHP (AIGenerationService.checks c)) = true /\
    AIGenerationService.passed
      (AIGenerationService.height (AIGenerationService.checks c)) = true /\
    AIGenerationService.passed
      (AIGenerationService.depth (AIGenerationService.checks c)) = true.
Proof.
  apply (created_module_is_compliant typical_props _ 8 128.5 30);
    [reflexivity | reflexivity | reflexivity | vm_compute; reflexivity].
Defined.

Lemma updateCurrentModuleImages_without_module_witness :
  exists msg logged_msg,
    AppController._updateCurrentModuleImages (VArr [VObj png_file]) VNull empty_world
    = (Throw (TypeError msg),
       (VNull, logged (TypeError logged_msg) "Module Design Creation" empty_world)).
Proof.
  apply (updateCurrentModuleImages_without_module (VArr [VObj png_file]) VNull empty_world).
  reflexivity.
Defined.

Lemma calculateTotalPower_sums_witness :
  exists p12 m12 p5,
    EuroRackAppRack.calculateTotalPower rack_modules
    = Ok (VObj (rails_of (p12, m12, p5))) /\
    p12 == sum_of (List.map plus12 [(120, 50, 0); (20, 15, 0)]) /\
    m12 == sum_of (List.map minus12 [(120, 50, 0); (20, 15, 0)]) /\
    p5 == sum_of (List.map plus5 [(120, 50, 0); (20, 15, 0)]).
Proof.
  apply (calculateTotalPower_sums rack_modules [(120, 50, 0); (20, 15, 0)]).
  repeat constructor.
Defined.

Lemma dragged_control_on_panel_witness :
  exists x y,
    EuroRackAppRack.dragged_percent 150 100 200 = Ok x /\
    EuroRackAppRack.dragged_percent 500 0 100 = Ok y /\
    0 <= x <= 100 /\ 0 <= y <= 100 /\
    exists mesh,
      EuroRackApp.addControlToModel [] (VObj typical_props)
        (VObj (<["y" := VNum y]> (<["x" := VNum x]> knob_props)))
        (8 * EuroRackApp.hpUnit) 128.5 = Ok ([] ++ [mesh])%list /\
      on_panel (THREE.position mesh) (8 * EuroRackApp.hpUnit) 128.5 30.
Proof.
  apply (dragged_control_on_panel typical_props knob_props 8 128.5 30 []
           150 100 200 500 0 100);
    try reflexivity; try discriminate.
  left. reflexivity.
Defined.

Lemma createModuleModel_layers_then_controls_witness :
  exists panel pcb housing,
    EuroRackApp.createModuleModel (VObj typical_props) three_controls
    = Ok ([panel; pcb; housing]
          ++ List.concat (List.map (placement 8 128.5 30) three_controls))%list /\
    THREE.geometry panel = THREE.BoxGeometry (8 * EuroRackApp.hpUnit) 128.5 2 /\
    THREE.geometry pcb
    = THREE.BoxGeometry (8 * EuroRackApp.hpUnit - 4) (128.5 - 10) 1.6 /\
    THREE.geometry housing = THREE.BoxGeometry (8 * EuroRackApp.hpUnit) 128.5 30.
Proof.
  apply (createModuleModel_layers_then_controls typical_props 8 128.5 30 three_controls);
    try reflexivity.
  unfold three_controls.
  constructor; [| constructor; [| constructor; [| constructor]]];
    (split; [reflexivity |]).
  - right. exists 50, 50. split; reflexivity.
  - left. reflexivity.
  - right. exists 10, 90. split; reflexivity.
Defined.

Lemma validateInput_typed_key_is_required_witness :
  fst (ErrorService.validateInput (obj [("name", VStr "VCO")]) label_schema empty_world)
  <> Ok true.
Proof.
  apply (validateInput_typed_key_is_required
           (obj [("name", VStr "VCO")]) label_schema "label" "string"
           {| required := false; type := Some "string"; minLength := None;
              maxLength := None; min := None; max := None; validator := None |}
           empty_world).
  - left. reflexivity.
  - reflexivity.
  - discriminate.
  - discriminate.
  - reflexivity.
Defined.

Lemma queries_of_unknown_project_witness :
  validateRackUtilization "z" three_projects_world
  = (Ok None,
     logged (Error "Project not found") "Rack Utilization Validation"
       three_projects_world) /\
  calculatePowerConsumption "z" three_projects_world
  = (Ok VNull,
     logged (Error "Project not found") "Power Consumption Calculation"
       three_projects_world) /\
  same_store three_projects_world
    (logged (Error "Project not found") "Rack Utilization Validation"
       three_projects_world) /\
  same_store three_projects_world
    (logged (Error "Project not found") "Power Consumption Calculation"
       three_projects_world).
Proof.
  apply (queries_of_unknown_project "z" three_projects three_projects_world).
  - left. reflexivity.
  - reflexivity.
  - repeat constructor.
  - reflexivity.
Defined.

End FurtherWitnesses.
